(** * szurubooru-toolkit: the auto-tagger script

    A shallow embedding of [src/szurubooru_toolkit/scripts/auto_tagger.py]
    and the properties of its tagging loop.

    The script is glue around collaborators that live in other modules
    (the booru client [szuru], the SauceNAO client, the Deepbooru
    classifier, the file system).  Their answers are taken from a [World]
    record of oracles; every call is recorded, with its answer, in a trace
    kept in the run state, together with the mutable configuration and the
    statistics counters.

    Python exceptions are results of the monad.  The collaborators are
    taken to answer every call, except [szuru.update_post], whose failure
    the script itself handles in one place; the exceptions that the script
    raises on its own are modelled where they arise: [exit()], [next] on
    an exhausted generator, [os.path.exists(None)], and the use of the
    name [deepbooru] when it was never bound.

    Strings are UTF-8; paths are the ones of [pathlib] on a POSIX
    system. *)

From Stdlib Require Import List String Ascii NArith ZArith QArith_base Bool Lia Arith.
Import ListNotations.

Local Open Scope string_scope.
Local Open Scope Z_scope.

(** ** Python string operations used by the script *)

(** A Python [str] is a sequence of code points; a [string] here is its
    UTF-8 encoding.  Searching, splitting and replacing with ASCII
    patterns are the same on the bytes as on the code points; the two
    operations that look at characters beyond ASCII, [splitlines] and
    [isnumeric], decode what they need. *)

Module PyStr.

Definition LF : ascii := "010"%char.
Definition CR : ascii := "013"%char.
Definition nl : string := String LF EmptyString.

(** [sub in s] *)
Fixpoint contains (sub s : string) : bool :=
  String.prefix sub s
  || match s with
     | EmptyString => false
     | String _ s' => contains sub s'
     end.

(** [s.replace(old, new)], for a non-empty [old] (both call sites):
    occurrences are replaced from the left and do not overlap; [skip]
    counts the characters of a matched occurrence still to be dropped. *)
Fixpoint replace_from (old new : string) (skip : nat) (s : string) : string :=
  match s with
  | EmptyString => EmptyString
  | String c s' =>
      match skip with
      | S k => replace_from old new k s'
      | O =>
          if String.prefix old s
          then new ++ replace_from old new (Nat.pred (String.length old)) s'
          else String c (replace_from old new 0 s')
      end
  end.

Definition replace (old new s : string) : string := replace_from old new 0 s.

(** [s.split(sep)] for a one-character separator. *)
Fixpoint split (sep : ascii) (s : string) : list string :=
  match s with
  | EmptyString => [EmptyString]
  | String c s' =>
      if Ascii.eqb c sep then EmptyString :: split sep s'
      else match split sep s' with
           | [] => [String c EmptyString]
           | w :: ws => String c w :: ws
           end
  end.

(** The line boundaries of [str.splitlines] that are one ASCII
    character: line feed, vertical tab, form feed, carriage return, and
    the file, group and record separators. *)
Definition is_linebreak (c : ascii) : bool :=
  match nat_of_ascii c with
  | 10%nat | 11%nat | 12%nat | 13%nat | 28%nat | 29%nat | 30%nat => true
  | _ => false
  end.

(** The boundaries beyond ASCII, in UTF-8: next line (U+0085), line
    separator (U+2028) and paragraph separator (U+2029). *)
Definition NEL : string := String "194" (String "133" EmptyString).
Definition LS : string := String "226" (String "128" (String "168" EmptyString)).
Definition PS : string := String "226" (String "128" (String "169" EmptyString)).

(** The number of bytes of the line boundary at the head of [s], 0 when
    there is none; a carriage return takes a line feed that follows it. *)
Definition boundary (s : string) : nat :=
  match s with
  | EmptyString => 0
  | String c s' =>
      if Ascii.eqb c CR
      then match s' with
           | String d _ => if Ascii.eqb d LF then 2 else 1
           | EmptyString => 1
           end
      else if is_linebreak c then 1
      else if String.prefix NEL s then 2
      else if String.prefix LS s || String.prefix PS s then 3
      else 0
  end%nat.

(** [s.splitlines()]; [skip] counts the bytes of a boundary still to be
    dropped. *)
Fixpoint splitlines_from (skip : nat) (s : string) : list string :=
  match s with
  | EmptyString => []
  | String c s' =>
      match skip with
      | S k => splitlines_from k s'
      | O =>
          match boundary s with
          | S k => EmptyString :: splitlines_from k s'
          | O =>
              match splitlines_from 0 s' with
              | [] => [String c EmptyString]
              | w :: ws => String c w :: ws
              end
          end
      end
  end.

Definition splitlines (s : string) : list string := splitlines_from 0 s.

(** The code points of a string.  [pending] continuation bytes are still
    to come for the code point whose leading bits are [acc]; [least] is
    the smallest code point that needs that many bytes.  The result is
    [None] for bytes that are no UTF-8. *)
Fixpoint code_points_from (pending : nat) (acc least : N) (s : string) : option (list N) :=
  match s with
  | EmptyString => match pending with O => Some [] | S _ => None end
  | String c s' =>
      let b := N_of_ascii c in
      match pending with
      | O =>
          if (b <? 128)%N then option_map (cons b) (code_points_from 0 0 0 s')
          else if (b <? 192)%N then None
          else if (b <? 224)%N then code_points_from 1 (b - 192) 128 s'
          else if (b <? 240)%N then code_points_from 2 (b - 224) 2048 s'
          else if (b <? 248)%N then code_points_from 3 (b - 240) 65536 s'
          else None
      | S k =>
          if ((128 <=? b) && (b <? 192))%N then
            let acc := (acc * 64 + (b - 128))%N in
            match k with
            | O =>
                if ((least <=? acc) && (acc <? 1114112))%N
                then option_map (cons acc) (code_points_from 0 0 0 s')
                else None
            | S _ => code_points_from k acc least s'
            end
          else None
      end
  end.

Definition code_points (s : string) : option (list N) := code_points_from 0 0 0 s.

(** The code points with the Unicode property Numeric_Type (decimal,
    digit or numeric), as ranges; Unicode 14.0, the database of
    CPython 3.11. *)
Definition numeric_ranges : list (N * N) :=
  [(48, 57); (178, 179); (185, 185); (188, 190); (1632, 1641); (1776, 1785);
   (1984, 1993); (2406, 2415); (2534, 2543); (2548, 2553); (2662, 2671);
   (2790, 2799); (2918, 2927); (2930, 2935); (3046, 3058); (3174, 3183);
   (3192, 3198); (3302, 3311); (3416, 3422); (3430, 3448); (3558, 3567);
   (3664, 3673); (3792, 3801); (3872, 3891); (4160, 4169); (4240, 4249);
   (4969, 4988); (5870, 5872); (6112, 6121); (6128, 6137); (6160, 6169);
   (6470, 6479); (6608, 6618); (6784, 6793); (6800, 6809); (6992, 7001);
   (7088, 7097); (7232, 7241); (7248, 7257); (8304, 8304); (8308, 8313);
   (8320, 8329); (8528, 8578); (8581, 8585); (9312, 9371); (9450, 9471);
   (10102, 10131); (11517, 11517); (12295, 12295); (12321, 12329);
   (12344, 12346); (12690, 12693); (12832, 12841); (12872, 12879);
   (12881, 12895); (12928, 12937); (12977, 12991); (13317, 13317);
   (13443, 13443); (14378, 14378); (15181, 15181); (19968, 19968);
   (19971, 19971); (19975, 19975); (19977, 19977); (20061, 20061);
   (20108, 20108); (20116, 20116); (20118, 20118); (20159, 20160);
   (20191, 20191); (20200, 20200); (20237, 20237); (20336, 20336);
   (20740, 20740); (20806, 20806); (20841, 20841); (20843, 20843);
   (20845, 20845); (21313, 21313); (21315, 21317); (21324, 21324);
   (21441, 21444); (22235, 22235); (22769, 22769); (22777, 22777);
   (24186, 24186); (24318, 24319); (24332, 24334); (24336, 24336);
   (25342, 25342); (25420, 25420); (26578, 26578); (28422, 28422);
   (29590, 29590); (30334, 30334); (32902, 32902); (33836, 33836);
   (36014, 36014); (36019, 36019); (36144, 36144); (38433, 38433);
   (38470, 38470); (38476, 38476); (38520, 38520); (38646, 38646);
   (42528, 42537); (42726, 42735); (43056, 43061); (43216, 43225);
   (43264, 43273); (43472, 43481); (43504, 43513); (43600, 43609);
   (44016, 44025); (63851, 63851); (63859, 63859); (63864, 63864);
   (63922, 63922); (63953, 63953); (63955, 63955); (63997, 63997);
   (65296, 65305); (65799, 65843); (65856, 65912); (65930, 65931);
   (66273, 66299); (66336, 66339); (66369, 66369); (66378, 66378);
   (66513, 66517); (66720, 66729); (67672, 67679); (67705, 67711);
   (67751, 67759); (67835, 67839); (67862, 67867); (68028, 68029);
   (68032, 68047); (68050, 68095); (68160, 68168); (68221, 68222);
   (68253, 68255); (68331, 68335); (68440, 68447); (68472, 68479);
   (68521, 68527); (68858, 68863); (68912, 68921); (69216, 69246);
   (69405, 69414); (69457, 69460); (69573, 69579); (69714, 69743);
   (69872, 69881); (69942, 69951); (70096, 70105); (70113, 70132);
   (70384, 70393); (70736, 70745); (70864, 70873); (71248, 71257);
   (71360, 71369); (71472, 71483); (71904, 71922); (72016, 72025);
   (72784, 72812); (73040, 73049); (73120, 73129); (73664, 73684);
   (74752, 74862); (92768, 92777); (92864, 92873); (93008, 93017);
   (93019, 93025); (93824, 93846); (119520, 119539); (119648, 119672);
   (120782, 120831); (123200, 123209); (123632, 123641); (125127, 125135);
   (125264, 125273); (126065, 126123); (126125, 126127); (126129, 126132);
   (126209, 126253); (126255, 126269); (127232, 127244); (130032, 130041);
   (131073, 131073); (131172, 131172); (131298, 131298); (131361, 131361);
   (133418, 133418); (133507, 133507); (133516, 133516); (133532, 133532);
   (133866, 133866); (133885, 133885); (133913, 133913); (140176, 140176);
   (141720, 141720); (146203, 146203); (156269, 156269); (194704, 194704)]%N.

Definition numeric_code_point (cp : N) : bool :=
  existsb (fun r => (fst r <=? cp)%N && (cp <=? snd r)%N) numeric_ranges.

(** [s.isnumeric()]: at least one character, and all of them numeric. *)
Definition isnumeric (s : string) : bool :=
  match code_points s with
  | Some (cp :: rest) => forallb numeric_code_point (cp :: rest)
  | _ => false
  end.

(** Truth value of a string: the empty string is false. *)
Definition truthy (s : string) : bool :=
  match s with EmptyString => false | _ => true end.

(** Truth value of [str | None]. *)
Definition truthy_opt (o : option string) : bool :=
  match o with Some s => truthy s | None => false end.

(** [str(x)] for [x : str | None]. *)
Definition str_opt (o : option string) : string :=
  match o with Some s => s | None => "None" end.

(** The character [c] does not occur in [s]. *)
Fixpoint lacks (c : ascii) (s : string) : bool :=
  match s with
  | EmptyString => true
  | String a s' => negb (Ascii.eqb a c) && lacks c s'
  end.

(** Number of (possibly overlapping) occurrences of [sub] in [s]. *)
Fixpoint occurrences (sub s : string) : nat :=
  ((if String.prefix sub s then 1 else 0)
   + match s with
     | EmptyString => 0
     | String _ s' => occurrences sub s'
     end)%nat.

End PyStr.

(** ** Python list operations used by the script *)

Module PyList.

Definition mem (x : string) (l : list string) : bool :=
  existsb (String.eqb x) l.

(** [l.remove(x)] for an [x] that occurs in [l]: the first occurrence goes. *)
Fixpoint remove_first (x : string) (l : list string) : list string :=
  match l with
  | [] => []
  | y :: l' => if String.eqb x y then l' else y :: remove_first x l'
  end.

(** Order-preserving removal of duplicates (first occurrences stay). *)
Fixpoint dedup (l : list string) : list string :=
  match l with
  | [] => []
  | x :: l' => x :: filter (fun y => negb (String.eqb x y)) (dedup l')
  end.

Definition is_nil {A : Type} (l : list A) : bool :=
  match l with [] => true | _ => false end.

(** Truth value of a list: the empty list is false. *)
Definition truthy {A : Type} (l : list A) : bool := negb (is_nil l).

End PyList.

(** ** Paths *)

(** [pathlib.Path] on a POSIX system, as far as the script uses it: a
    path is a root and a list of parts; empty parts and "." are dropped,
    two leading slashes are kept and three or more are one. *)
Module PyPath.

Fixpoint leading_slashes (s : string) : nat :=
  match s with
  | String c s' => if Ascii.eqb c "/" then S (leading_slashes s') else 0%nat
  | EmptyString => 0%nat
  end.

Definition root (s : string) : string :=
  match leading_slashes s with
  | 0%nat => ""
  | 2%nat => "//"
  | _ => "/"
  end.

Definition is_part (x : string) : bool :=
  negb (String.eqb x "") && negb (String.eqb x ".").

Definition parts (s : string) : list string :=
  filter is_part (PyStr.split "/" s).

Definition format (root : string) (parts : list string) : string :=
  match root, parts with
  | EmptyString, [] => "."
  | _, _ => root ++ String.concat "/" parts
  end.

(** [str(Path(s))] *)
Definition str (s : string) : string := format (root s) (parts s).

(** [str(Path(dir) / name)]: a [name] with a root replaces [dir]. *)
Definition join (dir name : string) : string :=
  match leading_slashes name with
  | 0%nat => format (root dir) (parts dir ++ parts name)
  | _ => str name
  end.

End PyPath.

(** ** Data model *)

(** A tag as the booru API returns it for a related post. *)
Record Tag := mkTag { category : string; primary_name : string }.

(** The local copy of a post.  [tags] are tag names; [relations] holds the
    [id] of each relation. *)
Record Post := mkPost {
  post_id : Z;
  content_url : string;
  tags : list string;
  safety : string;
  source : string;
  relations : list Z
}.

Definition set_tags (p : Post) (t : list string) : Post :=
  mkPost (post_id p) (content_url p) t (safety p) (source p) (relations p).
Definition set_safety (p : Post) (r : string) : Post :=
  mkPost (post_id p) (content_url p) (tags p) r (source p) (relations p).
Definition set_source (p : Post) (src : string) : Post :=
  mkPost (post_id p) (content_url p) (tags p) (safety p) src (relations p).

(** [config.szurubooru] and [config.auto_tagger]; a module-level object the
    script both reads and writes. *)
Record Config := mkConfig {
  public : bool;
  url : string;
  saucenao_enabled : bool;
  deepbooru_enabled : bool;
  deepbooru_forced : bool;
  deepbooru_model : string;
  deepbooru_threshold : Q;
  tmp_path : string;
  hide_progress : bool
}.

Definition set_saucenao_enabled (c : Config) (b : bool) : Config :=
  mkConfig (public c) (url c) b (deepbooru_enabled c) (deepbooru_forced c)
           (deepbooru_model c) (deepbooru_threshold c) (tmp_path c) (hide_progress c).
Definition set_hide_progress (c : Config) (b : bool) : Config :=
  mkConfig (public c) (url c) (saucenao_enabled c) (deepbooru_enabled c) (deepbooru_forced c)
           (deepbooru_model c) (deepbooru_threshold c) (tmp_path c) b.

(** The counters behind [utils.statistics]. *)
Record Stats := mkStats { tagged : Z; deepbooru : Z; untagged : Z; skipped : Z }.

(** What [SauceNao.get_metadata] returns. *)
Record SauceResult := mkSauce {
  sn_tags : list string;
  sn_source : string;
  sn_rating : string;
  limit_short : Z;
  limit_long : Z
}.

(** The command line, as [argparse] hands it over. *)
Record CliArgs := mkArgs {
  arg_sankaku_url : option string;
  arg_query : string;
  arg_add_tags : option string;
  arg_remove_tags : option string
}.

(** Messages of the script above debug level, by the statement that logs
    them. *)
Inductive Message :=
| MsgInitializing
| MsgNothingToDo
| MsgTypeToken
| MsgSingleQuotes
| MsgRetrieving (url query : string)
| MsgFound (total : Z)
| MsgSankakuFailed
| MsgSankakuSinglePost
| MsgShortLimit
| MsgDailyLimit
| MsgDeepbooruOnly
| MsgFinished
| MsgSummary (total : Z) (s : Stats).

Inductive Level := LvlInfo | LvlWarning | LvlError | LvlCritical | LvlSuccess.

Definition level (m : Message) : Level :=
  match m with
  | MsgInitializing | MsgNothingToDo | MsgRetrieving _ _ | MsgFound _
  | MsgDailyLimit | MsgDeepbooruOnly => LvlInfo
  | MsgSingleQuotes | MsgShortLimit => LvlWarning
  | MsgSankakuFailed => LvlError
  | MsgTypeToken | MsgSankakuSinglePost => LvlCritical
  | MsgFinished | MsgSummary _ _ => LvlSuccess
  end.

Inductive Exn := SystemExit | StopIteration | TypeError | UnboundLocalError | UpdateError.

(** Every interaction of the script with its collaborators, with the
    answer where there is one. *)
Inductive Event :=
| EGetPosts (query : string) (from_upload_media : bool) (total : Z)
| ENextPost (p : Post)
| EUrlRetrieve (from dest : string)
| EShrink (dir file : string)
| ESearch (is_public : bool) (from path : string) (r : SauceResult)
| ESleep (seconds : Z)
| EClassify (path : option string) (threshold : Q) (found : list string) (rating : string)
| EGetPost (id : Z) (result : list Tag)
| EScrape (from : string)
| EUpdate (p : Post)
| ERemove (path : string)
| ELog (m : Message)
| ECaught (e : Exn).

(** The collaborators.  An answer may depend on everything that happened
    before the call (the trace); [sanitize_tags] and the iteration order of
    a Python set are functions of their argument. *)
Record World := mkWorld {
  get_posts : list Event -> string -> bool -> Z * list Post;
  get_metadata : list Event -> bool -> string -> string -> SauceResult;
  tag_image : list Event -> option string -> Q -> list string * string;
  getPost : list Event -> Z -> list Tag;
  scrape_sankaku : list Event -> string -> list string * string;
  update_fails : list Event -> Post -> bool;
  getsize : list Event -> string -> Z;
  path_exists : list Event -> string -> bool;
  sanitize_tags : list string -> list string;
  set_order : list string -> list string
}.

(** The iteration order of a set is some duplicate-free enumeration of its
    elements. *)
Definition set_order_ok (w : World) : Prop :=
  forall l, NoDup (set_order w l) /\ forall x, In x (set_order w l) <-> In x l.

(** ** The run state and its monad *)

Record State := mkState {
  config : Config;
  stats : Stats;
  trace : list Event
}.

Inductive Res (A : Type) := Ok (a : A) | Raise (e : Exn).
Arguments Ok {A} a.
Arguments Raise {A} e.

Definition M (A : Type) : Type := State -> Res A * State.

Definition ret {A} (a : A) : M A := fun s => (Ok a, s).

Definition bind {A B} (m : M A) (k : A -> M B) : M B :=
  fun s => match m s with
           | (Ok a, s') => k a s'
           | (Raise e, s') => (Raise e, s')
           end.

Definition raise {A} (e : Exn) : M A := fun s => (Raise e, s).

(** [try: m except Exception: h] ([SystemExit] is no [Exception]). *)
Definition try_except {A} (m : M A) (h : M A) : M A :=
  fun s => match m s with
           | (Raise SystemExit, s') => (Raise SystemExit, s')
           | (Raise _, s') => h s'
           | r => r
           end.

Declare Scope py_scope.
Delimit Scope py_scope with py.
Notation "x <- c1 ;; c2" := (bind c1 (fun x => c2))
  (at level 61, c1 at next level, right associativity) : py_scope.
Notation "' pat <- c1 ;; c2" := (bind c1 (fun x => match x with pat => c2 end))
  (at level 61, pat pattern, c1 at next level, right associativity) : py_scope.
Notation "c1 ;; c2" := (bind c1 (fun _ => c2))
  (at level 61, right associativity) : py_scope.
Local Open Scope py_scope.

Definition get_config : M Config := fun s => (Ok (config s), s).
Definition get_trace : M (list Event) := fun s => (Ok (trace s), s).
Definition get_stats : M Stats := fun s => (Ok (stats s), s).

Definition set_config (c : Config) : M unit :=
  fun s => (Ok tt, mkState c (stats s) (trace s)).

Definition emit (e : Event) : M unit :=
  fun s => (Ok tt, mkState (config s) (stats s) (trace s ++ [e])).

Definition log (m : Message) : M unit := emit (ELog m).

Definition when (b : bool) (m : M unit) : M unit := if b then m else ret tt.

(** Modelled from the spec: [utils.statistics] is not part of the script;
    the spec describes process-wide counters, and a call
    [statistics(tagged=a, deepbooru=b, untagged=c)] adds its arguments to
    them. *)
Definition statistics (a b c : Z) : M unit :=
  fun s =>
    let st := stats s in
    (Ok tt, mkState (config s)
                    (mkStats (tagged st + a) (deepbooru st + b) (untagged st + c) (skipped st))
                    (trace s)).

(** ** Helpers from [szurubooru_toolkit.utils] *)

(** Modelled from the spec: [utils.collect_sources] is not part of the
    script; the spec describes it as a deduplicated, order-preserving
    concatenation of source strings, delimited by newlines. *)
Definition collect_sources (sources : list string) : string :=
  String.concat PyStr.nl (PyList.dedup sources).

(** ** The script *)

Section Script.

Variable w : World.

(** *** Calls to the collaborators *)

Definition call_get_metadata (is_public : bool) (from path : string) : M SauceResult :=
  h <- get_trace ;;
  let r := get_metadata w h is_public from path in
  emit (ESearch is_public from path r) ;;
  ret r.

(** [deepbooru.tag_image]; the name [deepbooru] is bound only when the
    classifier was enabled at start-up. *)
Definition call_tag_image (deepbooru_bound : bool) (path : option string) (threshold : Q)
  : M (list string * string) :=
  if deepbooru_bound then
    h <- get_trace ;;
    let r := tag_image w h path threshold in
    emit (EClassify path threshold (fst r) (snd r)) ;;
    ret r
  else raise UnboundLocalError.

Definition call_getPost (id : Z) : M (list Tag) :=
  h <- get_trace ;;
  let result := getPost w h id in
  emit (EGetPost id result) ;;
  ret result.

Definition call_update_post (p : Post) : M unit :=
  h <- get_trace ;;
  emit (EUpdate p) ;;
  if update_fails w h p then raise UpdateError else ret tt.

Definition call_scrape_sankaku (from : string) : M (list string * string) :=
  h <- get_trace ;;
  emit (EScrape from) ;;
  ret (scrape_sankaku w h from).

Definition sleep (seconds : Z) : M unit := emit (ESleep seconds).

(** [os.path.exists]: [None] is no path, [os.stat] raises [TypeError]. *)
Definition os_path_exists (path : option string) : M bool :=
  match path with
  | None => raise TypeError
  | Some f => h <- get_trace ;; ret (path_exists w h f)
  end.

(** *** [parse_args] *)

(** [--add-tags] and [--remove-tags]: a non-empty value is split at the
    commas.  [None] and the empty string, which the script never
    iterates over, are both the empty list here. *)
Definition split_tags (a : option string) : list string :=
  match a with
  | Some s => if PyStr.truthy s then PyStr.split ","%char s else []
  | None => []
  end.

Definition parse_args (args : CliArgs)
  : M (option string * string * list string * list string) :=
  let sankaku_url := arg_sankaku_url args in
  let query := arg_query args in
  (if PyStr.contains "type:" query
   then log MsgTypeToken ;; raise SystemExit
   else ret tt) ;;
  when (PyStr.contains "'" query) (log MsgSingleQuotes) ;;
  ret (sankaku_url, query, split_tags (arg_add_tags args), split_tags (arg_remove_tags args)).

(** *** [parse_saucenao_results] *)

Definition parse_saucenao_results (post : Post) (tmp_media_path : option string)
  : M (list string * string * string * bool) :=
  cfg <- get_config ;;
  r <- call_get_metadata (public cfg) (content_url post) (PyStr.str_opt tmp_media_path) ;;
  let src := collect_sources (PyStr.splitlines (sn_source r) ++ PyStr.splitlines (source post)) in
  limit_reached <-
    (if negb (limit_long r =? 0) then
       when (limit_short r =? 0) (log MsgShortLimit ;; sleep 35) ;;
       ret false
     else
       log MsgDailyLimit ;;
       ret true) ;;
  when (PyList.truthy (sn_tags r)) (statistics 1 0 0) ;;
  cfg <- get_config ;;
  when (limit_reached && deepbooru_enabled cfg)
       (set_config (set_saucenao_enabled cfg false) ;; log MsgDeepbooruOnly) ;;
  ret (sanitize_tags w (sn_tags r), src, sn_rating r, limit_reached).

(** *** [download_media] *)

(** [Path(dir) / name], as the string the script later takes of it. *)
Definition path_join (dir name : string) : string := PyPath.join dir name.

Definition download_media (tmp_media_path : option string) (from : string) : M string :=
  cfg <- get_config ;;
  tmp_file <-
    (if negb (PyStr.truthy_opt tmp_media_path) then
       let filename := last (PyStr.split "/"%char from) EmptyString in
       let dest := path_join (tmp_path cfg) filename in
       emit (EUrlRetrieve from dest) ;;
       ret dest
     else ret (PyStr.str_opt tmp_media_path)) ;;
  h <- get_trace ;;
  when (getsize w h tmp_file >? 2000000)
       (emit (EShrink (PyPath.str (tmp_path cfg)) (PyPath.str tmp_file))) ;;
  ret tmp_file.

(** *** [set_tags_from_relations] *)

(** The inner loop, over the tags of one related post. *)
Fixpoint copy_relation_tags (result_tags : list Tag) (post : Post) : Post :=
  match result_tags with
  | [] => post
  | relation_tag :: rest =>
      copy_relation_tags rest
        (if negb (String.eqb (category relation_tag) "default")
            || negb (String.eqb (category relation_tag) "meta")
         then set_tags post (tags post ++ [primary_name relation_tag])
         else post)
  end.

Fixpoint relations_loop (rels : list Z) (post : Post) : M Post :=
  match rels with
  | [] => ret post
  | relation :: rest =>
      result <- call_getPost relation ;;
      relations_loop rest (copy_relation_tags result post)
  end.

Definition set_tags_from_relations (post : Post) : M Post :=
  relations_loop (relations post) post.

(** *** The body of the query loop of [main] *)

(** [list(set().union(post.tags, tags, add_tags))], or without
    [add_tags] when there are none. *)
Definition merge_tags (post_tags found add_tags : list string) : list string :=
  if PyList.truthy add_tags
  then set_order w (post_tags ++ found ++ add_tags)
  else set_order w (post_tags ++ found).

(** The source field after a classifier run. *)
Definition normalize_source (src : string) : string :=
  let src :=
    if PyStr.contains "DeepBooru" src
    then PyStr.replace (PyStr.nl ++ "DeepBooru") ""
           (PyStr.replace ("DeepBooru" ++ PyStr.nl) "" src)
    else src in
  if negb (PyStr.contains "Deepbooru" src)
  then collect_sources [src; "Deepbooru"]
  else src.

(** [[post.tags.remove(tag) for tag in remove_tags if tag in post.tags]] *)
Definition remove_user_tags (remove_tags post_tags : list string) : list string :=
  fold_left
    (fun acc tag => if PyList.mem tag acc then PyList.remove_first tag acc else acc)
    remove_tags post_tags.

Definition is_placeholder (tag : string) : bool :=
  String.eqb tag "deepbooru" || String.eqb tag "tagme".

(** [[post.tags.remove(tag) for tag in post.tags if ...]]: the list is
    changed while it is iterated.  The iterator keeps a position [i] and
    reads the list as it is at each step; a removal shifts the rest
    down, so the element that follows a removed one is never looked at.
    [fuel] bounds the number of steps. *)
Fixpoint strip_placeholders_from (fuel i : nat) (l : list string) : list string :=
  match fuel with
  | O => l
  | S fuel' =>
      match nth_error l i with
      | None => l
      | Some tag =>
          if is_placeholder tag
          then strip_placeholders_from fuel' (S i) (PyList.remove_first tag l)
          else strip_placeholders_from fuel' (S i) l
      end
  end.

Definition strip_placeholders (l : list string) : list string :=
  strip_placeholders_from (List.length l) 0 l.

(** Lines 211 to 214: the media is fetched when the server is not
    public or the classifier is enabled. *)
Definition fetch_media (tmp_media_path : option string) (post : Post) : M (option string) :=
  cfg <- get_config ;;
  if negb (public cfg) || deepbooru_enabled cfg
  then f <- download_media tmp_media_path (content_url post) ;; ret (Some f)
  else ret None.

(** Lines 216 to 228: the search.  The result is [tags], the post and
    [limit_reached].  The name [sauce] is bound whenever the setting is
    on: the script only ever turns it off. *)
Definition search_stage (add_tags : list string) (tmp_file : option string) (post : Post)
  : M (list string * Post * bool) :=
  cfg <- get_config ;;
  if saucenao_enabled cfg then
    '(found, src, rating, limit_reached) <- parse_saucenao_results post tmp_file ;;
    let post := set_safety (set_source post src) rating in
    let post := set_tags post (merge_tags (tags post) found add_tags) in
    ret (found, post, limit_reached)
  else ret ([], post, false).

(** Lines 230 to 253: the classifier, or the count of an untagged post.
    The result is [tags] and the post. *)
Definition classify_stage (deepbooru_bound : bool) (add_tags : list string)
           (tmp_file : option string) (found : list string) (post : Post)
  : M (list string * Post) :=
  cfg <- get_config ;;
  if (negb (PyList.truthy found) && deepbooru_enabled cfg) || deepbooru_forced cfg then
    '(found, rating) <- call_tag_image deepbooru_bound tmp_file (deepbooru_threshold cfg) ;;
    let post := set_safety post rating in
    post <- (if PyList.truthy (relations post)
             then set_tags_from_relations post
             else ret post) ;;
    let post := set_tags post (merge_tags (tags post) found add_tags) in
    let post := set_source post (normalize_source (source post)) in
    (if PyList.truthy found then statistics 0 1 0 else statistics 0 0 1) ;;
    ret (found, post)
  else
    when (negb (PyList.truthy found)) (statistics 0 0 1) ;;
    ret (found, post).

(** Lines 255 to 257: the temporary image is removed. *)
Definition remove_temporary (tmp_file : option string) : M unit :=
  present <- os_path_exists tmp_file ;;
  when present (emit (ERemove (PyStr.str_opt tmp_file))).

(** Lines 259 to 265: the user's removals, then the update when the
    last discovery step found tags. *)
Definition patch_stage (remove_tags found : list string) (post : Post) : M unit :=
  let post :=
    if PyList.truthy remove_tags
    then set_tags post (remove_user_tags remove_tags (tags post))
    else post in
  when (PyList.truthy found)
       (call_update_post (set_tags post (strip_placeholders (tags post)))).

(** Lines 209 to 265: one post, up to and including the update.  The
    result is [limit_reached]. *)
Definition process_post (deepbooru_bound : bool) (tmp_media_path : option string)
           (add_tags remove_tags : list string) (post : Post) : M bool :=
  tmp_file <- fetch_media tmp_media_path post ;;
  '(found, post, limit_reached) <- search_stage add_tags tmp_file post ;;
  '(found, post) <- classify_stage deepbooru_bound add_tags tmp_file found post ;;
  remove_temporary tmp_file ;;
  patch_stage remove_tags found post ;;
  ret limit_reached.

(** The [for] loop over the posts the generator yields, [index] being
    the position of the first of them; lines 267 to 269 end it early. *)
Fixpoint run_posts (deepbooru_bound : bool) (tmp_media_path : option string)
         (add_tags remove_tags : list string) (total_posts : Z)
         (index : nat) (posts : list Post) : M unit :=
  match posts with
  | [] => ret tt
  | post :: rest =>
      emit (ENextPost post) ;;
      limit_reached <- process_post deepbooru_bound tmp_media_path add_tags remove_tags post ;;
      cfg <- get_config ;;
      if limit_reached && negb (deepbooru_enabled cfg)
      then statistics 0 0 (total_posts - Z.of_nat index - 1)
      else run_posts deepbooru_bound tmp_media_path add_tags remove_tags total_posts
                     (S index) rest
  end.

(** *** [main] *)

(** The [--sankaku_url] branch, lines 185 to 197. *)
Definition tag_from_sankaku (sankaku_url query : string) (posts : list Post) : M unit :=
  if PyStr.isnumeric query then
    match posts with
    | [] => raise StopIteration
    | post :: _ =>
        emit (ENextPost post) ;;
        '(scraped, rating) <- call_scrape_sankaku sankaku_url ;;
        let post := set_source (set_safety (set_tags post scraped) rating) sankaku_url in
        try_except
          (call_update_post post ;; statistics 1 0 0)
          (statistics 0 0 1 ;; log MsgSankakuFailed)
    end
  else log MsgSankakuSinglePost.

Definition main_body (post_id tmp_media_path : option string) (args : CliArgs) : M unit :=
  let from_upload_media := PyStr.truthy_opt post_id in
  (if negb from_upload_media
   then log MsgInitializing
   else cfg <- get_config ;; set_config (set_hide_progress cfg true)) ;;
  cfg <- get_config ;;
  (if negb (saucenao_enabled cfg) && negb (deepbooru_enabled cfg)
   then log MsgNothingToDo ;; raise SystemExit
   else ret tt) ;;
  '(sankaku_url, query, add_tags, remove_tags) <-
    (if negb from_upload_media
     then parse_args args
     else ret (None, PyStr.str_opt post_id, [], [])) ;;
  cfg <- get_config ;;
  let deepbooru_bound := deepbooru_enabled cfg in
  when (negb from_upload_media) (log (MsgRetrieving (url cfg) query)) ;;
  h <- get_trace ;;
  let '(total_posts, posts) := get_posts w h query from_upload_media in
  emit (EGetPosts query from_upload_media total_posts) ;;
  when (negb from_upload_media) (log (MsgFound total_posts)) ;;
  (if PyStr.truthy_opt sankaku_url
   then tag_from_sankaku (PyStr.str_opt sankaku_url) query posts
   else run_posts deepbooru_bound tmp_media_path add_tags remove_tags total_posts 0 posts) ;;
  when (negb from_upload_media)
       (st <- get_stats ;; log MsgFinished ;; log (MsgSummary total_posts st)).

(** [@logger.catch]: an exception other than [SystemExit] is logged and
    [main] returns. *)
Definition main (post_id tmp_media_path : option string) (args : CliArgs) : M unit :=
  fun s =>
    match main_body post_id tmp_media_path args s with
    | (Raise SystemExit, s') => (Raise SystemExit, s')
    | (Raise e, s') => emit (ECaught e) s'
    | r => r
    end.

End Script.

(** ** Observations on traces *)

Module Trace.

Definition is_search (e : Event) : bool :=
  match e with ESearch _ _ _ _ => true | _ => false end.
Definition is_classify (e : Event) : bool :=
  match e with EClassify _ _ _ _ => true | _ => false end.
Definition is_update (e : Event) : bool :=
  match e with EUpdate _ => true | _ => false end.
Definition is_next_post (e : Event) : bool :=
  match e with ENextPost _ => true | _ => false end.
Definition is_download (e : Event) : bool :=
  match e with EUrlRetrieve _ _ | EShrink _ _ => true | _ => false end.
Definition is_get_post (e : Event) : bool :=
  match e with EGetPost _ _ => true | _ => false end.

Definition is_get_posts (e : Event) : bool :=
  match e with EGetPosts _ _ _ => true | _ => false end.

(** A message of the closing summary. *)
Definition is_summary (e : Event) : bool :=
  match e with
  | ELog m => match level m with LvlSuccess => true | _ => false end
  | _ => false
  end.


(** Events that only write to the log. *)
Definition is_log (e : Event) : bool :=
  match e with ELog _ => true | _ => false end.

Definition count (f : Event -> bool) (evs : list Event) : nat :=
  List.length (filter f evs).

Definition none (f : Event -> bool) (evs : list Event) : Prop :=
  Forall (fun e => f e = false) evs.

(** The tags of the last discovery step (search or classifier) in the
    trace; [seen] is the value before the first one. *)
Fixpoint last_discovery (w : World) (seen : list string) (evs : list Event) : list string :=
  match evs with
  | [] => seen
  | ESearch _ _ _ r :: rest => last_discovery w (sanitize_tags w (sn_tags r)) rest
  | EClassify _ _ found _ :: rest => last_discovery w found rest
  | _ :: rest => last_discovery w seen rest
  end.

(** All the tags the trace shows as discovered: the sanitized tags of
    the searches, the tags of the classifier, and the names of the tags
    of the related posts that were fetched. *)
Fixpoint discovered (w : World) (evs : list Event) : list string :=
  match evs with
  | [] => []
  | ESearch _ _ _ r :: rest => sanitize_tags w (sn_tags r) ++ discovered w rest
  | EClassify _ _ found _ :: rest => found ++ discovered w rest
  | EGetPost _ result :: rest => map primary_name result ++ discovered w rest
  | _ :: rest => discovered w rest
  end.


End Trace.

(** The state after more events. *)
Definition add_events (s : State) (evs : list Event) : State :=
  mkState (config s) (stats s) (trace s ++ evs).


(** ** Closed forms used by the lemmas on the stages *)

(** The post after the search step, for the answer [r]. *)
Definition searched_post (w : World) (add_tags : list string) (post : Post) (r : SauceResult) : Post :=
  let src := collect_sources (PyStr.splitlines (sn_source r) ++ PyStr.splitlines (source post)) in
  let post' := set_safety (set_source post src) (sn_rating r) in
  set_tags post' (merge_tags w (tags post') (sanitize_tags w (sn_tags r)) add_tags).

(** What [parse_saucenao_results] does after the search call, for the
    answer [r]. *)
Definition search_tail (r : SauceResult) (classifier_enabled : bool) : list Event :=
  (if negb (limit_long r =? 0)
   then if limit_short r =? 0 then [ELog MsgShortLimit; ESleep 35] else []
   else [ELog MsgDailyLimit])
  ++ (if (limit_long r =? 0) && classifier_enabled then [ELog MsgDeepbooruOnly] else []).

(** The post that [patch_stage] sends. *)
Definition patched_post (remove_tags : list string) (post : Post) : Post :=
  let post' :=
    if PyList.truthy remove_tags
    then set_tags post (remove_user_tags remove_tags (tags post))
    else post in
  set_tags post' (strip_placeholders (tags post')).

(** The condition of line 230. *)
Definition classifier_runs (c : Config) (found : list string) : bool :=
  (negb (PyList.truthy found) && deepbooru_enabled c) || deepbooru_forced c.

(** ** Concrete runs *)

Module Scenario.

Definition no_stats : Stats := mkStats 0 0 0 0.

Definition cfg (is_public search classifier forced : bool) : Config :=
  mkConfig is_public "http://booru" search classifier forced "model" (7 # 10) "tmp" false.

Definition start (c : Config) : State := mkState c no_stats [].

(** A world whose answers do not change over the run: the server
    holds [posts], every search answers [answer], the classifier finds
    [classified], every related post carries [related], no update
    fails, files are small and exist, sanitation changes nothing, and
    a set enumerates its elements in the order of insertion. *)
Definition world (posts : list Post) (answer : SauceResult)
           (classified : list string) (related : list Tag) : World :=
  mkWorld (fun _ _ _ => (Z.of_nat (List.length posts), posts))
          (fun _ _ _ _ => answer)
          (fun _ _ _ => (classified, "safe"))
          (fun _ _ => related)
          (fun _ _ => (["scraped"], "safe"))
          (fun _ _ => false)
          (fun _ _ => 100)
          (fun _ _ => true)
          (fun l => l)
          PyList.dedup.

Definition post (id : Z) (old_tags : list string) (rels : list Z) : Post :=
  mkPost id "http://booru/data/1.png" old_tags "safe" "" rels.

Definition answer (found : list string) (short long : Z) : SauceResult :=
  mkSauce found "https://example.org/art/1" "safe" short long.

Definition query (q : string) : CliArgs := mkArgs None q None None.

(** The same world, but the long quota is used up by the search that
    follows [n] earlier ones. *)
Definition world_with_quota (n : nat) (posts : list Post) : World :=
  mkWorld (fun _ _ _ => (Z.of_nat (List.length posts), posts))
          (fun h _ _ _ =>
             if (Trace.count Trace.is_search h =? n)%nat
             then answer ["cat"] 4 0
             else answer ["cat"] 4 100)
          (fun _ _ _ => (["dog"], "safe"))
          (fun _ _ => [])
          (fun _ _ => (["scraped"], "safe"))
          (fun _ _ => false)
          (fun _ _ => 100)
          (fun _ _ => true)
          (fun l => l)
          PyList.dedup.

(** Ten posts, numbered from 0. *)
Definition ten_posts : list Post :=
  map (fun i => post (Z.of_nat i) [] []) (seq 0 10).

End Scenario.

(** ** Further observations *)

(** Lines 241 to 243: the old spelling of the classifier marker is
    removed where it stands next to a line feed. *)
Definition remove_old_marker (src : string) : string :=
  if PyStr.contains "DeepBooru" src
  then PyStr.replace (PyStr.nl ++ "DeepBooru") ""
         (PyStr.replace ("DeepBooru" ++ PyStr.nl) "" src)
  else src.

(** The number of times the character [c] stands in [s]. *)
Fixpoint count_char (c : ascii) (s : string) : nat :=
  match s with
  | EmptyString => 0
  | String a s' => ((if Ascii.eqb a c then 1 else 0) + count_char c s')
  end%nat.

(** What the removal of line 264 amounts to on a list without
    duplicates: a placeholder is dropped, and the element that follows it
    is kept without being looked at. *)
Fixpoint strip_skipping (l : list string) : list string :=
  match l with
  | [] => []
  | x :: rest =>
      if is_placeholder x
      then match rest with
           | [] => []
           | y :: rest' => y :: strip_skipping rest'
           end
      else x :: strip_skipping rest
  end.

(** No placeholder is directly followed by another one. *)
Fixpoint no_placeholder_pair (l : list string) : bool :=
  match l with
  | [] => true
  | x :: rest =>
      match rest with
      | [] => true
      | y :: _ => negb (is_placeholder x && is_placeholder y) && no_placeholder_pair rest
      end
  end.

Definition is_sleep (e : Event) : bool :=
  match e with ESleep _ => true | _ => false end.
Definition is_remove (e : Event) : bool :=
  match e with ERemove _ => true | _ => false end.

(** The ids asked of [szuru.api.getPost], in the order of the calls. *)
Fixpoint fetched_ids (evs : list Event) : list Z :=
  match evs with
  | [] => []
  | EGetPost id _ :: rest => id :: fetched_ids rest
  | _ :: rest => fetched_ids rest
  end.

(** The posts counted so far, in any of the three counters of the loop. *)
Definition counted (st : Stats) : Z := tagged st + deepbooru st + untagged st.

(** The fields of a post that identify it on the server. *)
Definition same_post (p q : Post) : Prop :=
  post_id p = post_id q /\ content_url p = content_url q /\ relations p = relations q.

(** The query of a run: the post id of the caller, else the one of the
    command line. *)
Definition run_query (post_id : option string) (args : CliArgs) : string :=
  if PyStr.truthy_opt post_id then PyStr.str_opt post_id else arg_query args.

(** What [main] logs, past its start-up checks, before it asks the server
    for the posts: nothing for a caller, lines 150, 65 and 176 on the
    command line. *)
Definition startup_events (c : Config) (post_id : option string) (args : CliArgs)
  : list Event :=
  if PyStr.truthy_opt post_id then []
  else ELog MsgInitializing
       :: (if PyStr.contains "'" (arg_query args) then [ELog MsgSingleQuotes] else [])
       ++ [ELog (MsgRetrieving (url c) (arg_query args))].

(** No search is made before the next post is taken, or the trace ends. *)
Fixpoint no_search_before_next_post (evs : list Event) : bool :=
  match evs with
  | [] => true
  | ENextPost _ :: _ => true
  | ESearch _ _ _ _ :: _ => false
  | _ :: rest => no_search_before_next_post rest
  end.

(** An iteration gets as far as the update when it returns or fails in
    the update itself. *)
Definition reaches_update (r : Res bool) : bool :=
  match r with
  | Ok _ | Raise UpdateError => true
  | Raise _ => false
  end.

(** The two conditions under which [main] calls [exit()]. *)
Definition exits_at_startup (c : Config) (post_id : option string) (args : CliArgs) : bool :=
  (negb (saucenao_enabled c) && negb (deepbooru_enabled c))
  || (negb (PyStr.truthy_opt post_id) && PyStr.contains "type:" (arg_query args)).

(** The rating the last discovery step of the trace gave; [seen] is
    the value before the first one. *)
Fixpoint rating_after (seen : string) (evs : list Event) : string :=
  match evs with
  | [] => seen
  | ESearch _ _ _ r :: rest => rating_after (sn_rating r) rest
  | EClassify _ _ _ rating :: rest => rating_after rating rest
  | _ :: rest => rating_after seen rest
  end.

(** The source of a post after the discovery steps of the trace: a
    search puts its sources before the ones the post has, the classifier
    leaves its marker. *)
Fixpoint source_after (seen : string) (evs : list Event) : string :=
  match evs with
  | [] => seen
  | ESearch _ _ _ r :: rest =>
      source_after (collect_sources (PyStr.splitlines (sn_source r) ++ PyStr.splitlines seen))
                   rest
  | EClassify _ _ _ _ :: rest => source_after (normalize_source seen) rest
  | _ :: rest => source_after seen rest
  end.

(** The events that only the query loop makes: fetching and removing
    the media, searching, sleeping, classifying, asking for a related
    post. *)
Definition is_loop_work (e : Event) : bool :=
  match e with
  | EUrlRetrieve _ _ | EShrink _ _ | ESearch _ _ _ _ | ESleep _
  | EClassify _ _ _ _ | EGetPost _ _ | ERemove _ => true
  | _ => false
  end.

(** The file an iteration works on: the one the caller names, else the
    download in the temporary directory, named after the end of the
    content URL. *)
Definition temporary_file (c : Config) (tmp_media_path : option string) (post : Post) : string :=
  if PyStr.truthy_opt tmp_media_path
  then PyStr.str_opt tmp_media_path
  else path_join (tmp_path c) (last (PyStr.split "/"%char (content_url post)) EmptyString).

(** The posts the trace shows as taken from the generator, in order. *)
Fixpoint taken (evs : list Event) : list Post :=
  match evs with
  | [] => []
  | ENextPost p :: rest => p :: taken rest
  | _ :: rest => taken rest
  end.

(** * Properties *)

Local Open Scope list_scope.

(** ** The Python operations on examples *)

Example split_csv : PyStr.split ","%char "a,b,,c" = ["a"; "b"; ""; "c"]%string.
Proof. reflexivity. Qed.

Example split_url : last (PyStr.split "/"%char "http://booru/data/1.png") EmptyString = "1.png"%string.
Proof. reflexivity. Qed.

Example splitlines_mixed :
  PyStr.splitlines ("a" ++ PyStr.nl ++ String PyStr.CR PyStr.nl ++ "b" ++ PyStr.nl)%string
  = ["a"; ""; "b"]%string.
Proof. reflexivity. Qed.

Example replace_leftmost : PyStr.replace "aa" "b" "aaaxaa" = "baxb"%string.
Proof. reflexivity. Qed.

Example isnumeric_post_id :
  PyStr.isnumeric "1234" = true /\ PyStr.isnumeric "tag-count:0" = false
  /\ PyStr.isnumeric "" = false /\ PyStr.isnumeric "1.5" = false.
Proof. repeat split. Qed.

(** Superscript two (U+00B2) and one half (U+00BD) are numeric; a lone
    continuation byte is no text. *)
Example isnumeric_beyond_ascii :
  PyStr.isnumeric (String "194" (String "178" EmptyString)) = true
  /\ PyStr.isnumeric (String "049" (String "194" (String "189" EmptyString))) = true
  /\ PyStr.isnumeric (String "178" EmptyString) = false.
Proof. repeat split. Qed.

Example splitlines_beyond_ascii :
  PyStr.splitlines ("a" ++ PyStr.NEL ++ "b" ++ PyStr.LS ++ PyStr.PS ++ "c")%string
  = ["a"; "b"; ""; "c"]%string.
Proof. reflexivity. Qed.

Lemma remove_first_length (x : string) (l : list string) :
  (List.length (PyList.remove_first x l) <= List.length l)%nat.
Proof.
  induction l as [| y l IH]; cbn [PyList.remove_first List.length]; [lia |].
  destruct (String.eqb x y); cbn [List.length]; lia.
Qed.

(** The iteration of [strip_placeholders] ends because the position runs
    past the end of the list, never because the fuel runs out. *)
Lemma strip_placeholders_fuel (fuel : nat) :
  forall (i : nat) (l : list string),
    (List.length l - i <= fuel)%nat ->
    strip_placeholders_from (S fuel) i l = strip_placeholders_from fuel i l.
Proof.
  induction fuel as [| fuel IH]; intros i l H.
  - cbn [strip_placeholders_from].
    assert (Hnone : nth_error l i = None) by (apply nth_error_None; lia).
    now rewrite Hnone.
  - change (strip_placeholders_from (S (S fuel)) i l)
      with (match nth_error l i with
            | None => l
            | Some tag =>
                if is_placeholder tag
                then strip_placeholders_from (S fuel) (S i) (PyList.remove_first tag l)
                else strip_placeholders_from (S fuel) (S i) l
            end).
    change (strip_placeholders_from (S fuel) i l)
      with (match nth_error l i with
            | None => l
            | Some tag =>
                if is_placeholder tag
                then strip_placeholders_from fuel (S i) (PyList.remove_first tag l)
                else strip_placeholders_from fuel (S i) l
            end).
    destruct (nth_error l i) as [tag |]; [| reflexivity].
    destruct (is_placeholder tag); apply IH; [| lia].
    pose proof (remove_first_length tag l). lia.
Qed.

(** ** The stages of the loop body *)

Lemma add_events_nil (s : State) : add_events s [] = s.
Proof. destruct s; unfold add_events; simpl; now rewrite app_nil_r. Qed.

Lemma add_events_app (s : State) (a b : list Event) :
  add_events (add_events s a) b = add_events s (a ++ b).
Proof. unfold add_events; simpl; now rewrite app_assoc. Qed.

Create HintDb py.
#[local] Hint Unfold bind ret raise when log sleep emit get_config get_trace get_stats
  set_config statistics : py.

Ltac run_monad :=
  repeat (progress (autounfold with py; cbn [fst snd config stats trace negb andb orb])).

Ltac split_if :=
  match goal with
  | |- context [if ?c then _ else _] => destruct c eqn:?
  end; run_monad.

Ltac trace_eq :=
  unfold add_events; cbn [config stats trace]; rewrite <- ?app_assoc; cbn [app];
  try reflexivity.

Section Stages.

Variable w : World.

Lemma category_test_always (c : string) :
  negb (String.eqb c "default") || negb (String.eqb c "meta") = true.
Proof.
  destruct (String.eqb_spec c "default") as [-> | _]; reflexivity.
Qed.

Lemma copy_relation_tags_all (result_tags : list Tag) (post : Post) :
  copy_relation_tags result_tags post
  = set_tags post (tags post ++ map primary_name result_tags).
Proof.
  revert post; induction result_tags as [| t ts IH]; intros post; simpl.
  - rewrite app_nil_r. now destruct post.
  - rewrite category_test_always, IH. unfold set_tags; simpl.
    now rewrite <- app_assoc.
Qed.

Lemma relations_loop_spec (rels : list Z) (post : Post) (s : State) :
  exists evs,
    relations_loop w rels post s
    = (Ok (set_tags post (tags post ++ Trace.discovered w evs)), add_events s evs)
    /\ Forall (fun e => Trace.is_get_post e = true) evs.
Proof.
  revert post s; induction rels as [| rid rest IH]; intros post s; simpl.
  - exists []. simpl. rewrite app_nil_r, add_events_nil. split; [now destruct post | constructor].
  - unfold call_getPost. run_monad.
    destruct (IH (copy_relation_tags (getPost w (trace s) rid) post)
                 (mkState (config s) (stats s) (trace s ++ [EGetPost rid (getPost w (trace s) rid)])))
      as (evs & E & F).
    exists (EGetPost rid (getPost w (trace s) rid) :: evs). split.
    + rewrite E. rewrite copy_relation_tags_all. unfold set_tags, add_events; simpl.
      now rewrite <- !app_assoc.
    + constructor; [reflexivity | exact F].
Qed.

Lemma download_media_spec (tmp : option string) (from : string) (s : State) :
  exists f evs,
    download_media w tmp from s = (Ok f, add_events s evs)
    /\ Forall (fun e => Trace.is_download e = true) evs.
Proof.
  unfold download_media. run_monad.
  destruct (negb (PyStr.truthy_opt tmp)); run_monad; split_if.
  - do 2 eexists; split; [trace_eq | repeat constructor].
  - do 2 eexists; split; [trace_eq | repeat constructor].
  - do 2 eexists; split; [trace_eq | repeat constructor].
  - exists (PyStr.str_opt tmp), []; split; [now rewrite add_events_nil | constructor].
Qed.

Lemma fetch_media_spec (tmp : option string) (post : Post) (s : State) :
  exists tmp_file evs,
    fetch_media w tmp post s = (Ok tmp_file, add_events s evs)
    /\ Forall (fun e => Trace.is_download e = true) evs
    /\ (if negb (public (config s)) || deepbooru_enabled (config s)
        then tmp_file <> None
        else tmp_file = None /\ evs = []).
Proof.
  unfold fetch_media. run_monad.
  destruct (negb (public (config s)) || deepbooru_enabled (config s)); run_monad.
  - destruct (download_media_spec tmp (content_url post) s) as (f & evs & E & F).
    rewrite E. exists (Some f), evs. repeat split; [exact F | discriminate].
  - exists None, []. rewrite add_events_nil. repeat split. constructor.
Qed.

Lemma search_stage_off (add_tags : list string) (tmp_file : option string)
      (post : Post) (s : State) :
  saucenao_enabled (config s) = false ->
  search_stage w add_tags tmp_file post s = (Ok ([], post, false), s).
Proof. intros H. unfold search_stage. run_monad. now rewrite H. Qed.

Lemma search_stage_on (add_tags : list string) (tmp_file : option string)
      (post : Post) (s : State) :
  saucenao_enabled (config s) = true ->
  let r := get_metadata w (trace s) (public (config s)) (content_url post)
                        (PyStr.str_opt tmp_file) in
  exists s',
    search_stage w add_tags tmp_file post s
    = (Ok (sanitize_tags w (sn_tags r), searched_post w add_tags post r, limit_long r =? 0), s')
    /\ config s' = (if (limit_long r =? 0) && deepbooru_enabled (config s)
                    then set_saucenao_enabled (config s) false
                    else config s)
    /\ tagged (stats s') = tagged (stats s) + (if PyList.truthy (sn_tags r) then 1 else 0)
    /\ deepbooru (stats s') = deepbooru (stats s)
    /\ untagged (stats s') = untagged (stats s)
    /\ trace s' = trace s
                  ++ ESearch (public (config s)) (content_url post) (PyStr.str_opt tmp_file) r
                  :: search_tail r (deepbooru_enabled (config s)).
Proof.
  intros H r. unfold search_stage. run_monad. rewrite H.
  unfold parse_saucenao_results, call_get_metadata. run_monad. fold r.
  unfold search_tail, searched_post.
  destruct (limit_long r =? 0) eqn:Hl; run_monad;
    [| destruct (limit_short r =? 0) eqn:Hs; run_monad];
    destruct (PyList.truthy (sn_tags r)) eqn:Ht; run_monad;
    try (destruct (deepbooru_enabled (config s)) eqn:Hd; run_monad);
    eexists; (split; [reflexivity |]); cbn [config stats trace tagged deepbooru untagged];
    rewrite <- ?app_assoc; cbn [app negb andb];
    repeat split; try reflexivity; try lia.
Qed.

Lemma classify_stage_skip (db : bool) (add_tags : list string) (tmp_file : option string)
      (found : list string) (post : Post) (s : State) :
  classifier_runs (config s) found = false ->
  exists s',
    classify_stage w db add_tags tmp_file found post s = (Ok (found, post), s')
    /\ config s' = config s
    /\ trace s' = trace s
    /\ tagged (stats s') = tagged (stats s)
    /\ deepbooru (stats s') = deepbooru (stats s)
    /\ untagged (stats s') = untagged (stats s) + (if PyList.truthy found then 0 else 1).
Proof.
  unfold classifier_runs, classify_stage. intros H. run_monad. rewrite H.
  destruct (PyList.truthy found); run_monad; eexists; (split; [reflexivity |]);
    cbn [config stats trace tagged deepbooru untagged]; repeat split; lia.
Qed.

Lemma classify_stage_unbound (add_tags : list string) (tmp_file : option string)
      (found : list string) (post : Post) (s : State) :
  classifier_runs (config s) found = true ->
  classify_stage w false add_tags tmp_file found post s = (Raise UnboundLocalError, s).
Proof.
  unfold classifier_runs, classify_stage. intros H. run_monad. now rewrite H.
Qed.

Lemma classify_stage_run (add_tags : list string) (tmp_file : option string)
      (found : list string) (post : Post) (s : State) :
  classifier_runs (config s) found = true ->
  let a := tag_image w (trace s) tmp_file (deepbooru_threshold (config s)) in
  exists post' s' evs,
    classify_stage w true add_tags tmp_file found post s = (Ok (fst a, post'), s')
    /\ config s' = config s
    /\ trace s' = trace s
                  ++ EClassify tmp_file (deepbooru_threshold (config s)) (fst a) (snd a) :: evs
    /\ Forall (fun e => Trace.is_get_post e = true) evs
    /\ tags post' = merge_tags w (tags post ++ Trace.discovered w evs) (fst a) add_tags
    /\ tagged (stats s') = tagged (stats s)
    /\ deepbooru (stats s') = deepbooru (stats s) + (if PyList.truthy (fst a) then 1 else 0)
    /\ untagged (stats s') = untagged (stats s) + (if PyList.truthy (fst a) then 0 else 1).
Proof.
  intros H a. unfold classifier_runs in H. unfold classify_stage. run_monad. rewrite H.
  unfold call_tag_image. run_monad. fold a. clearbody a. destruct a as [fnd rating].
  run_monad.
  set (s1 := mkState _ _ _).
  assert (exists evs,
             (if PyList.truthy (relations (set_safety post rating))
              then set_tags_from_relations w (set_safety post rating)
              else fun s0 => (Ok (set_safety post rating), s0)) s1
             = (Ok (set_tags (set_safety post rating)
                             (tags post ++ Trace.discovered w evs)),
                add_events s1 evs)
             /\ Forall (fun e => Trace.is_get_post e = true) evs) as (evs & E & F).
  { destruct (PyList.truthy (relations (set_safety post rating))).
    - exact (relations_loop_spec (relations (set_safety post rating))
                                 (set_safety post rating) s1).
    - exists []. simpl. rewrite app_nil_r, add_events_nil. split; [| constructor].
      now destruct post. }
  rewrite E. subst s1.
  destruct (PyList.truthy fnd); run_monad;
    do 3 eexists; (split; [reflexivity |]); unfold add_events;
    cbn [config stats trace tagged deepbooru untagged tags set_tags set_source];
    rewrite <- ?app_assoc; cbn [app];
    repeat match goal with |- _ /\ _ => split end;
    first [exact F | reflexivity | lia].
Qed.

Lemma remove_temporary_none (s : State) :
  remove_temporary w None s = (Raise TypeError, s).
Proof. reflexivity. Qed.

Lemma remove_temporary_some (f : string) (s : State) :
  remove_temporary w (Some f) s
  = (Ok tt, add_events s (if path_exists w (trace s) f then [ERemove f] else [])).
Proof.
  unfold remove_temporary, os_path_exists. run_monad.
  destruct (path_exists w (trace s) f); run_monad; [reflexivity |].
  now rewrite add_events_nil.
Qed.

Lemma patch_stage_skip (remove_tags found : list string) (post : Post) (s : State) :
  PyList.truthy found = false ->
  patch_stage w remove_tags found post s = (Ok tt, s).
Proof. intros H. unfold patch_stage. run_monad. now rewrite H. Qed.

Lemma patch_stage_update (remove_tags found : list string) (post : Post) (s : State) :
  PyList.truthy found = true ->
  patch_stage w remove_tags found post s
  = (if update_fails w (trace s) (patched_post remove_tags post)
     then Raise UpdateError else Ok tt,
     add_events s [EUpdate (patched_post remove_tags post)]).
Proof.
  intros H. unfold patch_stage, call_update_post. run_monad. rewrite H.
  fold (patched_post remove_tags post).
  now destruct (update_fails w (trace s) (patched_post remove_tags post)).
Qed.

End Stages.

Lemma bind_ok {A B} (m : M A) (k : A -> M B) (s s' : State) (a : A) :
  m s = (Ok a, s') -> bind m k s = k a s'.
Proof. intros E. unfold bind. now rewrite E. Qed.

Lemma patch_stage_update_bind (w : World) (remove_tags found : list string) (post : Post)
      (s : State) (result : bool) :
  PyList.truthy found = true ->
  bind (patch_stage w remove_tags found post) (fun _ => ret result) s
  = (if update_fails w (trace s) (patched_post remove_tags post)
     then Raise UpdateError else Ok result,
     add_events s [EUpdate (patched_post remove_tags post)]).
Proof.
  intros H. unfold bind. rewrite (patch_stage_update w _ _ _ _ H).
  now destruct (update_fails w (trace s) (patched_post remove_tags post)).
Qed.

Lemma bind_raise {A B} (m : M A) (k : A -> M B) (s s' : State) (e : Exn) :
  m s = (Raise e, s') -> bind m k s = (Raise e, s').
Proof. intros E. unfold bind. now rewrite E. Qed.

(** One iteration, path by path: every stage is replaced by what its
    lemma says, which leaves one goal for each way through the body. *)
Ltac tidy_state :=
  cbn [add_events config stats trace] in *.

Ltac search_paths w :=
  match goal with
  | |- context [bind (search_stage w ?add ?tf ?post) _ ?st] =>
      let Hs := fresh "Hsauce" in
      destruct (saucenao_enabled (config st)) eqn:Hs;
      [ let s2 := fresh "s2" in
        let Es := fresh "Esearch" in
        let Hc := fresh "Hconfig2" in
        let Ht := fresh "Htagged2" in
        let Hd := fresh "Hdeepbooru2" in
        let Hu := fresh "Huntagged2" in
        let Htr := fresh "Htrace2" in
        destruct (search_stage_on w add tf post st Hs)
          as (s2 & Es & Hc & Ht & Hd & Hu & Htr);
        rewrite (bind_ok _ _ _ _ _ Es); clear Es;
        set (answer := get_metadata w _ _ _ _) in *
      | rewrite (bind_ok _ _ _ _ _ (search_stage_off w add tf post st Hs)) ]
  end; cbv beta iota.

Ltac classify_run_path w add tf found p st Hr :=
  let post3 := fresh "post3" in
  let s3 := fresh "s3" in
  let evs_c := fresh "related" in
  let Ec := fresh "Eclassify" in
  let Hc := fresh "Hconfig3" in
  let Htr := fresh "Htrace3" in
  let Fg := fresh "Frelated" in
  let Htg := fresh "Htags3" in
  let Ht := fresh "Htagged3" in
  let Hd := fresh "Hdeepbooru3" in
  let Hu := fresh "Huntagged3" in
  destruct (classify_stage_run w add tf found p st Hr)
    as (post3 & s3 & evs_c & Ec & Hc & Htr & Fg & Htg & Ht & Hd & Hu);
  rewrite (bind_ok _ _ _ _ _ Ec); clear Ec;
  set (classified := tag_image w _ _ _) in *.

Ltac classify_paths w :=
  match goal with
  | |- context [bind (classify_stage w ?db ?add ?tf ?found ?p) _ ?st] =>
      let Hr := fresh "Hruns" in
      destruct (classifier_runs (config st) found) eqn:Hr;
      [ lazymatch db with
        | true => classify_run_path w add tf found p st Hr
        | false =>
            rewrite (bind_raise _ _ _ _ _ (classify_stage_unbound w add tf found p st Hr))
        | _ =>
            destruct db;
            [ classify_run_path w add tf found p st Hr
            | rewrite (bind_raise _ _ _ _ _ (classify_stage_unbound w add tf found p st Hr)) ]
        end
      | let s3 := fresh "s3" in
        let Ec := fresh "Eclassify" in
        let Hc := fresh "Hconfig3" in
        let Htr := fresh "Htrace3" in
        let Ht := fresh "Htagged3" in
        let Hd := fresh "Hdeepbooru3" in
        let Hu := fresh "Huntagged3" in
        destruct (classify_stage_skip w db add tf found p st Hr)
          as (s3 & Ec & Hc & Htr & Ht & Hd & Hu);
        rewrite (bind_ok _ _ _ _ _ Ec); clear Ec ]
  end; cbv beta iota.

Ltac cleanup_paths w :=
  match goal with
  | |- context [bind (remove_temporary w ?tf) _ ?st] =>
      destruct tf as [tf |];
      [ rewrite (bind_ok _ _ _ _ _ (remove_temporary_some w tf st))
      | rewrite (bind_raise _ _ _ _ _ (remove_temporary_none w st)) ]
  end.

Ltac patch_paths w :=
  match goal with
  | |- context [bind (patch_stage w ?rem ?found ?p) _ ?st] =>
      let Hp := fresh "Hfound" in
      destruct (PyList.truthy found) eqn:Hp;
      [ rewrite (patch_stage_update_bind w rem found p st _ Hp)
      | rewrite (bind_ok _ _ _ _ _ (patch_stage_skip w rem found p st Hp)) ]
  end.

Ltac process_post_paths w tmp post s :=
  unfold process_post;
  let tf := fresh "tmp_file" in
  let evs_f := fresh "fetched" in
  let Ef := fresh "Efetch" in
  let Ff := fresh "Ffetch" in
  let Hf := fresh "Hfetch" in
  destruct (fetch_media_spec w tmp post s) as (tf & evs_f & Ef & Ff & Hf);
  rewrite (bind_ok _ _ _ _ _ Ef); clear Ef;
  search_paths w; classify_paths w; try (cleanup_paths w; try patch_paths w).


(** ** The relation-tag copier *)

(** C5.  The copier is meant to take over the tags of the related posts
    whose category is neither "default" nor "meta".  On a related post
    with one tag of each of the categories "default", "meta" and
    "artist" it appends all three names, not only the artist. *)
Theorem relation_copier_takes_every_category :
  let related := [mkTag "default" "solo"; mkTag "meta" "highres"; mkTag "artist" "bob"] in
  let w := Scenario.world [] (Scenario.answer [] 4 100) [] related in
  fst (set_tags_from_relations w (Scenario.post 1 ["old"] [2])
         (Scenario.start (Scenario.cfg false true true false)))
  = Ok (Scenario.post 1 ["old"; "solo"; "highres"; "bob"] [2]).
Proof. reflexivity. Qed.

(** ** The forced classifier *)

(** C10.  There is a run, with the forced classifier on, a search that
    finds a tag and a classifier that finds none, in which the one post
    is counted both as tagged and as untagged and is not updated. *)
Theorem forced_classifier_counts_post_twice :
  exists (w : World) (c : Config) (post : Post) (args : CliArgs),
    let run := main w None None args (Scenario.start c) in
    deepbooru_forced c = true
    /\ (forall h q from_upload_media, get_posts w h q from_upload_media = (1, [post]))
    /\ (forall h is_public from path, sn_tags (get_metadata w h is_public from path) = ["cat"])
    /\ (forall h path threshold, fst (tag_image w h path threshold) = [])
    /\ fst run = Ok tt
    /\ tagged (stats (snd run)) = 1
    /\ untagged (stats (snd run)) = 1
    /\ Trace.count Trace.is_search (trace (snd run)) = 1%nat
    /\ Trace.count Trace.is_classify (trace (snd run)) = 1%nat
    /\ Trace.count Trace.is_update (trace (snd run)) = 0%nat.
Proof.
  exists (Scenario.world [Scenario.post 1 [] []] (Scenario.answer ["cat"] 4 100) [] []),
         (Scenario.cfg false true true true),
         (Scenario.post 1 [] []),
         (Scenario.query "tag-count:0").
  repeat split; intros; vm_compute; reflexivity.
Qed.

(** ** The source field after a classifier run *)

Section Substrings.

Variables (c : ascii) (t : string).

Lemma prefix_before_break (sub s : string) :
  PyStr.lacks c sub = true ->
  String.prefix sub (s ++ String c t)%string = String.prefix sub s.
Proof.
  revert s; induction sub as [| a sub IH]; intros s H.
  - now destruct s.
  - simpl in H. apply andb_true_iff in H as [Ha Hsub].
    destruct s as [| b s]; simpl.
    + destruct (ascii_dec a c) as [-> | _]; [| reflexivity].
      now rewrite Ascii.eqb_refl in Ha.
    + destruct (ascii_dec a b); [now apply IH | reflexivity].
Qed.

Lemma contains_before_break (sub s : string) :
  PyStr.lacks c sub = true ->
  PyStr.contains sub (s ++ String c t)%string
  = PyStr.contains sub s || PyStr.contains sub (String c t).
Proof.
  intros H. remember (PyStr.contains sub (String c t)) as tail eqn:Etail.
  induction s as [| a s IH].
  - subst tail. destruct sub; reflexivity.
  - change (String a s ++ String c t)%string with (String a (s ++ String c t)).
    cbn [PyStr.contains].
    change (String a (s ++ String c t)) with (String a s ++ String c t)%string.
    rewrite (prefix_before_break sub (String a s) H), IH.
    now rewrite !orb_assoc.
Qed.

Lemma occurrences_before_break (sub s : string) :
  PyStr.lacks c sub = true ->
  sub <> EmptyString ->
  PyStr.occurrences sub (s ++ String c t)%string
  = (PyStr.occurrences sub s + PyStr.occurrences sub (String c t))%nat.
Proof.
  intros H Hne. remember (PyStr.occurrences sub (String c t)) as tail eqn:Etail.
  induction s as [| a s IH].
  - subst tail. destruct sub; [contradiction | reflexivity].
  - change (String a s ++ String c t)%string with (String a (s ++ String c t)).
    cbn [PyStr.occurrences].
    change (String a (s ++ String c t)) with (String a s ++ String c t)%string.
    rewrite (prefix_before_break sub (String a s) H), IH. lia.
Qed.

End Substrings.

Lemma contains_occurrences (sub s : string) :
  PyStr.contains sub s = negb (PyStr.occurrences sub s =? 0)%nat.
Proof.
  induction s as [| a s IH]; cbn [PyStr.contains PyStr.occurrences].
  - now destruct (String.prefix sub EmptyString).
  - rewrite IH. destruct (String.prefix sub (String a s)); [reflexivity |].
    now destruct (PyStr.occurrences sub s).
Qed.

Lemma collect_sources_marker (src : string) :
  src <> "Deepbooru"%string ->
  collect_sources [src; "Deepbooru"%string] = (src ++ String PyStr.LF "Deepbooru")%string.
Proof.
  intros H. unfold collect_sources. cbn [PyList.dedup filter].
  destruct (String.eqb_spec src "Deepbooru") as [E | _]; [contradiction | reflexivity].
Qed.

(** *** What [replace] takes away *)

Lemma prefix_of_append (old rest : string) : String.prefix old (old ++ rest)%string = true.
Proof.
  induction old as [| a old IH]; cbn [String.append String.prefix]; [now destruct rest |].
  destruct (ascii_dec a a) as [_ | Hne]; [exact IH | contradiction].
Qed.

Lemma prefix_split (old s : string) :
  String.prefix old s = true -> exists rest, s = (old ++ rest)%string.
Proof.
  revert s; induction old as [| a old IH]; intros s H.
  - now exists s.
  - destruct s as [| b s]; cbn [String.prefix] in H; [discriminate H |].
    destruct (ascii_dec a b) as [-> | _]; [| discriminate H].
    destruct (IH s H) as (rest & ->). now exists rest.
Qed.

Lemma prefix_shorter (sub z s : string) :
  String.prefix (sub ++ z)%string s = true -> String.prefix sub s = true.
Proof.
  revert s; induction sub as [| a sub IH]; intros s H; [now destruct s |].
  destruct s as [| b s]; cbn [String.append String.prefix] in *; [discriminate H |].
  destruct (ascii_dec a b); [now apply IH | discriminate H].
Qed.

Lemma contains_shorter (sub z s : string) :
  PyStr.contains (sub ++ z)%string s = true -> PyStr.contains sub s = true.
Proof.
  induction s as [| a s IH]; cbn [PyStr.contains]; intros H.
  - rewrite orb_false_r in *. now apply (prefix_shorter sub z).
  - apply orb_prop in H as [H | H].
    + now rewrite (prefix_shorter sub z _ H).
    + rewrite (IH H). apply orb_true_r.
Qed.

Lemma contains_tail (c : ascii) (sub s : string) :
  PyStr.contains (String c sub) s = true -> PyStr.contains sub s = true.
Proof.
  induction s as [| a s IH]; cbn [PyStr.contains String.prefix]; intros H; [discriminate H |].
  assert (Hs : PyStr.contains sub s = true).
  { apply orb_prop in H as [H | H]; [| exact (IH H)].
    destruct (ascii_dec c a); [| discriminate H].
    destruct s; cbn [PyStr.contains]; now rewrite H. }
  rewrite Hs. apply orb_true_r.
Qed.

Lemma replace_from_skips (old new p rest : string) :
  PyStr.replace_from old new (String.length p) (p ++ rest)%string
  = PyStr.replace_from old new 0 rest.
Proof.
  induction p as [| a p IH]; [now destruct rest |].
  cbn [String.length String.append PyStr.replace_from]. exact IH.
Qed.

Lemma replace_at_occurrence (old new rest : string) :
  old <> EmptyString ->
  PyStr.replace old new (old ++ rest)%string = (new ++ PyStr.replace old new rest)%string.
Proof.
  intros Hne. unfold PyStr.replace. destruct old as [| a old]; [contradiction |].
  change (String a old ++ rest)%string with (String a (old ++ rest)).
  cbn [PyStr.replace_from].
  change (String a (old ++ rest)) with (String a old ++ rest)%string.
  rewrite prefix_of_append. cbn [String.length Nat.pred].
  now rewrite replace_from_skips.
Qed.

Lemma replace_without_occurrence (old new s : string) :
  PyStr.contains old s = false -> PyStr.replace old new s = s.
Proof.
  unfold PyStr.replace. induction s as [| a s IH]; [reflexivity |].
  cbn [PyStr.contains PyStr.replace_from]. intros H.
  apply orb_false_elim in H as [Hp Hs]. rewrite Hp, (IH Hs). reflexivity.
Qed.

Lemma count_char_app (c : ascii) (a b : string) :
  count_char c (a ++ b)%string = (count_char c a + count_char c b)%nat.
Proof.
  induction a as [| x a IH]; [reflexivity |].
  cbn [String.append count_char]. rewrite IH. lia.
Qed.

Lemma replace_from_count (c : ascii) (old s : string) :
  forall skip,
    (count_char c (PyStr.replace_from old "" skip s) <= count_char c s)%nat.
Proof.
  induction s as [| a s IH]; intros skip; [reflexivity |].
  cbn [PyStr.replace_from count_char]. destruct skip as [| k].
  - destruct (String.prefix old (String a s)).
    + cbn [String.append]. specialize (IH (Nat.pred (String.length old))).
      destruct (Ascii.eqb a c); lia.
    + cbn [count_char]. specialize (IH 0%nat). destruct (Ascii.eqb a c); lia.
  - specialize (IH k). destruct (Ascii.eqb a c); lia.
Qed.

(** Removing the occurrences of [old] removes at least one [c] when
    [old] occurs and holds a [c]. *)
Lemma replace_count_less (c : ascii) (old s : string) :
  (1 <= count_char c old)%nat ->
  PyStr.contains old s = true ->
  (count_char c (PyStr.replace old "" s) < count_char c s)%nat.
Proof.
  intros Hold. assert (Hne : old <> EmptyString) by (intros ->; cbn in Hold; lia).
  induction s as [| a s IH]; cbn [PyStr.contains]; intros H.
  - destruct old; [contradiction | discriminate H].
  - destruct (String.prefix old (String a s)) eqn:Hp.
    + destruct (prefix_split _ _ Hp) as (rest & E). rewrite E.
      rewrite (replace_at_occurrence old "" rest Hne), !count_char_app.
      cbn [count_char]. pose proof (replace_from_count c old rest 0) as Hle.
      unfold PyStr.replace. lia.
    + cbn [orb] in H. unfold PyStr.replace in *. cbn [PyStr.replace_from].
      rewrite Hp. cbn [count_char]. specialize (IH H). destruct (Ascii.eqb a c); lia.
Qed.

(** *** The classifier branch on the source *)

Lemma normalize_source_cleaned (src : string) :
  normalize_source src
  = if PyStr.contains "Deepbooru" (remove_old_marker src)
    then remove_old_marker src
    else (remove_old_marker src ++ String PyStr.LF "Deepbooru")%string.
Proof.
  unfold normalize_source. fold (remove_old_marker src).
  destruct (PyStr.contains "Deepbooru" (remove_old_marker src)) eqn:H; [reflexivity |].
  cbn [negb]. apply collect_sources_marker. intros E. rewrite E in H. discriminate H.
Qed.

Lemma normalize_source_marked (src : string) :
  PyStr.contains "Deepbooru" (normalize_source src) = true.
Proof.
  rewrite normalize_source_cleaned.
  destruct (PyStr.contains "Deepbooru" (remove_old_marker src)) eqn:H; [exact H |].
  rewrite contains_before_break by reflexivity. apply orb_true_r.
Qed.

Lemma remove_old_marker_fixed (s : string) :
  PyStr.contains ("DeepBooru" ++ PyStr.nl) s = false ->
  PyStr.contains (PyStr.nl ++ "DeepBooru") s = false ->
  remove_old_marker s = s.
Proof.
  intros Ha Hb. unfold remove_old_marker.
  destruct (PyStr.contains "DeepBooru" s); [| reflexivity].
  rewrite (replace_without_occurrence _ _ s Ha). exact (replace_without_occurrence _ _ s Hb).
Qed.

Lemma remove_old_marker_takes (s : string) :
  PyStr.contains ("DeepBooru" ++ PyStr.nl) s || PyStr.contains (PyStr.nl ++ "DeepBooru") s
  = true ->
  (count_char "B" (remove_old_marker s) < count_char "B" s)%nat.
Proof.
  intros H. unfold remove_old_marker.
  assert (Hold : PyStr.contains "DeepBooru" s = true).
  { apply orb_prop in H as [H | H].
    - exact (contains_shorter "DeepBooru" PyStr.nl s H).
    - exact (contains_tail PyStr.LF "DeepBooru" s H). }
  rewrite Hold.
  pose proof (replace_from_count "B" (PyStr.nl ++ "DeepBooru")
                (PyStr.replace ("DeepBooru" ++ PyStr.nl) "" s) 0) as Hsecond.
  fold (PyStr.replace (PyStr.nl ++ "DeepBooru") ""
                      (PyStr.replace ("DeepBooru" ++ PyStr.nl) "" s)) in Hsecond.
  destruct (PyStr.contains ("DeepBooru" ++ PyStr.nl) s) eqn:Ha.
  - pose proof (replace_count_less "B" ("DeepBooru" ++ PyStr.nl) s
                  ltac:(cbn; lia) Ha) as Hfirst.
    lia.
  - cbn [orb] in H. rewrite (replace_without_occurrence _ _ s Ha).
    exact (replace_count_less "B" (PyStr.nl ++ "DeepBooru") s ltac:(cbn; lia) H).
Qed.

(** C9, as the code has it.  The classifier branch removes the old
    spelling "DeepBooru" where it stands next to a line feed and appends
    the marker "Deepbooru" when the rest does not hold it.  For every
    source the result holds the marker at least once: exactly once when
    the source without the old spelling did not hold it, and as often as
    that string otherwise.  Normalizing twice gives the same as
    normalizing once exactly when the first result holds no old spelling
    next to a line feed. *)
Theorem normalize_source_idempotent_without_old_marker (src : string) :
  let once := normalize_source src in
  (normalize_source once = once
   <-> PyStr.contains ("DeepBooru" ++ PyStr.nl) once = false
       /\ PyStr.contains (PyStr.nl ++ "DeepBooru") once = false)
  /\ PyStr.occurrences "Deepbooru" once
     = Nat.max 1 (PyStr.occurrences "Deepbooru" (remove_old_marker src)).
Proof.
  intros once. split; [split |].
  - intros Hfix.
    destruct (PyStr.contains ("DeepBooru" ++ PyStr.nl) once
              || PyStr.contains (PyStr.nl ++ "DeepBooru") once) eqn:H;
      [| now apply orb_false_elim in H].
    exfalso. pose proof (remove_old_marker_takes once H) as Hless.
    rewrite normalize_source_cleaned in Hfix.
    destruct (PyStr.contains "Deepbooru" (remove_old_marker once)).
    + rewrite Hfix in Hless. lia.
    + assert (Hsame : count_char "B" once = count_char "B" (remove_old_marker once)).
      { rewrite <- Hfix at 1. rewrite count_char_app. cbn. lia. }
      lia.
  - intros [Ha Hb]. rewrite normalize_source_cleaned, (remove_old_marker_fixed once Ha Hb).
    unfold once. now rewrite normalize_source_marked.
  - unfold once. rewrite normalize_source_cleaned.
    destruct (PyStr.contains "Deepbooru" (remove_old_marker src)) eqn:Hnew.
    + rewrite contains_occurrences in Hnew.
      destruct (PyStr.occurrences "Deepbooru" (remove_old_marker src)); [discriminate | lia].
    + rewrite occurrences_before_break by (reflexivity || discriminate).
      rewrite contains_occurrences in Hnew.
      destruct (PyStr.occurrences "Deepbooru" (remove_old_marker src)); [| discriminate].
      reflexivity.
Qed.

(** The theorem at a source whose old marker is a line of its own: the
    first pass removes it, and the second changes nothing. *)
Lemma normalize_source_idempotent_witness :
  let src := ("DeepBooru" ++ PyStr.nl ++ "https://example.org/art/1")%string in
  let once := normalize_source src in
  once = ("https://example.org/art/1" ++ PyStr.nl ++ "Deepbooru")%string
  /\ normalize_source once = once
  /\ PyStr.occurrences "Deepbooru" once = 1%nat.
Proof.
  intros src once.
  destruct (normalize_source_idempotent_without_old_marker src) as [Hiff Hcount].
  split; [vm_compute; reflexivity |]. split.
  - apply Hiff. split; vm_compute; reflexivity.
  - exact Hcount.
Defined.

(** C9, as the spec has it, fails.  A source that is the old marker alone
    keeps it, gets the new marker appended, and loses the old one on the
    second pass; and a source that holds the new marker twice is left as
    it is. *)
Lemma normalize_source_not_idempotent :
  normalize_source "DeepBooru" = ("DeepBooru" ++ PyStr.nl ++ "Deepbooru")%string
  /\ normalize_source (normalize_source "DeepBooru") = "Deepbooru"
  /\ normalize_source (normalize_source "DeepBooru") <> normalize_source "DeepBooru"
  /\ PyStr.occurrences "Deepbooru"
       (normalize_source ("Deepbooru" ++ PyStr.nl ++ "Deepbooru")%string) = 2%nat.
Proof.
  repeat split; try (vm_compute; reflexivity).
  vm_compute. discriminate.
Qed.

(** The same failure on a source where [collect_sources] is never called:
    removing one old marker uncovers another. *)
Example normalize_source_uncovers_old_marker :
  let src := ("DeepDeepBooru" ++ PyStr.nl ++ "Booru" ++ PyStr.nl ++ "Deepbooru")%string in
  normalize_source src = ("DeepBooru" ++ PyStr.nl ++ "Deepbooru")%string
  /\ normalize_source (normalize_source src) = "Deepbooru".
Proof. split; vm_compute; reflexivity. Qed.

(** ** [--sankaku_url] with a query that is no post id *)

(** C2, as the code has it.  Started from the command line with
    [--sankaku_url] and a query that is not numeric, the run takes no
    post from the server and sends no update, and it logs a message
    that says why.  It ends at once, by [exit()], only when that
    message is the one of a start-up check: both taggers are disabled,
    or the query holds "type:".  Otherwise the server is asked for the
    posts and their number first, the message follows, and the run does
    not end there: it logs the closing summary and returns normally. *)
Theorem sankaku_url_with_non_numeric_query
        (w : World) (post_id tmp_media_path : option string) (args : CliArgs) (s : State) :
  PyStr.truthy_opt post_id = false ->
  PyStr.truthy_opt (arg_sankaku_url args) = true ->
  PyStr.isnumeric (arg_query args) = false ->
  let run := main w post_id tmp_media_path args s in
  let q := arg_query args in
  let started := startup_events (config s) post_id args in
  let total := fst (get_posts w (trace s ++ started) q false) in
  exists evs,
    trace (snd run) = trace s ++ evs
    /\ Trace.none Trace.is_next_post evs
    /\ Trace.none Trace.is_update evs
    /\ stats (snd run) = stats s
    /\ if exits_at_startup (config s) post_id args
       then fst run = Raise SystemExit
            /\ evs = [ELog MsgInitializing;
                      ELog (if negb (saucenao_enabled (config s))
                               && negb (deepbooru_enabled (config s))
                            then MsgNothingToDo else MsgTypeToken)]
       else fst run = Ok tt
            /\ evs = started
                     ++ [EGetPosts q false total; ELog (MsgFound total);
                         ELog MsgSankakuSinglePost;
                         ELog MsgFinished; ELog (MsgSummary total (stats s))].
Proof.
  intros Hcli Hurl Hquery. cbv zeta.
  unfold exits_at_startup, startup_events, main, main_body. rewrite Hcli. run_monad.
  destruct (negb (saucenao_enabled (config s)) && negb (deepbooru_enabled (config s))).
  { run_monad. rewrite <- app_assoc. eexists; split; [reflexivity |].
    repeat split; repeat constructor. }
  run_monad. unfold parse_args. run_monad.
  destruct (PyStr.contains "type:" (arg_query args)).
  { run_monad. rewrite <- app_assoc. eexists; split; [reflexivity |].
    repeat split; repeat constructor. }
  run_monad.
  destruct (PyStr.contains "'" (arg_query args)); run_monad;
    rewrite <- ?app_assoc; cbn [app];
    match goal with
    | |- context [get_posts w ?h ?q ?f] => destruct (get_posts w h q f) as [total posts]
    end;
    run_monad; rewrite Hurl; unfold tag_from_sankaku; rewrite Hquery; run_monad;
    rewrite <- ?app_assoc; cbn [app fst];
    (eexists; split; [reflexivity |]); repeat split; repeat constructor.
Qed.

Lemma sankaku_url_with_non_numeric_query_witness :
  let w := Scenario.world Scenario.ten_posts (Scenario.answer ["cat"] 4 100) [] [] in
  let args := mkArgs (Some "https://chan.sankakucomplex.com/post/show/1") "tag-count:0" None None in
  let s := Scenario.start (Scenario.cfg false true false false) in
  let run := main w None None args s in
  exists evs,
    trace (snd run) = trace s ++ evs
    /\ Trace.none Trace.is_next_post evs
    /\ Trace.none Trace.is_update evs
    /\ stats (snd run) = stats s
    /\ fst run = Ok tt
    /\ evs = [ELog MsgInitializing;
              ELog (MsgRetrieving "http://booru" "tag-count:0");
              EGetPosts "tag-count:0" false 10; ELog (MsgFound 10);
              ELog MsgSankakuSinglePost;
              ELog MsgFinished; ELog (MsgSummary 10 Scenario.no_stats)].
Proof.
  intros w args s run.
  destruct (sankaku_url_with_non_numeric_query w None None args s eq_refl eq_refl eq_refl)
    as (evs & Htrace & Hnext & Hupdate & Hstats & Hend).
  exists evs. cbn in Hend. destruct Hend as [Hok Hevs].
  now repeat split.
Defined.

(** C2, as the spec has it, fails: the message is not the end of the
    run.  The server has been asked for the posts before it, the summary
    is logged after it, and [main] returns instead of calling [exit()]. *)
Lemma sankaku_url_run_goes_on_after_message :
  let w := Scenario.world Scenario.ten_posts (Scenario.answer ["cat"] 4 100) [] [] in
  let args := mkArgs (Some "https://chan.sankakucomplex.com/post/show/1") "tag-count:0" None None in
  let run := main w None None args (Scenario.start (Scenario.cfg false true false false)) in
  fst run = Ok tt
  /\ trace (snd run)
     = [ELog MsgInitializing;
        ELog (MsgRetrieving "http://booru" "tag-count:0");
        EGetPosts "tag-count:0" false 10; ELog (MsgFound 10);
        ELog MsgSankakuSinglePost;
        ELog MsgFinished; ELog (MsgSummary 10 Scenario.no_stats)].
Proof. split; vm_compute; reflexivity. Qed.

(** ** A public server without the classifier *)

Lemma search_tail_none (f : Event -> bool) (r : SauceResult) (b : bool) :
  (forall m, f (ELog m) = false) ->
  (forall n, f (ESleep n) = false) ->
  Trace.none f (search_tail r b).
Proof.
  intros Hlog Hsleep. unfold Trace.none, search_tail.
  destruct (limit_long r =? 0), (limit_short r =? 0), b; cbn [negb andb app];
    repeat constructor; auto.
Qed.

Section PublicServer.

Variable w : World.

Lemma process_post_public_without_classifier
      (tmp : option string) (add rem : list string) (post : Post) (s : State) :
  public (config s) = true ->
  deepbooru_enabled (config s) = false ->
  let run := process_post w false tmp add rem post s in
  let r := get_metadata w (trace s) true (content_url post) "None" in
  fst run = Raise (if deepbooru_forced (config s) then UnboundLocalError else TypeError)
  /\ trace (snd run)
     = trace s ++ (if saucenao_enabled (config s)
                   then ESearch true (content_url post) "None" r :: search_tail r false
                   else []).
Proof.
  intros Hpub Hde.
  process_post_paths w tmp post s; tidy_state.
  all: rewrite Hpub, Hde in Hfetch; cbn in Hfetch.
  all: destruct Hfetch as [Hnone ->]; try discriminate Hnone; try subst tmp_file.
  all: try subst answer.
  all: rewrite ?app_nil_r in *.
  all: try rewrite Hde, andb_false_r in Hconfig2.
  all: unfold classifier_runs in Hruns; rewrite ?Hconfig2, Hde, andb_false_r in Hruns;
    cbn [orb] in Hruns; rewrite Hruns.
  all: cbn [fst snd add_events trace];
    rewrite ?Htrace3, ?Htrace2, ?Hpub, ?Hde, ?Hsauce, ?app_nil_r.
  all: split; reflexivity.
Qed.

End PublicServer.

(** ** Splitting a trace at its only event of a kind *)

Section Kinds.

Variable f : Event -> bool.

Lemma none_app (a b : list Event) :
  Trace.none f a -> Trace.none f b -> Trace.none f (a ++ b).
Proof. intros Ha Hb. apply Forall_app. now split. Qed.

Lemma none_of_kind (g : Event -> bool) (l : list Event) :
  (forall e, g e = true -> f e = false) ->
  Forall (fun e => g e = true) l ->
  Trace.none f l.
Proof. intros H F. eapply Forall_impl; [| exact F]. exact H. Qed.

Lemma none_count (l : list Event) : Trace.none f l -> Trace.count f l = 0%nat.
Proof.
  unfold Trace.count. induction 1 as [| e l He _ IH]; [reflexivity |].
  cbn [filter]. now rewrite He.
Qed.

Lemma count_app (a b : list Event) :
  Trace.count f (a ++ b) = (Trace.count f a + Trace.count f b)%nat.
Proof. unfold Trace.count. now rewrite filter_app, length_app. Qed.

Lemma none_not_split (l before after : list Event) (y : Event) :
  Trace.none f l -> f y = true -> l = before ++ y :: after -> False.
Proof.
  intros Hl Hy ->. apply Forall_app in Hl as [_ Hl]. inversion Hl as [| ? ? Hy' _].
  congruence.
Qed.

Lemma split_at_only (pre post before after : list Event) (x y : Event) :
  Trace.none f pre -> Trace.none f post -> f y = true ->
  pre ++ x :: post = before ++ y :: after ->
  before = pre /\ y = x /\ after = post.
Proof.
  intros Hpre Hpost Hy. revert before.
  induction Hpre as [| p pre Hp _ IH]; intros [| b before] E; cbn [app] in E.
  - injection E as -> ->. now repeat split.
  - injection E as -> E. exfalso. exact (none_not_split _ _ _ _ Hpost Hy E).
  - injection E as -> _. congruence.
  - injection E as -> E. destruct (IH before E) as (-> & -> & ->). now repeat split.
Qed.

End Kinds.

(** Discharges [Trace.none f l] for a trace assembled by the stages. *)
Ltac none_steps :=
  repeat first
    [ apply none_app
    | apply Forall_nil
    | apply Forall_cons; [reflexivity |]
    | apply search_tail_none; reflexivity
    | match goal with
      | F : Forall _ ?l |- Trace.none _ ?l =>
          solve [eapply none_of_kind; [| exact F]; intros e; destruct e; cbn; congruence]
      | F : Forall _ ?l |- Forall _ ?l =>
          solve [eapply none_of_kind; [| exact F]; intros e; destruct e; cbn; congruence]
      | |- Trace.none _ (if ?c then _ else _) => destruct c
      end ].

Ltac none_tac := solve [none_steps].

(** Brings the trace of the current path into the form [trace s ++ evs]. *)
Ltac path_trace :=
  unfold ret; cbn [fst snd add_events trace config stats] in *;
  repeat match goal with
         | H : trace ?s3 = _ |- context [trace ?s3] => rewrite H
         end;
  rewrite ?app_nil_r, <- ?app_assoc; cbn [app].


(** ** The short quota *)

Section Backoff.

Variable w : World.

Lemma search_tail_backoff (r : SauceResult) (b : bool) :
  limit_short r = 0 ->
  limit_long r <> 0 ->
  search_tail r b = [ELog MsgShortLimit; ESleep 35].
Proof.
  intros Hs Hl. unfold search_tail. apply Z.eqb_neq in Hl. rewrite Hl, Hs. reflexivity.
Qed.

(** In one iteration: the warning and the sleep follow the search at
    once, and the iteration makes no other search. *)
Lemma iteration_short_quota
      (db : bool) (tmp : option string) (add rem : list string) (post : Post) (s : State)
      (before after : list Event) (is_public : bool) (from path : string) (r : SauceResult) :
  trace (snd (process_post w db tmp add rem post s))
  = trace s ++ before ++ ESearch is_public from path r :: after ->
  limit_short r = 0 ->
  limit_long r <> 0 ->
  (exists rest, after = ELog MsgShortLimit :: ESleep 35 :: rest)
  /\ Trace.none Trace.is_search before
  /\ Trace.none Trace.is_search after.
Proof.
  process_post_paths w tmp post s.
  all: try destruct (update_fails w _ _).
  all: path_trace; intros E Hshort Hlong; apply app_inv_head in E.
  all: try (exfalso; revert E;
            apply (none_not_split Trace.is_search); [none_tac | reflexivity]).
  all: apply (split_at_only Trace.is_search) in E; [| none_tac | none_tac | reflexivity].
  all: destruct E as (-> & Er & ->); injection Er as _ _ _ Er;
    rewrite Er in Hshort, Hlong;
    rewrite (search_tail_backoff _ _ Hshort Hlong).
  all: (split; [eexists; reflexivity | split; none_tac]).
Qed.

End Backoff.

(** ** Reading a trace piece by piece *)

Section Pieces.

Variable w : World.

Lemma count_cons (f : Event -> bool) (e : Event) (l : list Event) :
  Trace.count f (e :: l) = ((if f e then 1 else 0) + Trace.count f l)%nat.
Proof. unfold Trace.count. cbn [filter]. now destruct (f e). Qed.

Lemma last_discovery_app (seen : list string) (a b : list Event) :
  Trace.last_discovery w seen (a ++ b)
  = Trace.last_discovery w (Trace.last_discovery w seen a) b.
Proof.
  revert seen; induction a as [| e a IH]; intros seen; [reflexivity |].
  destruct e; cbn [app Trace.last_discovery]; apply IH.
Qed.

Lemma last_discovery_quiet (seen : list string) (l : list Event) :
  Trace.none Trace.is_search l ->
  Trace.none Trace.is_classify l ->
  Trace.last_discovery w seen l = seen.
Proof.
  intros Hs Hc. induction l as [| e l IH]; [reflexivity |].
  inversion Hs; inversion Hc; subst.
  destruct e; cbn [Trace.last_discovery]; try (now apply IH); discriminate.
Qed.

Lemma discovered_app (a b : list Event) :
  Trace.discovered w (a ++ b) = Trace.discovered w a ++ Trace.discovered w b.
Proof.
  induction a as [| e a IH]; [reflexivity |].
  destruct e; cbn [app Trace.discovered]; rewrite IH; now rewrite ?app_assoc.
Qed.

Lemma discovered_quiet (l : list Event) :
  Trace.none Trace.is_search l ->
  Trace.none Trace.is_classify l ->
  Trace.none Trace.is_get_post l ->
  Trace.discovered w l = [].
Proof.
  intros Hs Hc Hg. induction l as [| e l IH]; [reflexivity |].
  inversion Hs; inversion Hc; inversion Hg; subst.
  destruct e; cbn [Trace.discovered]; try (now apply IH); discriminate.
Qed.

End Pieces.

(** Counts the events of a kind in a trace assembled by the stages. *)
Ltac count_tac :=
  repeat first [rewrite count_app | rewrite count_cons];
  repeat match goal with
         | |- context [Trace.count ?f ?l] => rewrite (none_count f l) by none_tac
         end;
  cbn.

(** Finds the last discovery of a trace assembled by the stages. *)
Ltac discovery_tac :=
  repeat first
    [ rewrite last_discovery_app
    | progress cbn [Trace.last_discovery]
    | match goal with
      | |- context [Trace.last_discovery ?w ?seen ?l] =>
          rewrite (last_discovery_quiet w seen l) by none_tac
      end ].

(** ** A public server without the classifier, over a run *)

(** What is left of [main] once the loop starts on a public server
    without the classifier. *)
Ltac public_server_loop w s Hpub Hde Hsearch :=
  match goal with
  | |- context [run_posts _ false _ _ _ _ _ ?posts] =>
      destruct posts as [| post rest]; cbn [run_posts]; run_monad;
      rewrite <- ?app_assoc; cbn [app];
      [ split; [reflexivity |]; eexists; split; [reflexivity |];
        repeat split; first [none_tac | (count_tac; lia)]
      | match goal with
        | |- context [process_post ?w0 false ?t ?a ?r ?p ?st] =>
            let Hfail := fresh "Hfail" in
            let Htrace := fresh "Htrace" in
            destruct (process_post_public_without_classifier w0 t a r p st Hpub Hde)
              as [Hfail Htrace];
            destruct (process_post w0 false t a r p st) as [[lr | e] s1];
            cbn [fst snd config trace] in *; [discriminate Hfail |];
            injection Hfail as ->;
            cbn [saucenao_enabled deepbooru_forced set_hide_progress] in *;
            rewrite Hsearch in Htrace;
            match goal with
            | |- context [if ?forced then UnboundLocalError else TypeError] =>
                destruct forced
            end; run_monad; rewrite Htrace;
            rewrite <- ?app_assoc; cbn [app];
            (split; [reflexivity |]); eexists; (split; [reflexivity |]);
            repeat split; first [none_tac | (count_tac; lia)]
        end ]
  end.

(** C4, as the code has it.  With a public server and the classifier
    not enabled, an iteration fetches no media and ends in an exception
    before any update.  Without the forced classifier the path handed to
    the file-existence check of the cleanup is [None], and the check
    raises [TypeError]; with the forced classifier the classifier step
    fails before the cleanup, on the name [deepbooru] that was never
    bound.  In a run of the query loop the first post the server yields
    is searched and not updated, the exception is caught by [main], and
    the run returns without taking another post and without a summary. *)
Theorem public_server_without_classifier_stops_at_cleanup
        (w : World) (post_id tmp : option string) (args : CliArgs) (s : State) :
  public (config s) = true ->
  deepbooru_enabled (config s) = false ->
  exits_at_startup (config s) post_id args = false ->
  PyStr.truthy_opt post_id = true \/ PyStr.truthy_opt (arg_sankaku_url args) = false ->
  let failure := if deepbooru_forced (config s) then UnboundLocalError else TypeError in
  let from_upload := PyStr.truthy_opt post_id in
  let q := run_query post_id args in
  let started := startup_events (config s) post_id args in
  let answer := get_posts w (trace s ++ started) q from_upload in
  let asked := started ++ EGetPosts q from_upload (fst answer)
                       :: (if from_upload then [] else [ELog (MsgFound (fst answer))]) in
  let run := main w post_id tmp args s in
  (forall tmp' add rem post s',
      public (config s') = true ->
      deepbooru_enabled (config s') = false ->
      fetch_media w tmp' post s' = (Ok None, s')
      /\ remove_temporary w None s' = (Raise TypeError, s')
      /\ fst (process_post w false tmp' add rem post s')
         = Raise (if deepbooru_forced (config s') then UnboundLocalError else TypeError)
      /\ exists evs,
          trace (snd (process_post w false tmp' add rem post s')) = trace s' ++ evs
          /\ Trace.none Trace.is_download evs
          /\ Trace.none Trace.is_update evs
          /\ Trace.none is_remove evs)
  /\ fst run = Ok tt
  /\ exists evs,
      trace (snd run) = trace s ++ evs
      /\ (Trace.count Trace.is_next_post evs <= 1)%nat
      /\ Trace.none Trace.is_download evs
      /\ Trace.none Trace.is_update evs
      /\ evs = match snd answer with
               | [] =>
                   asked ++ (if from_upload then []
                             else [ELog MsgFinished;
                                   ELog (MsgSummary (fst answer) (stats s))])
               | post :: _ =>
                   let r := get_metadata w (trace s ++ asked ++ [ENextPost post]) true
                                         (content_url post) "None" in
                   asked ++ ENextPost post
                         :: ESearch true (content_url post) "None" r
                         :: search_tail r false ++ [ECaught failure]
               end.
Proof.
  intros Hpub Hde Hstay Hloop. cbv zeta. split.
  { intros tmp' add rem post s' Hpub' Hde'.
    destruct (process_post_public_without_classifier w tmp' add rem post s' Hpub' Hde')
      as [Hfail Htrace].
    split; [unfold fetch_media; run_monad; now rewrite Hpub', Hde' |].
    split; [reflexivity |]. split; [exact Hfail |].
    eexists; split; [exact Htrace |].
    destruct (saucenao_enabled (config s')); repeat split;
      try (apply Forall_cons; [reflexivity |]);
      first [apply search_tail_none; reflexivity | constructor]. }
  unfold exits_at_startup in Hstay. apply orb_false_elim in Hstay as [Hon Htype].
  assert (Hsearch : saucenao_enabled (config s) = true).
  { rewrite Hde in Hon. now destruct (saucenao_enabled (config s)). }
  unfold run_query, startup_events, main, main_body.
  assert (Hset : forall c, saucenao_enabled (set_hide_progress c true) = saucenao_enabled c
                           /\ deepbooru_enabled (set_hide_progress c true)
                              = deepbooru_enabled c) by (intros c; now split).
  destruct (PyStr.truthy_opt post_id) eqn:Hid; cbn [negb andb] in *; run_monad;
    rewrite ?(proj1 (Hset _)), ?(proj2 (Hset _)), Hon; run_monad.
  2: { unfold parse_args. run_monad. rewrite Htype. run_monad.
       destruct Hloop as [Hloop | Hloop]; [discriminate Hloop |].
       destruct (PyStr.contains "'" (arg_query args)); run_monad.
       all: rewrite <- ?app_assoc; cbn [app].
       all: match goal with
            | |- context [get_posts ?w0 ?h ?q ?f] =>
                destruct (get_posts w0 h q f) as [total posts]
            end; run_monad; cbn [fst snd]; rewrite Hloop, Hde.
       all: public_server_loop w s Hpub Hde Hsearch. }
  rewrite ?app_nil_r; cbn [app PyStr.truthy_opt].
  match goal with
  | |- context [get_posts ?w0 ?h ?q ?f] => destruct (get_posts w0 h q f) as [total posts]
  end; run_monad; cbn [fst snd]; rewrite ?(proj2 (Hset _)), Hde.
  assert (Hpub' : public (set_hide_progress (config s) true) = true) by exact Hpub.
  assert (Hde' : deepbooru_enabled (set_hide_progress (config s) true) = false) by exact Hde.
  public_server_loop w s Hpub' Hde' Hsearch.
Qed.

Lemma public_server_without_classifier_witness :
  let w := Scenario.world Scenario.ten_posts (Scenario.answer ["cat"] 4 100) [] [] in
  let s := Scenario.start (Scenario.cfg true true false false) in
  let run := main w None None (Scenario.query "tag-count:0") s in
  fst run = Ok tt
  /\ stats (snd run) = mkStats 1 0 0 0
  /\ trace (snd run)
     = [ELog MsgInitializing; ELog (MsgRetrieving "http://booru" "tag-count:0");
        EGetPosts "tag-count:0" false 10; ELog (MsgFound 10);
        ENextPost (Scenario.post 0 [] []);
        ESearch true "http://booru/data/1.png" "None" (Scenario.answer ["cat"] 4 100);
        ECaught TypeError].
Proof.
  intros w s run.
  destruct (public_server_without_classifier_stops_at_cleanup
              w None None (Scenario.query "tag-count:0") s
              eq_refl eq_refl eq_refl (or_intror eq_refl))
    as (_ & Hok & evs & Htrace & _ & _ & _ & Hevs).
  split; [exact Hok |]. split; [vm_compute; reflexivity |].
  unfold run. rewrite Htrace, Hevs. vm_compute. reflexivity.
Defined.

(** C4, as the spec has it, fails with the forced classifier: the
    iteration does not get as far as the cleanup; the classifier step
    raises [UnboundLocalError], and that is what [main] catches. *)
Lemma public_server_with_forced_classifier :
  let w := Scenario.world Scenario.ten_posts (Scenario.answer ["cat"] 4 100) [] [] in
  let s := Scenario.start (Scenario.cfg true true false true) in
  fst (process_post w false None [] [] (Scenario.post 0 [] []) s) = Raise UnboundLocalError
  /\ fst (process_post w false None [] [] (Scenario.post 0 [] []) s) <> Raise TypeError
  /\ last (trace (snd (main w None None (Scenario.query "tag-count:0") s))) (ELog MsgFinished)
     = ECaught UnboundLocalError.
Proof. repeat split; try (vm_compute; reflexivity). vm_compute. discriminate. Qed.

Section UpdateOnce.

Variable w : World.


End UpdateOnce.


(** ** The tags that are sent *)

Section ListFacts.

Lemma mem_In (x : string) (l : list string) : PyList.mem x l = true <-> In x l.
Proof.
  unfold PyList.mem. rewrite existsb_exists. split.
  - intros (y & Hy & E). apply String.eqb_eq in E. now subst.
  - intros H. exists x. split; [exact H | apply String.eqb_refl].
Qed.

Lemma remove_first_subset (x t : string) (l : list string) :
  In t (PyList.remove_first x l) -> In t l.
Proof.
  induction l as [| y l IH]; cbn [PyList.remove_first]; [easy |].
  destruct (String.eqb x y); cbn [In]; intuition.
Qed.

Lemma remove_first_keeps (x t : string) (l : list string) :
  t <> x -> In t l -> In t (PyList.remove_first x l).
Proof.
  intros Hne. induction l as [| y l IH]; cbn [PyList.remove_first In]; [easy |].
  destruct (String.eqb_spec x y) as [-> | _]; cbn [In]; intuition congruence.
Qed.

Lemma remove_first_NoDup (x : string) (l : list string) :
  NoDup l -> NoDup (PyList.remove_first x l) /\ ~ In x (PyList.remove_first x l).
Proof.
  induction 1 as [| y l Hy Hl [IH1 IH2]]; cbn [PyList.remove_first].
  - split; [constructor | easy].
  - destruct (String.eqb_spec x y) as [-> | Hne].
    + now split.
    + split.
      * constructor; [| exact IH1]. intros H. apply Hy. eapply remove_first_subset, H.
      * cbn [In]. intuition congruence.
Qed.

Lemma remove_user_tags_spec (remove_tags l : list string) :
  NoDup l ->
  NoDup (remove_user_tags remove_tags l)
  /\ forall t, In t (remove_user_tags remove_tags l) <-> In t l /\ ~ In t remove_tags.
Proof.
  unfold remove_user_tags. revert l.
  induction remove_tags as [| x rest IH]; intros l Hl; cbn [fold_left].
  - split; [exact Hl |]. intros t. cbn [In]. tauto.
  - destruct (PyList.mem x l) eqn:Hmem.
    + destruct (remove_first_NoDup x l Hl) as [Hnd Hx].
      destruct (IH _ Hnd) as [IH1 IH2]. split; [exact IH1 |].
      intros t. rewrite IH2. cbn [In]. split.
      * intros [Ht Hrest]. split; [eapply remove_first_subset, Ht |].
        intros [-> | H]; [exact (Hx Ht) | exact (Hrest H)].
      * intros [Ht Hno]. split; [| tauto].
        apply remove_first_keeps; [| exact Ht]. intros ->. apply Hno. now left.
    + destruct (IH _ Hl) as [IH1 IH2]. split; [exact IH1 |].
      intros t. rewrite IH2. cbn [In]. split; [| tauto].
      intros [Ht Hrest]. split; [exact Ht |].
      intros [-> | H]; [| exact (Hrest H)].
      apply mem_In in Ht. congruence.
Qed.

Lemma strip_placeholders_subset (fuel i : nat) (t : string) (l : list string) :
  In t (strip_placeholders_from fuel i l) -> In t l.
Proof.
  revert i l; induction fuel as [| fuel IH]; intros i l; cbn [strip_placeholders_from];
    [easy |].
  destruct (nth_error l i) as [tag |]; [| easy].
  destruct (is_placeholder tag); intros H; apply IH in H; [| exact H].
  eapply remove_first_subset, H.
Qed.

Lemma strip_placeholders_keeps (fuel i : nat) (t : string) (l : list string) :
  is_placeholder t = false ->
  In t l -> In t (strip_placeholders_from fuel i l).
Proof.
  intros Ht. revert i l; induction fuel as [| fuel IH]; intros i l H;
    cbn [strip_placeholders_from]; [exact H |].
  destruct (nth_error l i) as [tag |]; [| exact H].
  destruct (is_placeholder tag) eqn:Htag; apply IH; [| exact H].
  apply remove_first_keeps; [congruence | exact H].
Qed.

Lemma patched_post_tags (remove_tags : list string) (p : Post) (t : string) :
  NoDup (tags p) ->
  (In t (tags (patched_post remove_tags p)) -> In t (tags p) /\ ~ In t remove_tags)
  /\ (In t (tags p) -> ~ In t remove_tags -> is_placeholder t = false ->
      In t (tags (patched_post remove_tags p))).
Proof.
  intros Hnd. unfold patched_post, strip_placeholders.
  destruct (remove_user_tags_spec remove_tags (tags p) Hnd) as [_ Hrem].
  destruct remove_tags as [| x rest]; cbn [PyList.truthy PyList.is_nil negb tags set_tags].
  - split.
    + intros H. apply strip_placeholders_subset in H. cbn [In]. tauto.
    + intros H _ Hp. now apply strip_placeholders_keeps.
  - split.
    + intros H. apply strip_placeholders_subset in H. now apply Hrem.
    + intros H Hno Hp. apply strip_placeholders_keeps; [exact Hp |]. now apply Hrem.
Qed.

Lemma merge_tags_spec (w : World) (a b add : list string) :
  set_order_ok w ->
  NoDup (merge_tags w a b add)
  /\ forall t, In t (merge_tags w a b add) <-> In t a \/ In t b \/ In t add.
Proof.
  intros Hw. unfold merge_tags.
  destruct add as [| x rest]; cbn [PyList.truthy PyList.is_nil negb].
  - destruct (Hw (a ++ b)) as [Hnd Hin]. split; [exact Hnd |].
    intros t. rewrite Hin, in_app_iff. cbn [In]. tauto.
  - destruct (Hw (a ++ b ++ x :: rest)) as [Hnd Hin]. split; [exact Hnd |].
    intros t. now rewrite Hin, !in_app_iff.
Qed.

Lemma merge_tags_in (w : World) (Hw : set_order_ok w) (a b add : list string) (t : string) :
  In t (merge_tags w a b add) <-> In t a \/ In t b \/ In t add.
Proof. now apply merge_tags_spec. Qed.

Lemma in_none_false (f : Event -> bool) (l : list Event) (e : Event) :
  Trace.none f l -> In e l -> f e = true -> False.
Proof.
  intros Hl Hin He. unfold Trace.none in Hl. rewrite Forall_forall in Hl.
  specialize (Hl e Hin). congruence.
Qed.

End ListFacts.

(** Collects the discovered tags of a trace assembled by the stages. *)
Ltac discovered_tac :=
  repeat first
    [ rewrite discovered_app
    | progress cbn [Trace.discovered]
    | match goal with
      | |- context [Trace.discovered ?w ?l] =>
          rewrite (discovered_quiet w l) by none_tac
      end ].

(** Finds the update in a trace assembled by the stages. *)
Ltac find_update H :=
  repeat match type of H with
         | In _ (_ ++ _) => apply in_app_or in H; destruct H as [H | H]
         | In _ (_ :: _) => destruct H as [H | H]
         | In _ [] => destruct H
         | In _ (if ?c then _ else _) => destruct c
         | _ = EUpdate _ => first [discriminate H | injection H as <-]
         | In (EUpdate _) ?l =>
             exfalso; apply (in_none_false Trace.is_update l _ ltac:(none_tac) H); reflexivity
         end.

Lemma dedup_spec (l : list string) :
  NoDup (PyList.dedup l) /\ forall x, In x (PyList.dedup l) <-> In x l.
Proof.
  induction l as [| y l [IHnd IHin]]; cbn [PyList.dedup].
  - split; [constructor | tauto].
  - split.
    + constructor.
      * rewrite filter_In, String.eqb_refl. cbn. intros [_ H]. discriminate H.
      * now apply NoDup_filter.
    + intros x. cbn [In]. rewrite filter_In, IHin.
      destruct (String.eqb_spec y x) as [-> | Hne]; cbn [negb]; intuition congruence.
Qed.

Lemma scenario_set_order_ok (posts : list Post) (answer : SauceResult)
      (classified : list string) (related : list Tag) :
  set_order_ok (Scenario.world posts answer classified related).
Proof. intros l. exact (dedup_spec l). Qed.

(** The removal of "deepbooru" and "tagme" changes the list it iterates
    over, so the tag that follows a removed one is skipped. *)
Example strip_placeholders_skips_neighbour :
  strip_placeholders ["deepbooru"; "tagme"; "cat"] = ["tagme"; "cat"].
Proof. reflexivity. Qed.

(** ** The end of the loop when the quota is used up *)

(** Refutes the presence of a search in a trace that holds none. *)
Ltac no_search_in H :=
  match type of H with
  | In _ ?l =>
      let N := fresh "N" in
      assert (N : Trace.none Trace.is_search l) by none_tac;
      exact (in_none_false Trace.is_search l _ N H eq_refl)
  end.

Section LimitReached.

Variable w : World.

(** An iteration that comes back reports [limit_reached] exactly when its
    search answered with a long quota of 0. *)
Lemma limit_reached_iff_long_quota_used_up
      (db : bool) (tmp : option string) (add rem : list string) (post : Post)
      (s s' : State) (limit_reached : bool) (evs : list Event) :
  process_post w db tmp add rem post s = (Ok limit_reached, s') ->
  trace s' = trace s ++ evs ->
  limit_reached = true
  <-> exists is_public from path r,
      In (ESearch is_public from path r) evs /\ limit_long r = 0.
Proof.
  process_post_paths w tmp post s.
  all: try destruct (update_fails w _ _).
  all: unfold ret; intros E; try discriminate E; injection E as <- <-.
  all: path_trace; intros E; apply app_inv_head in E; subst evs.
  all: split.
  all: try (intros Hl; apply Z.eqb_eq in Hl; do 4 eexists; split; [| exact Hl];
            apply in_or_app; right; left; reflexivity).
  all: try discriminate.
  all: intros (is_public & from & path & r & Hin & Hl).
  all: try (exfalso; no_search_in Hin).
  all: apply in_app_or in Hin; destruct Hin as [Hin | [Hin | Hin]].
  all: try (exfalso; no_search_in Hin).
  all: injection Hin as _ _ _ ->; now apply Z.eqb_eq.
Qed.

End LimitReached.


Section EarlyEnd.

Variable w : World.

Lemma process_post_config
      (db : bool) (tmp : option string) (add rem : list string) (post : Post) (s : State) :
  let s' := snd (process_post w db tmp add rem post s) in
  public (config s') = public (config s)
  /\ deepbooru_enabled (config s') = deepbooru_enabled (config s)
  /\ deepbooru_forced (config s') = deepbooru_forced (config s)
  /\ (saucenao_enabled (config s) = false -> saucenao_enabled (config s') = false).
Proof.
  process_post_paths w tmp post s.
  all: try destruct (update_fails w _ _).
  all: unfold ret; cbn [fst snd add_events trace config stats] in *.
  all: rewrite ?Hconfig3, ?Hconfig2.
  all: try (destruct ((limit_long answer =? 0) && deepbooru_enabled (config s))).
  all: repeat split; try reflexivity; try congruence.
Qed.


End EarlyEnd.


(** The scenario of the spec from start to end: ten posts, the long quota
    used up by the search of the post at index 2, no classifier.  Three
    posts are taken and tagged, seven are counted as untagged. *)
Example ten_posts_quota_used_up_at_index_2 :
  let w := Scenario.world_with_quota 2 Scenario.ten_posts in
  let run := main w None None (Scenario.query "tag-count:0")
                  (Scenario.start (Scenario.cfg false true false false)) in
  fst run = Ok tt
  /\ stats (snd run) = mkStats 3 0 7 0
  /\ Trace.count Trace.is_next_post (trace (snd run)) = 3%nat
  /\ Trace.count Trace.is_update (trace (snd run)) = 3%nat.
Proof. repeat split; vm_compute; reflexivity. Qed.

(** ** After the long quota is used up *)

Section MoreSplits.

Variable f : Event -> bool.

Lemma split_first (pre post before after : list Event) (x y : Event) :
  Trace.none f pre -> f y = true ->
  pre ++ x :: post = before ++ y :: after ->
  (before = pre /\ y = x /\ after = post)
  \/ exists mid, before = pre ++ x :: mid /\ post = mid ++ y :: after.
Proof.
  intros Hpre Hy. revert before.
  induction Hpre as [| p pre Hp _ IH]; intros [| b before] E; cbn [app] in E.
  - injection E as -> ->. now left.
  - injection E as -> E. right. now exists before.
  - injection E as -> _. congruence.
  - injection E as -> E. destruct (IH before E) as [(-> & -> & ->) | (mid & -> & ->)].
    + now left.
    + right. now exists mid.
Qed.

Lemma split_skip (pre l before after : list Event) (y : Event) :
  Trace.none f pre -> f y = true ->
  pre ++ l = before ++ y :: after ->
  exists mid, before = pre ++ mid /\ l = mid ++ y :: after.
Proof.
  intros Hpre Hy. revert before.
  induction Hpre as [| p pre Hp _ IH]; intros before E; cbn [app] in E.
  - now exists before.
  - destruct before as [| b before]; cbn [app] in E.
    + injection E as -> _. congruence.
    + injection E as -> E. destruct (IH before E) as (mid & -> & ->). now exists mid.
Qed.

End MoreSplits.





Section Exhausted.

Variable w : World.



Lemma run_posts_step (db : bool) (tmp : option string) (add rem : list string)
      (total : Z) (index : nat) (post : Post) (rest : list Post) (s : State) :
  run_posts w db tmp add rem total index (post :: rest) s
  = match process_post w db tmp add rem post (add_events s [ENextPost post]) with
    | (Ok limit_reached, s1) =>
        (if limit_reached && negb (deepbooru_enabled (config s1))
         then statistics 0 0 (total - Z.of_nat index - 1)
         else run_posts w db tmp add rem total (S index) rest) s1
    | (Raise e, s1) => (Raise e, s1)
    end.
Proof. reflexivity. Qed.


Lemma process_post_extends (db : bool) (tmp : option string) (add rem : list string)
      (post : Post) (s : State) :
  exists evs, trace (snd (process_post w db tmp add rem post s)) = trace s ++ evs.
Proof.
  process_post_paths w tmp post s.
  all: try destruct (update_fails w _ _).
  all: path_trace; eexists; reflexivity.
Qed.

Lemma run_posts_extends (db : bool) (tmp : option string) (add rem : list string)
      (total : Z) (posts : list Post) :
  forall (index : nat) (s : State),
  exists evs, trace (snd (run_posts w db tmp add rem total index posts s)) = trace s ++ evs.
Proof.
  induction posts as [| post rest IH]; intros index s.
  - exists []. cbn. now rewrite app_nil_r.
  - rewrite run_posts_step.
    destruct (process_post_extends db tmp add rem post (add_events s [ENextPost post]))
      as (evs & E).
    destruct (process_post w db tmp add rem post (add_events s [ENextPost post]))
      as [[limit_reached | e] s1]; cbn [fst snd add_events trace] in *.
    + destruct (limit_reached && negb (deepbooru_enabled (config s1))).
      * cbn. rewrite E, <- app_assoc. eexists; reflexivity.
      * destruct (IH (S index) s1) as (evs' & E'). rewrite E', E, <- !app_assoc.
        eexists; reflexivity.
    + rewrite E, <- app_assoc. eexists; reflexivity.
Qed.



End Exhausted.


(** ** Whole runs *)

(** ** The short quota over the loop *)

Section BackoffLoop.

Variable w : World.

Lemma no_search_after_quiet (a b : list Event) :
  Trace.none Trace.is_search a ->
  no_search_before_next_post b = true ->
  no_search_before_next_post (a ++ b) = true.
Proof.
  induction 1 as [| e a He _ IH]; intros Hb; [exact Hb |].
  destruct e; cbn [app no_search_before_next_post]; try (now apply IH); try reflexivity.
  discriminate He.
Qed.

(** An iteration makes at most one search. *)
Lemma iteration_searches
      (db : bool) (tmp : option string) (add rem : list string) (post : Post) (s : State) :
  exists evs,
    trace (snd (process_post w db tmp add rem post s)) = trace s ++ evs
    /\ (Trace.none Trace.is_search evs
        \/ exists pre is_public from path r post0,
            evs = pre ++ ESearch is_public from path r :: post0
            /\ Trace.none Trace.is_search pre
            /\ Trace.none Trace.is_search post0
            /\ (limit_short r = 0 -> limit_long r <> 0 ->
                exists rest, post0 = ELog MsgShortLimit :: ESleep 35 :: rest)).
Proof.
  process_post_paths w tmp post s.
  all: try destruct (update_fails w _ _).
  all: path_trace; eexists; (split; [reflexivity |]).
  all: first
         [ left; none_tac
         | right; do 6 eexists; split; [reflexivity |];
           split; [none_tac |]; split; [none_tac |];
           intros Hs Hl; rewrite (search_tail_backoff _ _ Hs Hl); eexists; reflexivity ].
Qed.

Lemma run_posts_starts (db : bool) (tmp : option string) (add rem : list string)
      (total : Z) (index : nat) (posts : list Post) (s : State) :
  exists evs,
    trace (snd (run_posts w db tmp add rem total index posts s)) = trace s ++ evs
    /\ no_search_before_next_post evs = true.
Proof.
  destruct posts as [| post rest].
  - exists []. cbn. now rewrite app_nil_r.
  - destruct (run_posts_extends w db tmp add rem total (post :: rest) index s) as (evs & E).
    exists evs. split; [exact E |].
    rewrite run_posts_step in E.
    destruct (process_post_extends w db tmp add rem post (add_events s [ENextPost post]))
      as (evs1 & E1).
    destruct (process_post w db tmp add rem post (add_events s [ENextPost post]))
      as [[limit_reached | e] s1]; cbn [fst snd add_events trace] in *.
    + destruct (limit_reached && negb (deepbooru_enabled (config s1))).
      * cbn in E. rewrite E1, <- app_assoc in E. apply app_inv_head in E. now subst evs.
      * destruct (run_posts_extends w db tmp add rem total rest (S index) s1) as (evs2 & E2).
        rewrite E2, E1, <- !app_assoc in E. apply app_inv_head in E. now subst evs.
    + rewrite E1, <- app_assoc in E. apply app_inv_head in E. now subst evs.
Qed.

(** C3, as the code has it.  When a search of the query loop answers
    with a short quota of 0 and a long quota that is not 0, the warning
    and a sleep of 35 seconds follow at once, and there is no second
    search for that post: no search is made until the loop takes the
    next post, or the loop ends. *)
Theorem short_quota_sleeps_without_second_search
        (db : bool) (tmp : option string) (add rem : list string) (total : Z)
        (index : nat) (posts : list Post) (s : State)
        (before after : list Event) (is_public : bool) (from path : string) (r : SauceResult) :
  trace (snd (run_posts w db tmp add rem total index posts s))
  = trace s ++ before ++ ESearch is_public from path r :: after ->
  limit_short r = 0 ->
  limit_long r <> 0 ->
  exists rest,
    after = ELog MsgShortLimit :: ESleep 35 :: rest
    /\ no_search_before_next_post rest = true.
Proof.
  intros E Hs Hl. revert index s before after E.
  induction posts as [| post rest IH]; intros index s before after E.
  - exfalso. cbn in E. rewrite <- (app_nil_r (trace s)) in E at 1.
    apply app_inv_head in E. now destruct before.
  - rewrite run_posts_step in E. set (s0 := add_events s [ENextPost post]) in *.
    destruct (iteration_searches db tmp add rem post s0) as (evs1 & E1 & Hsearch).
    assert (Hloop : exists evs2,
               ENextPost post :: evs1 ++ evs2
               = before ++ ESearch is_public from path r :: after
               /\ no_search_before_next_post evs2 = true
               /\ (forall before' after',
                      evs2 = before' ++ ESearch is_public from path r :: after' ->
                      exists rest',
                        after' = ELog MsgShortLimit :: ESleep 35 :: rest'
                        /\ no_search_before_next_post rest' = true)).
    { assert (Hnil : forall before' after',
                 [] = before' ++ ESearch is_public from path r :: after' ->
                 exists rest',
                   after' = ELog MsgShortLimit :: ESleep 35 :: rest'
                   /\ no_search_before_next_post rest' = true)
        by (intros [| b before'] after' H; discriminate H).
      destruct (process_post w db tmp add rem post s0) as [[limit_reached | e] s1];
        cbn [fst snd] in *; subst s0; cbn [add_events trace] in E1.
      - destruct (limit_reached && negb (deepbooru_enabled (config s1))).
        + exists []. cbn in E. rewrite E1, <- app_assoc in E. apply app_inv_head in E.
          rewrite app_nil_r. cbn [app] in E. now repeat split.
        + destruct (run_posts_starts db tmp add rem total (S index) rest s1)
            as (evs2 & E2 & Hstart).
          exists evs2. split; [| split; [exact Hstart |]].
          * rewrite E2, E1, <- !app_assoc in E. apply app_inv_head in E. exact E.
          * intros before' after' H. subst evs2.
            exact (IH (S index) s1 before' after' E2).
      - exists []. rewrite E1, <- app_assoc in E. apply app_inv_head in E.
        rewrite app_nil_r. cbn [app] in E. now repeat split. }
    destruct Hloop as (evs2 & Eall & Hstart & Hlater).
    destruct Hsearch as [Hnone | (pre & p1 & f1 & pa1 & r1 & post0 & -> & Hpre & Hpost0 & Hback)].
    + change (ENextPost post :: evs1 ++ evs2) with ((ENextPost post :: evs1) ++ evs2) in Eall.
      apply (split_skip Trace.is_search) in Eall;
        [| constructor; [reflexivity | exact Hnone] | reflexivity].
      destruct Eall as (mid & _ & Emid). exact (Hlater mid after Emid).
    + rewrite <- app_assoc in Eall. cbn [app] in Eall.
      change (ENextPost post :: pre ++ ESearch p1 f1 pa1 r1 :: post0 ++ evs2)
        with ((ENextPost post :: pre) ++ ESearch p1 f1 pa1 r1 :: post0 ++ evs2) in Eall.
      apply (split_first Trace.is_search) in Eall;
        [| constructor; [reflexivity | exact Hpre] | reflexivity].
      destruct Eall as [(_ & Er & ->) | (mid & _ & Emid)].
      * injection Er as _ _ _ ->. destruct (Hback Hs Hl) as (rest1 & ->).
        exists (rest1 ++ evs2). split; [reflexivity |].
        apply no_search_after_quiet; [| exact Hstart].
        inversion Hpost0 as [| ? ? _ Htail]; subst.
        inversion Htail as [| ? ? _ Htail']; subst. exact Htail'.
      * apply (split_skip Trace.is_search) in Emid; [| exact Hpost0 | reflexivity].
        destruct Emid as (mid' & _ & Emid). exact (Hlater mid' after Emid).
Qed.

End BackoffLoop.

Lemma short_quota_sleeps_witness :
  let posts := [Scenario.post 1 [] []; Scenario.post 2 [] []] in
  let w := Scenario.world posts (Scenario.answer ["cat"] 0 5) [] [] in
  let s := Scenario.start (Scenario.cfg false true false false) in
  let evs := trace (snd (run_posts w false None [] [] 2 0 posts s)) in
  let r := Scenario.answer ["cat"] 0 5 in
  nth_error evs 2 = Some (ESearch false "http://booru/data/1.png" "tmp/1.png" r)
  /\ Trace.count Trace.is_search evs = 2%nat
  /\ exists rest,
      skipn 3 evs = ELog MsgShortLimit :: ESleep 35 :: rest
      /\ no_search_before_next_post rest = true.
Proof.
  intros posts w s evs r.
  split; [vm_compute; reflexivity |]. split; [vm_compute; reflexivity |].
  apply (short_quota_sleeps_without_second_search
           w false None [] [] 2 0%nat posts s (firstn 2 evs) (skipn 3 evs)
           false "http://booru/data/1.png" "tmp/1.png" r).
  - vm_compute. reflexivity.
  - reflexivity.
  - discriminate.
Defined.


(** C3, as the spec has it, fails: with a short quota of 0 and a long
    quota of 5 the run of one post sleeps 35 seconds and goes on to the
    update; the search of that post stays the only one. *)
Lemma short_quota_search_not_repeated :
  let w := Scenario.world [Scenario.post 1 [] []] (Scenario.answer ["cat"] 0 5) [] [] in
  let run := main w None None (Scenario.query "tag-count:0")
                  (Scenario.start (Scenario.cfg false true false false)) in
  filter (fun e => negb (Trace.is_log e)) (trace (snd run))
  = [EGetPosts "tag-count:0" false 1;
     ENextPost (Scenario.post 1 [] []);
     EUrlRetrieve "http://booru/data/1.png" "tmp/1.png";
     ESearch false "http://booru/data/1.png" "tmp/1.png" (Scenario.answer ["cat"] 0 5);
     ESleep 35;
     ERemove "tmp/1.png";
     EUpdate (set_source (Scenario.post 1 ["cat"] []) "https://example.org/art/1")]
  /\ Trace.count Trace.is_search (trace (snd run)) = 1%nat.
Proof. split; vm_compute; reflexivity. Qed.


(** The classifier alone: one post without tags, the classifier finds
    "cat" and "outdoors".  The post is updated with these tags, its source
    holds the marker once, and the classifier counter is 1. *)
Example classifier_only_run :
  let post := Scenario.post 1 [] [] in
  let w := Scenario.world [post] (Scenario.answer [] 4 100) ["cat"; "outdoors"] [] in
  let run := main w None None (Scenario.query "tag-count:0")
                  (Scenario.start (Scenario.cfg false false true false)) in
  fst run = Ok tt
  /\ stats (snd run) = mkStats 0 1 0 0
  /\ filter Trace.is_update (trace (snd run))
     = [EUpdate (mkPost 1 "http://booru/data/1.png" ["cat"; "outdoors"] "safe"
                        (PyStr.nl ++ "Deepbooru")%string [])]
  /\ PyStr.occurrences "Deepbooru" (PyStr.nl ++ "Deepbooru")%string = 1%nat.
Proof. repeat split; vm_compute; reflexivity. Qed.

(** A public server, no classifier, ten posts: the first post is taken
    and searched, the cleanup raises, and the run ends there without an
    update and without the closing summary. *)
Example public_server_run :
  let w := Scenario.world Scenario.ten_posts (Scenario.answer ["cat"] 4 100) [] [] in
  let run := main w None None (Scenario.query "tag-count:0")
                  (Scenario.start (Scenario.cfg true true false false)) in
  fst run = Ok tt
  /\ filter (fun e => negb (Trace.is_log e)) (trace (snd run))
     = [EGetPosts "tag-count:0" false 10;
        ENextPost (Scenario.post 0 [] []);
        ESearch true "http://booru/data/1.png" "None" (Scenario.answer ["cat"] 4 100);
        ECaught TypeError]
  /\ stats (snd run) = mkStats 1 0 0 0.
Proof. repeat split; vm_compute; reflexivity. Qed.

(** * Further properties *)

(** ** [str.split] as the script uses it *)

Lemma split_not_nil (sep : ascii) (s : string) : PyStr.split sep s <> [].
Proof.
  induction s as [| c s IH]; cbn [PyStr.split]; [discriminate |].
  destruct (Ascii.eqb c sep); [discriminate |].
  now destruct (PyStr.split sep s).
Qed.

(** Joining the pieces of [s.split(sep)] with the separator gives [s]
    back. *)
Lemma split_join (sep : ascii) (s : string) :
  String.concat (String sep EmptyString) (PyStr.split sep s) = s.
Proof.
  induction s as [| c s IH]; [reflexivity |].
  cbn [PyStr.split]. pose proof (split_not_nil sep s) as Hne.
  destruct (Ascii.eqb_spec c sep) as [-> | _].
  - destruct (PyStr.split sep s) as [| w ws]; [contradiction |].
    change (String.concat (String sep EmptyString) (EmptyString :: w :: ws))
      with (String sep (String.concat (String sep EmptyString) (w :: ws))).
    now rewrite IH.
  - destruct (PyStr.split sep s) as [| w ws]; [contradiction |].
    destruct ws as [| w' ws].
    + cbn [String.concat] in *. now rewrite IH.
    + change (String.concat (String sep EmptyString) (String c w :: w' :: ws))
        with (String c (String.concat (String sep EmptyString) (w :: w' :: ws))).
      now rewrite IH.
Qed.

(** No piece of [s.split(sep)] holds the separator. *)
Lemma split_pieces_lack_separator (sep : ascii) (s : string) :
  Forall (fun piece => PyStr.lacks sep piece = true) (PyStr.split sep s)
  /\ PyStr.split sep s <> []
  /\ PyStr.lacks sep (last (PyStr.split sep s) EmptyString) = true.
Proof.
  assert (H : Forall (fun piece => PyStr.lacks sep piece = true) (PyStr.split sep s)).
  { induction s as [| c s IH]; cbn [PyStr.split]; [repeat constructor |].
    destruct (Ascii.eqb c sep) eqn:Hc.
    - constructor; [reflexivity | exact IH].
    - destruct (PyStr.split sep s) as [| w ws]; [repeat constructor; cbn; now rewrite Hc |].
      inversion IH as [| ? ? Hw Hws]; subst. constructor; [| exact Hws].
      cbn [PyStr.lacks]. now rewrite Hc, Hw. }
  split; [exact H |]. split; [apply split_not_nil |].
  pose proof (split_not_nil sep s) as Hne. rewrite Forall_forall in H. apply H.
  destruct (PyStr.split sep s) as [| w ws]; [contradiction |].
  apply (@exists_last _ (w :: ws)) in Hne as (l' & a & E). rewrite E, last_last.
  apply in_or_app. right. now left.
Qed.

(** Pieces without the separator, joined and split again, come back
    unchanged. *)
Lemma join_split (sep : ascii) (pieces : list string) :
  pieces <> [] ->
  Forall (fun piece => PyStr.lacks sep piece = true) pieces ->
  PyStr.split sep (String.concat (String sep EmptyString) pieces) = pieces.
Proof.
  intros Hne H. induction H as [| p rest Hp Hrest IH]; [contradiction |]. clear Hne.
  assert (Hhead : forall tail, PyStr.split sep (p ++ String sep tail)%string
                               = p :: PyStr.split sep tail).
  { intros tail. induction p as [| c p IHp]; cbn [String.append PyStr.split].
    - now rewrite Ascii.eqb_refl.
    - cbn [PyStr.lacks] in Hp. apply andb_true_iff in Hp as [Hc Hp].
      apply negb_true_iff in Hc. rewrite Hc, (IHp Hp). reflexivity. }
  destruct rest as [| q rest].
  - cbn [String.concat]. clear IH Hhead.
    induction p as [| c p IHp]; [reflexivity |].
    cbn [PyStr.lacks] in Hp. apply andb_true_iff in Hp as [Hc Hp].
    apply negb_true_iff in Hc. cbn [PyStr.split]. rewrite Hc, (IHp Hp). reflexivity.
  - change (String.concat (String sep EmptyString) (p :: q :: rest))
      with (p ++ String sep (String.concat (String sep EmptyString) (q :: rest)))%string.
    rewrite Hhead, IH; [reflexivity | discriminate].
Qed.

Lemma concat_ends_with_last (sep : string) (pieces : list string) :
  pieces <> [] ->
  exists front, String.concat sep pieces = (front ++ last pieces EmptyString)%string.
Proof.
  induction pieces as [| p rest IH]; [contradiction |]. intros _.
  destruct rest as [| q rest].
  - now exists EmptyString.
  - destruct IH as (front & E); [discriminate |].
    exists (p ++ sep ++ front)%string.
    change (String.concat sep (p :: q :: rest))
      with (p ++ sep ++ String.concat sep (q :: rest))%string.
    change (last (p :: q :: rest) EmptyString) with (last (q :: rest) EmptyString).
    rewrite E. clear.
    induction p as [| c p IHp]; cbn [String.append].
    + induction sep as [| c sep IHs]; cbn [String.append]; [reflexivity | now rewrite IHs].
    + now rewrite IHp.
Qed.

(** ** [parse_args] *)

(** X1.  A non-empty [--add-tags] or [--remove-tags] value is cut at its
    commas without loss: the tags joined by commas give the value back,
    no tag holds a comma, and there is at least one tag. *)
Theorem split_tags_join (value : string) :
  PyStr.truthy value = true ->
  String.concat "," (split_tags (Some value)) = value
  /\ Forall (fun tag => PyStr.lacks ","%char tag = true) (split_tags (Some value))
  /\ split_tags (Some value) <> [].
Proof.
  intros H. unfold split_tags. rewrite H.
  split; [apply split_join |]. split; [apply split_pieces_lack_separator | apply split_not_nil].
Qed.

Lemma split_tags_join_witness :
  PyStr.truthy "1girl,solo" = true
  /\ String.concat "," (split_tags (Some "1girl,solo"%string)) = "1girl,solo"%string.
Proof.
  split; [reflexivity |].
  apply (split_tags_join "1girl,solo"). reflexivity.
Defined.

(** X2.  Tags without commas that are passed as one comma-separated
    value come out of [parse_args] as they went in, except for the single
    empty tag: an empty value stands for no tags at all. *)
Theorem split_tags_of_join (tags : list string) :
  tags <> [] ->
  tags <> [EmptyString] ->
  Forall (fun tag => PyStr.lacks ","%char tag = true) tags ->
  split_tags (Some (String.concat "," tags)) = tags.
Proof.
  intros Hne Hnot H. unfold split_tags.
  assert (Htruthy : PyStr.truthy (String.concat "," tags) = true).
  { destruct tags as [| p [| q rest]]; [contradiction | |].
    - cbn [String.concat]. destruct p; [contradiction | reflexivity].
    - change (String.concat "," (p :: q :: rest))
        with (p ++ String ","%char (String.concat "," (q :: rest)))%string.
      now destruct p. }
  rewrite Htruthy. now apply join_split.
Qed.

Lemma split_tags_of_join_witness :
  let tags := ["1girl"; "solo"; ""]%string in
  tags <> [] /\ tags <> [EmptyString]
  /\ split_tags (Some (String.concat "," tags)) = tags.
Proof.
  assert (Hne : ["1girl"; "solo"; ""]%string <> []) by discriminate.
  assert (Hnot : ["1girl"; "solo"; ""]%string <> [EmptyString]) by discriminate.
  split; [exact Hne |]. split; [exact Hnot |].
  apply (split_tags_of_join ["1girl"; "solo"; ""]%string Hne Hnot).
  repeat constructor.
Defined.

Example split_tags_empty_value :
  split_tags (Some EmptyString) = [] /\ split_tags None = []
  /\ split_tags (Some ","%string) = [EmptyString; EmptyString].
Proof. repeat split. Qed.

(** ** [download_media] *)

Lemma parts_lack_slash (s : string) :
  Forall (fun part => PyStr.lacks "/" part = true) (PyPath.parts s).
Proof.
  unfold PyPath.parts. destruct (split_pieces_lack_separator "/" s) as [H _].
  rewrite Forall_forall in *. intros x Hx. apply filter_In in Hx as [Hx _]. now apply H.
Qed.

Lemma parts_of_name (name : string) :
  PyStr.lacks "/" name = true -> PyPath.parts name <> [] -> PyPath.parts name = [name].
Proof.
  intros Hl Hne. unfold PyPath.parts in *.
  assert (E : PyStr.split "/" name = [name])
    by (apply (join_split "/" [name]); [discriminate | now constructor]).
  rewrite E in *. cbn [filter] in *. now destruct (PyPath.is_part name).
Qed.

Lemma leading_slashes_of_name (name : string) :
  PyStr.lacks "/" name = true -> PyPath.leading_slashes name = 0%nat.
Proof.
  destruct name as [| c name]; [reflexivity |]. cbn [PyStr.lacks PyPath.leading_slashes].
  now destruct (Ascii.eqb c "/").
Qed.

(** The last component of a path is its last part. *)
Lemma format_ends_with_name (dir : string) (front : list string) (name : string) :
  Forall (fun part => PyStr.lacks "/" part = true) front ->
  PyStr.lacks "/" name = true ->
  last (PyStr.split "/" (PyPath.format (PyPath.root dir) (front ++ [name]))) EmptyString
  = name.
Proof.
  intros Hfront Hname.
  assert (Hsplit : PyStr.split "/" (String.concat "/" (front ++ [name])) = front ++ [name]).
  { apply join_split; [now destruct front |].
    apply Forall_app. split; [exact Hfront | now constructor]. }
  assert (Hformat : forall r,
            PyPath.format r (front ++ [name]) = (r ++ String.concat "/" (front ++ [name]))%string).
  { intros r. unfold PyPath.format. destruct r; [| reflexivity].
    now destruct front. }
  rewrite Hformat.
  unfold PyPath.root.
  destruct (PyPath.leading_slashes dir) as [| [| [| n]]];
    cbn [String.append PyStr.split Ascii.eqb Bool.eqb]; rewrite Hsplit;
    repeat match goal with
           | |- context [last (EmptyString :: ?l) _] =>
               change (last (EmptyString :: l) EmptyString)
                 with (match l with [] => EmptyString | _ :: _ => last l EmptyString end)
           end;
    destruct (front ++ [name]) eqn:E; try (now destruct front);
    rewrite <- E; apply last_last.
Qed.

Section Download.

Variable w : World.

(** X3.  Without a path from the caller, and for a content URL that ends
    in a file name (its last segment is neither empty nor "."),
    [download_media] downloads to [Path(tmp_path) / name], where [name]
    is the end of the URL after its last "/"; the path it works on has
    [name] as its last component, whatever [tmp_path] looks like, and
    only download and shrink events are made. *)
Theorem download_media_file_name (tmp : option string) (from : string) (s : State) :
  PyStr.truthy_opt tmp = false ->
  PyPath.parts (last (PyStr.split "/"%char from) EmptyString) <> [] ->
  exists front name dest,
    from = (front ++ name)%string
    /\ PyStr.lacks "/"%char name = true
    /\ dest = path_join (tmp_path (config s)) name
    /\ last (PyStr.split "/"%char dest) EmptyString = name
    /\ fst (download_media w tmp from s) = Ok dest
    /\ exists rest,
        trace (snd (download_media w tmp from s))
        = trace s ++ EUrlRetrieve from dest :: rest
        /\ Trace.none (fun e => negb (Trace.is_download e)) rest.
Proof.
  intros H Hname.
  destruct (concat_ends_with_last "/" (PyStr.split "/"%char from) (split_not_nil _ _))
    as (front & E).
  rewrite split_join in E.
  destruct (split_pieces_lack_separator "/" from) as (_ & _ & Hlacks).
  set (name := last (PyStr.split "/"%char from) EmptyString) in *.
  exists front, name, (path_join (tmp_path (config s)) name).
  split; [exact E |]. split; [exact Hlacks |]. split; [reflexivity |].
  split.
  { unfold path_join, PyPath.join.
    rewrite (leading_slashes_of_name name Hlacks), (parts_of_name name Hlacks Hname).
    apply format_ends_with_name; [apply parts_lack_slash | exact Hlacks]. }
  unfold download_media. run_monad. rewrite H. run_monad. fold name.
  split_if; (split; [reflexivity |]); eexists; (split; [trace_eq |]); repeat constructor.
Qed.

End Download.

Lemma download_media_file_name_witness :
  let w := Scenario.world [] (Scenario.answer [] 4 100) [] [] in
  let s := mkState (mkConfig false "http://booru" true false false "model" (7 # 10) "tmp//cache/"
                             false)
                   Scenario.no_stats [] in
  let from := "http://booru/data/posts/12_ab.png"%string in
  exists front name dest,
    from = (front ++ name)%string
    /\ PyStr.lacks "/"%char name = true
    /\ dest = "tmp/cache/12_ab.png"%string
    /\ dest = path_join (tmp_path (config s)) name
    /\ last (PyStr.split "/"%char dest) EmptyString = name
    /\ fst (download_media w None from s) = Ok dest
    /\ exists rest,
        trace (snd (download_media w None from s))
        = trace s ++ EUrlRetrieve from dest :: rest
        /\ Trace.none (fun e => negb (Trace.is_download e)) rest.
Proof.
  intros w s from.
  destruct (download_media_file_name w None from s eq_refl ltac:(vm_compute; discriminate))
    as (front & name & dest & E & Hl & Hd & Hlast & Hok & Htrace).
  exists front, name, dest.
  assert (Hdest : dest = "tmp/cache/12_ab.png"%string).
  { assert (Hrun : fst (download_media w None from s) = Ok "tmp/cache/12_ab.png"%string)
      by (vm_compute; reflexivity).
    rewrite Hrun in Hok. now injection Hok as <-. }
  now repeat split.
Defined.

(** The join is the one of [pathlib]: a trailing slash and an empty
    directory leave no trace in the path, and a URL that ends in "/" names
    the directory itself. *)
Example download_media_names :
  let w := Scenario.world [] (Scenario.answer [] 4 100) [] [] in
  let s := Scenario.start (Scenario.cfg false true false false) in
  fst (download_media w None "http://booru/data/posts/12_ab.png" s) = Ok "tmp/12_ab.png"%string
  /\ fst (download_media w None "http://booru/data/" s) = Ok "tmp"%string
  /\ fst (download_media w (Some "upload/7.png"%string) "http://booru/data/7.png" s)
     = Ok "upload/7.png"%string
  /\ path_join "tmp/" "1.png" = "tmp/1.png"%string
  /\ path_join "" "1.png" = "1.png"%string
  /\ path_join "/var//tmp/./" "1.png" = "/var/tmp/1.png"%string
  /\ path_join "tmp" ".." = "tmp/.."%string.
Proof. repeat split. Qed.

(** ** The removal of the placeholder tags *)

Lemma remove_first_at (pre rest : list string) (x : string) :
  ~ In x pre -> PyList.remove_first x (pre ++ x :: rest) = pre ++ rest.
Proof.
  induction pre as [| y pre IH]; intros H; cbn [app PyList.remove_first].
  - now rewrite String.eqb_refl.
  - destruct (String.eqb_spec x y) as [-> | _]; [exfalso; apply H; now left |].
    rewrite IH; [reflexivity |]. intros Hin. apply H. now right.
Qed.

Lemma strip_placeholders_from_past_end (fuel i : nat) (l : list string) :
  (List.length l <= i)%nat -> strip_placeholders_from fuel i l = l.
Proof.
  intros H. destruct fuel; cbn [strip_placeholders_from]; [reflexivity |].
  assert (E : nth_error l i = None) by now apply nth_error_None.
  now rewrite E.
Qed.

Lemma strip_placeholders_from_closed (fuel : nat) :
  forall (pre rest : list string),
    NoDup (pre ++ rest) ->
    (List.length rest <= fuel)%nat ->
    strip_placeholders_from fuel (List.length pre) (pre ++ rest) = pre ++ strip_skipping rest.
Proof.
  induction fuel as [| fuel IH]; intros pre rest Hnd Hfuel.
  - destruct rest; [reflexivity | cbn in Hfuel; lia].
  - destruct rest as [| x rest].
    + cbn [strip_skipping]. rewrite app_nil_r. apply strip_placeholders_from_past_end. lia.
    + cbn [strip_placeholders_from].
      rewrite nth_error_app2, Nat.sub_diag by lia. cbn [nth_error strip_skipping].
      cbn [List.length] in Hfuel.
      assert (Hx : ~ In x pre).
      { intros Hin. apply NoDup_remove_2 in Hnd. apply Hnd, in_or_app. now left. }
      destruct (is_placeholder x).
      * rewrite (remove_first_at pre rest x Hx).
        apply NoDup_remove_1 in Hnd.
        destruct rest as [| y rest].
        -- rewrite app_nil_r. apply strip_placeholders_from_past_end. lia.
        -- replace (pre ++ y :: rest) with ((pre ++ [y]) ++ rest) in *
             by now rewrite <- app_assoc.
           replace (S (List.length pre)) with (List.length (pre ++ [y]))
             by (rewrite length_app; cbn; lia).
           rewrite IH; [now rewrite <- app_assoc | exact Hnd | cbn [List.length] in Hfuel; lia].
      * replace (pre ++ x :: rest) with ((pre ++ [x]) ++ rest) in *
          by now rewrite <- app_assoc.
        replace (S (List.length pre)) with (List.length (pre ++ [x]))
          by (rewrite length_app; cbn; lia).
        rewrite IH; [now rewrite <- app_assoc | exact Hnd | lia].
Qed.

(** X4.  On a tag list without duplicates, as the loop builds it, the
    removal of line 264 drops a placeholder and keeps whatever follows it
    unseen: it computes [strip_skipping]. *)
Theorem strip_placeholders_skips (l : list string) :
  NoDup l -> strip_placeholders l = strip_skipping l.
Proof.
  intros H. unfold strip_placeholders.
  exact (strip_placeholders_from_closed (List.length l) [] l H (Nat.le_refl _)).
Qed.

Lemma strip_placeholders_skips_witness :
  let l := ["deepbooru"; "tagme"; "cat"]%string in
  NoDup l /\ strip_placeholders l = strip_skipping l.
Proof.
  assert (H : NoDup ["deepbooru"; "tagme"; "cat"]%string).
  { repeat constructor; cbn; intuition discriminate. }
  split; [exact H |].
  exact (strip_placeholders_skips ["deepbooru"; "tagme"; "cat"]%string H).
Defined.

Lemma list_ind_pairs (P : list string -> Prop) :
  P [] -> (forall x, P [x]) ->
  (forall x y l, P l -> P (y :: l) -> P (x :: y :: l)) ->
  forall l, P l.
Proof.
  intros H0 H1 H2 l.
  assert (H : P l /\ forall x, P (x :: l)).
  { induction l as [| y l [IHl IHy]]; [now split |].
    split; [apply IHy |]. intros x. apply H2; [exact IHl | apply IHy]. }
  apply H.
Qed.

Lemma strip_skipping_filter (l : list string) :
  no_placeholder_pair l = true ->
  strip_skipping l = filter (fun t => negb (is_placeholder t)) l.
Proof.
  induction l as [| x | x y l IHl IHyl] using list_ind_pairs; intros H.
  - reflexivity.
  - cbn. now destruct (is_placeholder x).
  - change (no_placeholder_pair (x :: y :: l))
      with (negb (is_placeholder x && is_placeholder y) && no_placeholder_pair (y :: l)) in H.
    apply andb_true_iff in H as [Hxy Hyl]. specialize (IHyl Hyl).
    cbn [strip_skipping filter] in *.
    destruct (is_placeholder x); cbn [negb andb] in *.
    + destruct (is_placeholder y); [discriminate Hxy |]. cbn [negb] in IHyl.
      injection IHyl as IHyl. now rewrite IHyl.
    + now rewrite IHyl.
Qed.

Lemma strip_skipping_keeps_pair (l : list string) :
  no_placeholder_pair l = false ->
  exists t, In t (strip_skipping l) /\ is_placeholder t = true.
Proof.
  induction l as [| x | x y l IHl IHyl] using list_ind_pairs; intros H.
  - discriminate H.
  - discriminate H.
  - change (no_placeholder_pair (x :: y :: l))
      with (negb (is_placeholder x && is_placeholder y) && no_placeholder_pair (y :: l)) in H.
    cbn [strip_skipping] in *.
    destruct (is_placeholder x) eqn:Hx; cbn [negb andb] in H.
    + destruct (is_placeholder y) eqn:Hy; cbn [negb andb] in H.
      * exists y. split; [now left | exact Hy].
      * (* the pair lies further on; [y] is no placeholder *)
        assert (Hl : no_placeholder_pair l = false).
        { destruct l as [| z l]; [discriminate H |].
          change (no_placeholder_pair (y :: z :: l))
            with (negb (is_placeholder y && is_placeholder z) && no_placeholder_pair (z :: l)) in H.
          now rewrite Hy in H. }
        destruct (IHl Hl) as (t & Hin & Ht). exists t. split; [now right | exact Ht].
    + destruct (IHyl H) as (t & Hin & Ht). exists t. split; [now right | exact Ht].
Qed.

(** X5.  On a tag list without duplicates the update is free of the
    placeholders "deepbooru" and "tagme" exactly when no placeholder
    directly follows another one in the list; the removal then is the
    plain filter. *)
Theorem strip_placeholders_complete_iff (l : list string) :
  NoDup l ->
  ((forall t, In t (strip_placeholders l) -> is_placeholder t = false)
   <-> no_placeholder_pair l = true)
  /\ (no_placeholder_pair l = true ->
      strip_placeholders l = filter (fun t => negb (is_placeholder t)) l).
Proof.
  intros H. rewrite (strip_placeholders_skips l H). split; [split |].
  - intros Hall. destruct (no_placeholder_pair l) eqn:Hp; [reflexivity |].
    destruct (strip_skipping_keeps_pair l Hp) as (t & Hin & Ht).
    rewrite (Hall t Hin) in Ht. discriminate Ht.
  - intros Hp t. rewrite (strip_skipping_filter l Hp), filter_In.
    intros [_ Ht]. now apply negb_true_iff in Ht.
  - apply strip_skipping_filter.
Qed.

Lemma strip_placeholders_complete_iff_witness :
  let l := ["tagme"; "cat"; "deepbooru"]%string in
  NoDup l /\ no_placeholder_pair l = true /\ strip_placeholders l = ["cat"]%string.
Proof.
  assert (H : NoDup ["tagme"; "cat"; "deepbooru"]%string).
  { repeat constructor; cbn; intuition discriminate. }
  split; [exact H |]. split; [reflexivity |].
  destruct (strip_placeholders_complete_iff ["tagme"; "cat"; "deepbooru"]%string H) as [_ E].
  now rewrite E.
Defined.

(** ** The tags that are sent *)

Lemma is_placeholder_names (t : string) :
  is_placeholder t = true -> t = "deepbooru"%string \/ t = "tagme"%string.
Proof.
  unfold is_placeholder. intros H. apply orb_prop in H as [H | H];
    apply String.eqb_eq in H; [now left | now right].
Qed.

Lemma strip_skipping_kept_placeholder (l : list string) (t : string) :
  NoDup l -> In t (strip_skipping l) -> is_placeholder t = true ->
  exists u, In u l /\ is_placeholder u = true /\ u <> t.
Proof.
  induction l as [| x | x y l IHl IHyl] using list_ind_pairs; intros Hnd Hin Ht.
  - destruct Hin.
  - cbn [strip_skipping] in Hin. destruct (is_placeholder x) eqn:Hx; [destruct Hin |].
    destruct Hin as [-> | []]. congruence.
  - cbn [strip_skipping] in Hin. inversion Hnd as [| ? ? Hx Hyl]; subst.
    destruct (is_placeholder x) eqn:Hpx.
    + destruct Hin as [-> | Hin].
      * exists x. split; [now left |]. split; [exact Hpx |].
        intros ->. apply Hx. now left.
      * inversion Hyl as [| ? ? _ Hl]; subst.
        destruct (IHl Hl Hin Ht) as (u & Hu & Hpu & Hne).
        exists u. split; [now right; right | now split].
    + destruct Hin as [-> | Hin]; [congruence |].
      destruct (IHyl Hyl Hin Ht) as (u & Hu & Hpu & Hne).
      exists u. split; [now right | now split].
Qed.

Lemma strip_placeholders_from_NoDup (fuel : nat) :
  forall (i : nat) (l : list string),
    NoDup l -> NoDup (strip_placeholders_from fuel i l).
Proof.
  induction fuel as [| fuel IH]; intros i l H; cbn [strip_placeholders_from]; [exact H |].
  destruct (nth_error l i) as [tag |]; [| exact H].
  destruct (is_placeholder tag); apply IH; [| exact H].
  now apply remove_first_NoDup.
Qed.

(** The list that [patch_stage] sends, read as a set. *)
Lemma patched_post_set (remove_tags : list string) (p : Post) :
  NoDup (tags p) ->
  NoDup (tags (patched_post remove_tags p))
  /\ forall t, In t (tags (patched_post remove_tags p)) -> is_placeholder t = true ->
               forall u, is_placeholder u = true -> In u (tags p) /\ ~ In u remove_tags.
Proof.
  intros Hnd.
  set (kept := if PyList.truthy remove_tags
               then remove_user_tags remove_tags (tags p) else tags p).
  assert (Hkept : NoDup kept
                  /\ forall t, In t kept <-> In t (tags p) /\ ~ In t remove_tags).
  { subst kept. destruct remove_tags as [| x rest]; cbn [PyList.truthy PyList.is_nil negb].
    - split; [exact Hnd |]. intros t. cbn [In]. tauto.
    - exact (remove_user_tags_spec (x :: rest) (tags p) Hnd). }
  destruct Hkept as [Hkept_nd Hkept_in].
  assert (E : tags (patched_post remove_tags p) = strip_placeholders kept).
  { unfold patched_post. subst kept. now destruct (PyList.truthy remove_tags). }
  rewrite E. split; [now apply strip_placeholders_from_NoDup |].
  intros t Hin Ht u Hu.
  assert (Hskip : strip_placeholders kept = strip_skipping kept)
    by exact (strip_placeholders_from_closed (List.length kept) [] kept Hkept_nd
                (Nat.le_refl _)).
  assert (Ht_in : In t kept)
    by exact (strip_placeholders_subset (List.length kept) 0 t kept Hin).
  rewrite Hskip in Hin.
  destruct (strip_skipping_kept_placeholder kept t Hkept_nd Hin Ht) as (v & Hv & Hpv & Hne).
  apply Hkept_in.
  destruct (is_placeholder_names _ Ht) as [-> | ->],
           (is_placeholder_names _ Hpv) as [-> | ->],
           (is_placeholder_names _ Hu) as [-> | ->];
    first [assumption | contradiction].
Qed.

(** Finds the given event at the end of a trace assembled by the stages. *)
Ltac in_tail :=
  repeat first [left; reflexivity | apply in_or_app; right | right].

Section Pushed.

Variable w : World.

(** C1, as the code has it.  An iteration that gets as far as the update
    sends the post exactly when its last discovery step (the classifier
    when it ran, else the search) found a tag.  The tags that are sent,
    read as a set, are (tags of the post + discovered tags + add-tags) -
    remove-tags - {"deepbooru", "tagme"}, where the discovered tags are the
    sanitized tags of the search, the tags of the classifier and the
    names of the tags of the related posts; "deepbooru" or "tagme" can
    stay, but only when both are in the set before they are taken out.
    The set can be empty. *)
Theorem pushed_tags_are_the_merged_tags
      (db : bool) (tmp : option string) (add rem : list string) (post : Post) (s : State)
      (evs : list Event) :
  set_order_ok w ->
  trace (snd (process_post w db tmp add rem post s)) = trace s ++ evs ->
  let merged := tags post ++ Trace.discovered w evs ++ add in
  ((exists pushed, In (EUpdate pushed) evs)
   <-> Trace.last_discovery w [] evs <> []
       /\ reaches_update (fst (process_post w db tmp add rem post s)) = true)
  /\ forall pushed,
      In (EUpdate pushed) evs ->
      NoDup (tags pushed)
      /\ (forall t, In t (tags pushed) -> In t merged /\ ~ In t rem)
      /\ (forall t, In t merged -> ~ In t rem -> is_placeholder t = false ->
                    In t (tags pushed))
      /\ (forall t, In t (tags pushed) -> is_placeholder t = true ->
                    forall u, is_placeholder u = true -> In u merged /\ ~ In u rem).
Proof.
  intros Hw.
  process_post_paths w tmp post s.
  all: try destruct (update_fails w _ _).
  all: path_trace; intros E; apply app_inv_head in E; subst evs; cbv zeta.
  all: split; [split; [intros [pushed Hin] | intros [Hlast Hreach]] | intros pushed Hin].
  all: try (find_update Hin).
  all: try discriminate Hfound.
  all: try (cbn [fst reaches_update] in Hreach; discriminate Hreach).
  all: lazymatch goal with
       | |- _ <> [] /\ _ = true =>
           split; [discovery_tac; intros Hnil; rewrite Hnil in Hfound; discriminate Hfound
                  | reflexivity]
       | |- exists _, In _ _ =>
           first
             [ solve [eexists; in_tail]
             | exfalso; revert Hlast; discovery_tac; intros Hlast;
               match type of Hfound with
               | PyList.truthy ?found = false =>
                   apply Hlast; destruct found; [reflexivity | discriminate Hfound]
               end ]
       | |- _ => idtac
       end.
  all: discovered_tac.
  all: match goal with
       | |- context [patched_post ?r ?p] =>
           assert (Hnd : NoDup (tags p))
             by (rewrite ?Htags3; apply merge_tags_spec; exact Hw);
           destruct (patched_post_set r p Hnd) as [Hsent Hkept];
           split; [exact Hsent |];
           split; [| split]; intros t;
           destruct (patched_post_tags r p t Hnd) as [H1 H2];
           [ intros Ht; apply H1 in Ht; destruct Ht as [Ht Hno]; split; [| exact Hno]
           | intros Ht Hno Hpl; apply H2; [| exact Hno | exact Hpl]
           | intros Ht Hpt u Hu; destruct (Hkept t Ht Hpt u Hu) as [Hu_in Hu_no];
             split; [| exact Hu_no] ]
       end.
  all: rewrite ?Htags3 in *; unfold searched_post in *;
    cbn [tags set_tags set_safety set_source] in *;
    repeat first [rewrite (merge_tags_in w Hw) in * | rewrite in_app_iff in *];
    cbn [In] in *; tauto.
Qed.

End Pushed.

Lemma pushed_tags_witness :
  let w := Scenario.world [] (Scenario.answer ["cat"] 4 100) ["dog"] [mkTag "artist" "bob"] in
  let s := Scenario.start (Scenario.cfg false true true true) in
  let post := Scenario.post 1 ["old"; "tagme"] [2] in
  let run := process_post w true None ["extra"] ["old"] post s in
  let evs := trace (snd run) in
  let merged := tags post ++ Trace.discovered w evs ++ ["extra"] in
  let pushed :=
    mkPost 1 "http://booru/data/1.png" ["cat"; "extra"; "bob"; "dog"] "safe"
           ("https://example.org/art/1" ++ PyStr.nl ++ "Deepbooru")%string [2] in
  In (EUpdate pushed) evs
  /\ Trace.last_discovery w [] evs <> []
  /\ reaches_update (fst run) = true
  /\ NoDup (tags pushed)
  /\ (forall t, In t (tags pushed) -> In t merged /\ ~ In t ["old"])
  /\ (forall t, In t merged -> ~ In t ["old"] -> is_placeholder t = false ->
                In t (tags pushed)).
Proof.
  intros w s post run evs merged pushed.
  assert (Hin : In (EUpdate pushed) evs)
    by (vm_compute; repeat (try (left; reflexivity); right)).
  destruct (pushed_tags_are_the_merged_tags
              w true None ["extra"] ["old"] post s evs
              (scenario_set_order_ok _ _ _ _) eq_refl) as [Hwhen Hsent].
  destruct (proj1 Hwhen (ex_intro _ pushed Hin)) as [Hlast Hreach].
  destruct (Hsent pushed Hin) as (Hnd & Hsub & Hsup & _).
  exact (conj Hin (conj Hlast (conj Hreach (conj Hnd (conj Hsub Hsup))))).
Defined.

(** C1, as the spec has it, fails in five ways.  (1) A search finds
    "cat" and the user removes "cat": an update with no tag at all is
    sent.  (2) The classifier finds "dog" for a post related to a post
    tagged "bob": the update carries "bob", which neither the search nor
    the classifier found.  (3) The search finds "cat", the forced
    classifier finds nothing: no update is sent.  (4) The post carries
    "deepbooru" and "tagme" and the search finds "cat": "tagme" is sent.
    (5) On a public server without the classifier the search finds
    "cat", and the iteration fails before the update. *)
Lemma pushed_tags_not_as_specified :
  let found_cat := Scenario.world [] (Scenario.answer ["cat"] 4 100) [] [] in
  let found_dog := Scenario.world [] (Scenario.answer [] 4 100) ["dog"] [mkTag "artist" "bob"] in
  let sent w db add rem post c :=
    filter Trace.is_update (trace (snd (process_post w db None add rem post (Scenario.start c)))) in
  sent found_cat false [] ["cat"] (Scenario.post 1 [] []) (Scenario.cfg false true false false)
  = [EUpdate (set_source (Scenario.post 1 [] []) "https://example.org/art/1")]
  /\ sent found_dog true [] [] (Scenario.post 1 [] [2]) (Scenario.cfg false false true false)
     = [EUpdate (set_source (Scenario.post 1 ["bob"; "dog"] [2])
                            (PyStr.nl ++ "Deepbooru")%string)]
  /\ sent found_cat true [] [] (Scenario.post 1 [] []) (Scenario.cfg false true true true)
     = []
  /\ sent found_cat false [] [] (Scenario.post 1 ["deepbooru"; "tagme"] [])
          (Scenario.cfg false true false false)
     = [EUpdate (set_source (Scenario.post 1 ["tagme"; "cat"] []) "https://example.org/art/1")]
  /\ sent found_cat false [] [] (Scenario.post 1 [] []) (Scenario.cfg true true false false)
     = [].
Proof. repeat split; vm_compute; reflexivity. Qed.

(** ** The removal of the user's tags *)

Lemma remove_first_absent (x : string) (l : list string) :
  PyList.mem x l = false -> PyList.remove_first x l = l.
Proof.
  induction l as [| y l IH]; [reflexivity |].
  cbn [PyList.mem existsb PyList.remove_first]. intros H.
  apply orb_false_iff in H as [Hxy H]. rewrite Hxy, (IH H). reflexivity.
Qed.

Lemma count_occ_remove_first (x t : string) (l : list string) :
  count_occ string_dec (PyList.remove_first x l) t
  = if string_dec t x then Nat.pred (count_occ string_dec l t) else count_occ string_dec l t.
Proof.
  induction l as [| y l IH]; cbn [PyList.remove_first count_occ].
  - now destruct (string_dec t x).
  - destruct (String.eqb_spec x y) as [Exy | Hxy].
    + subst y. destruct (string_dec t x) as [Etx | Htx], (string_dec x t) as [Ext | Hxt];
        try congruence; reflexivity.
    + cbn [count_occ]. rewrite IH.
      destruct (string_dec t x) as [Etx | Htx], (string_dec y t) as [Eyt | Hyt];
        try congruence; reflexivity.
Qed.

(** X6.  [--remove-tags] takes away one occurrence for each time a tag
    is listed: a tag occurs in the result as often as in the post, less
    the number of times it is listed, and never less than zero times.  A
    listed tag that the post does not carry is no error. *)
Theorem remove_user_tags_count (remove_tags post_tags : list string) (t : string) :
  count_occ string_dec (remove_user_tags remove_tags post_tags) t
  = (count_occ string_dec post_tags t - count_occ string_dec remove_tags t)%nat.
Proof.
  unfold remove_user_tags. revert post_tags.
  induction remove_tags as [| x rest IH]; intros l; cbn [fold_left count_occ]; [lia |].
  assert (E : (if PyList.mem x l then PyList.remove_first x l else l) = PyList.remove_first x l).
  { destruct (PyList.mem x l) eqn:Hm; [reflexivity | now rewrite remove_first_absent]. }
  rewrite E, IH, count_occ_remove_first.
  destruct (string_dec t x) as [E' | Hne], (string_dec x t) as [E'' | Hne'];
    try congruence; lia.
Qed.

Example remove_user_tags_twice :
  remove_user_tags ["a"; "a"; "zz"]%string ["a"; "b"; "a"; "a"]%string = ["b"; "a"]%string.
Proof. reflexivity. Qed.

(** ** The source field after a classifier run, again *)

(** X7.  Whatever the source was, after the classifier branch it holds
    the marker "Deepbooru". *)
Theorem normalize_source_has_marker (src : string) :
  PyStr.contains "Deepbooru" (normalize_source src) = true.
Proof.
  unfold normalize_source.
  set (cleaned := if PyStr.contains "DeepBooru" src then _ else src).
  destruct (PyStr.contains "Deepbooru" cleaned) eqn:H; cbn [negb]; [exact H |].
  rewrite collect_sources_marker.
  - rewrite contains_before_break by reflexivity. apply orb_true_r.
  - intros E. rewrite E in H. discriminate H.
Qed.

(** ** [set_tags_from_relations] *)

Section Relations.

Variable w : World.

Lemma relations_loop_calls (rels : list Z) :
  forall (post : Post) (s : State),
  exists evs,
    trace (snd (relations_loop w rels post s)) = trace s ++ evs
    /\ fetched_ids evs = rels
    /\ List.length evs = List.length rels
    /\ config (snd (relations_loop w rels post s)) = config s
    /\ stats (snd (relations_loop w rels post s)) = stats s
    /\ exists p, fst (relations_loop w rels post s) = Ok p
                 /\ same_post p post
                 /\ safety p = safety post /\ source p = source post
                 /\ tags p = tags post ++ Trace.discovered w evs.
Proof.
  induction rels as [| rid rest IH]; intros post s; cbn [relations_loop].
  - exists []. cbn. rewrite !app_nil_r. repeat split. exists post. now repeat split.
  - unfold call_getPost. run_monad.
    set (answer := getPost w (trace s) rid).
    set (s1 := mkState _ _ _).
    destruct (IH (copy_relation_tags answer post) s1)
      as (evs & Et & Hids & Hlen & Hc & Hst & p & Ep & (Hid & Hurl & Hrel) & Hsafe & Hsrc & Htags).
    exists (EGetPost rid answer :: evs).
    rewrite Et, Hc, Hst. subst s1. cbn [trace config stats fetched_ids List.length].
    rewrite <- app_assoc, Hids, Hlen. repeat split.
    exists p. rewrite copy_relation_tags_all in *.
    cbn [Trace.discovered post_id content_url relations safety source tags set_tags] in *.
    unfold same_post. rewrite Htags, <- app_assoc. now repeat split.
Qed.

(** X8.  [set_tags_from_relations] asks the server once for each
    relation, in their order; it keeps the tags the post had at the
    front of the list, appends the names of all tags of the related
    posts, and leaves every other field of the post, the settings and
    the counters alone. *)
Theorem set_tags_from_relations_calls (post : Post) (s : State) :
  exists evs p,
    set_tags_from_relations w post s = (Ok p, mkState (config s) (stats s) (trace s ++ evs))
    /\ fetched_ids evs = relations post
    /\ List.length evs = List.length (relations post)
    /\ same_post p post
    /\ safety p = safety post /\ source p = source post
    /\ tags p = tags post ++ Trace.discovered w evs.
Proof.
  unfold set_tags_from_relations.
  destruct (relations_loop_calls (relations post) post s)
    as (evs & Et & Hids & Hlen & Hc & Hst & p & Ep & Hsame & Hsafe & Hsrc & Htags).
  exists evs, p.
  destruct (relations_loop w (relations post) post s) as [r s']. cbn [fst snd] in *.
  subst r. destruct s' as [c st tr]. cbn [config stats trace] in *. subst c st tr.
  split; [reflexivity | tauto].
Qed.

End Relations.

(** ** What an iteration never does *)

(** Looks for an event of the kind [f] in a trace assembled by the
    stages; the tail of the search is left to the caller. *)
Ltac in_pieces f H :=
  repeat match type of H with
         | In _ (search_tail _ _) => fail 1
         | In _ (_ ++ _) => apply in_app_or in H; destruct H as [H | H]
         | In _ (_ :: _) => destruct H as [H | H]
         | In _ [] => destruct H
         | In _ (if ?c then _ else _) => destruct c
         | _ = _ => discriminate H
         | In _ ?l =>
             let N := fresh "N" in
             assert (N : Trace.none f l) by none_tac;
             exfalso; exact (in_none_false f l _ N H eq_refl)
         end.

Lemma search_tail_sleep (r : SauceResult) (b : bool) (n : Z) :
  In (ESleep n) (search_tail r b) ->
  n = 35 /\ limit_short r = 0 /\ limit_long r <> 0.
Proof.
  unfold search_tail.
  destruct (limit_long r =? 0) eqn:Hl, (limit_short r =? 0) eqn:Hs, b;
    cbn [negb andb app In]; intros H;
    repeat match type of H with
           | _ \/ _ => destruct H as [H | H]
           | False => destruct H
           | _ = _ => first [discriminate H | injection H as <-]
           end.
  all: apply Z.eqb_neq in Hl; apply Z.eqb_eq in Hs; now repeat split.
Qed.

Section Sleep.

Variable w : World.

(** X9.  An iteration sleeps only for the short quota: every sleep lasts
    35 seconds and follows a search of the same iteration that answered
    with a short quota of 0 and a long quota that is not 0.  When both
    quotas are 0 there is no sleep. *)
Theorem sleep_only_for_short_quota
        (db : bool) (tmp : option string) (add rem : list string) (post : Post) (s : State)
        (evs : list Event) (n : Z) :
  trace (snd (process_post w db tmp add rem post s)) = trace s ++ evs ->
  In (ESleep n) evs ->
  n = 35
  /\ exists is_public from path r,
      In (ESearch is_public from path r) evs
      /\ limit_short r = 0 /\ limit_long r <> 0.
Proof.
  process_post_paths w tmp post s.
  all: try destruct (update_fails w _ _).
  all: path_trace; intros E Hin; apply app_inv_head in E; subst evs.
  all: pose proof Hin as Hin'; in_pieces is_sleep Hin'.
  all: apply search_tail_sleep in Hin' as (-> & Hs & Hl).
  all: split; [reflexivity |]; do 4 eexists; (split; [| split; [exact Hs | exact Hl]]).
  all: apply in_or_app; right; left; reflexivity.
Qed.

End Sleep.

Lemma sleep_only_for_short_quota_witness :
  let w := Scenario.world [Scenario.post 1 [] []] (Scenario.answer ["cat"] 0 5) [] [] in
  let s := Scenario.start (Scenario.cfg false true false false) in
  let evs := trace (snd (process_post w false None [] [] (Scenario.post 1 [] []) s)) in
  In (ESleep 35) evs
  /\ exists is_public from path r,
      In (ESearch is_public from path r) evs
      /\ limit_short r = 0 /\ limit_long r <> 0.
Proof.
  intros w s evs.
  assert (Hin : In (ESleep 35) evs) by (vm_compute; repeat (try (left; reflexivity); right)).
  split; [exact Hin |].
  apply (sleep_only_for_short_quota w false None [] [] (Scenario.post 1 [] []) s evs 35
                                    eq_refl Hin).
Defined.

Example no_sleep_when_both_quotas_are_used_up :
  let w := Scenario.world [Scenario.post 1 [] []] (Scenario.answer ["cat"] 0 0) [] [] in
  let s := Scenario.start (Scenario.cfg false true false false) in
  Trace.count is_sleep
    (trace (snd (process_post w false None [] [] (Scenario.post 1 [] []) s))) = 0%nat.
Proof. vm_compute. reflexivity. Qed.

(** ** The settings over the loop *)

Section Settings.

Variable w : World.

Lemma process_post_settings
      (db : bool) (tmp : option string) (add rem : list string) (post : Post) (s : State) :
  let s' := snd (process_post w db tmp add rem post s) in
  config s' = config s
  \/ (config s' = set_saucenao_enabled (config s) false
      /\ saucenao_enabled (config s) = true
      /\ deepbooru_enabled (config s) = true
      /\ exists evs is_public from path r,
          trace s' = trace s ++ evs
          /\ In (ESearch is_public from path r) evs /\ limit_long r = 0).
Proof.
  process_post_paths w tmp post s.
  all: try destruct (update_fails w _ _).
  all: tidy_state.
  all: try (left; unfold ret; cbn [fst snd add_events config]; congruence).
  all: destruct (limit_long answer =? 0) eqn:Hl;
    [| left; unfold ret; cbn [fst snd add_events config andb] in *; congruence].
  all: destruct (deepbooru_enabled (config s)) eqn:Hde;
    [| left; unfold ret; cbn [fst snd add_events config andb] in *; congruence].
  all: right; apply Z.eqb_eq in Hl.
  all: split; [unfold ret; cbn [fst snd add_events config andb] in *; congruence |].
  all: split; [assumption |]; split; [reflexivity |].
  all: path_trace; do 5 eexists; split; [reflexivity |].
  all: split; [apply in_or_app; right; left; reflexivity | exact Hl].
Qed.

(** X10.  The only setting the query loop ever changes is the search
    switch, which it turns off and never on again, and only when the
    classifier is enabled and a search of the loop has answered with a
    long quota of 0; every other setting is at the end of the loop,
    however it ends, what it was at the start. *)
Theorem loop_only_turns_search_off
        (db : bool) (tmp : option string) (add rem : list string) (total : Z)
        (posts : list Post) :
  forall (index : nat) (s : State),
    let s' := snd (run_posts w db tmp add rem total index posts s) in
    config s' = config s
    \/ (config s' = set_saucenao_enabled (config s) false
        /\ saucenao_enabled (config s) = true
        /\ deepbooru_enabled (config s) = true
        /\ exists evs is_public from path r,
            trace s' = trace s ++ evs
            /\ In (ESearch is_public from path r) evs /\ limit_long r = 0).
Proof.
  induction posts as [| post rest IH]; intros index s; [now left |].
  cbv zeta. rewrite run_posts_step.
  set (s0 := add_events s [ENextPost post]).
  pose proof (process_post_settings db tmp add rem post s0) as H1.
  destruct (process_post_extends w db tmp add rem post s0) as (evs1 & E1).
  destruct (process_post w db tmp add rem post s0) as [[limit_reached | e] s1];
    cbn [fst snd] in *.
  - assert (Hrest : exists s2 evs2,
               (if limit_reached && negb (deepbooru_enabled (config s1))
                then statistics 0 0 (total - Z.of_nat index - 1)
                else run_posts w db tmp add rem total (S index) rest) s1 = s2
               /\ trace (snd s2) = trace s1 ++ evs2
               /\ (config (snd s2) = config s1
                   \/ (config (snd s2) = set_saucenao_enabled (config s1) false
                       /\ saucenao_enabled (config s1) = true
                       /\ deepbooru_enabled (config s1) = true
                       /\ exists evs is_public from path r,
                           trace (snd s2) = trace s1 ++ evs
                           /\ In (ESearch is_public from path r) evs /\ limit_long r = 0))).
    { destruct (limit_reached && negb (deepbooru_enabled (config s1))).
      - do 2 eexists; split; [reflexivity |]. split; [| now left].
        cbn. instantiate (1 := []). now rewrite app_nil_r.
      - destruct (run_posts_extends w db tmp add rem total rest (S index) s1) as (evs2 & E2).
        do 2 eexists; split; [reflexivity |]. split; [exact E2 | apply IH]. }
    destruct Hrest as (s2 & evs2 & -> & E2 & H2).
    subst s0. cbn [add_events config trace] in *.
    destruct H1 as [H1 | (H1 & Hon & Hde & evs & p & f & pa & r & Et & Hin & Hl)].
    + rewrite H1 in H2. destruct H2 as [H2 | (H2 & Hon & Hde & evs & p & f & pa & r & Et & Hin & Hl)].
      * now left.
      * right. repeat (split; [assumption |]).
        exists (ENextPost post :: evs1 ++ evs), p, f, pa, r.
        rewrite Et, E1, <- !app_assoc. split; [reflexivity |]. split; [| exact Hl].
        right. apply in_or_app. now right.
    + destruct H2 as [H2 | (_ & Hon2 & _)].
      * right. rewrite H2. repeat (split; [assumption |]).
        exists (ENextPost post :: evs ++ evs2), p, f, pa, r.
        rewrite E2, Et, <- !app_assoc. split; [reflexivity |]. split; [| exact Hl].
        right. apply in_or_app. now left.
      * rewrite H1 in Hon2. discriminate Hon2.
  - subst s0. cbn [add_events config trace] in *.
    destruct H1 as [H1 | (H1 & Hon & Hde & evs & p & f & pa & r & Et & Hin & Hl)].
    + now left.
    + right. repeat (split; [assumption |]).
      exists (ENextPost post :: evs), p, f, pa, r.
      rewrite Et, <- !app_assoc. split; [reflexivity |]. split; [| exact Hl].
      now right.
Qed.

End Settings.

(** ** The counters *)

Section Counters.

Variable w : World.

Hypothesis sanitize_keeps_some :
  forall l, PyList.truthy (sanitize_tags w l) = PyList.truthy l.



End Counters.


Example post_counted_twice_when_sanitizing_empties :
  let w := mkWorld (fun _ _ _ => (1, [Scenario.post 1 [] []]))
                   (fun _ _ _ _ => Scenario.answer ["cat"] 4 100)
                   (fun _ _ _ => ([], "safe"))
                   (fun _ _ => [])
                   (fun _ _ => ([], "safe"))
                   (fun _ _ => false)
                   (fun _ _ => 100)
                   (fun _ _ => true)
                   (fun _ => [])
                   PyList.dedup in
  let s := Scenario.start (Scenario.cfg false true false false) in
  let run := run_posts w false None [] [] 1 0 [Scenario.post 1 [] []] s in
  fst run = Ok tt /\ stats (snd run) = mkStats 1 0 1 0.
Proof. split; vm_compute; reflexivity. Qed.


(** ** The post that is sent *)

Section SentPost.

Variable w : World.

Lemma classify_stage_post (db : bool) (add : list string) (tf : option string)
      (found : list string) (post : Post) (s : State)
      (found' : list string) (post' : Post) (s' : State) :
  classify_stage w db add tf found post s = (Ok (found', post'), s') ->
  same_post post' post
  /\ (if classifier_runs (config s) found
      then safety post' = snd (tag_image w (trace s) tf (deepbooru_threshold (config s)))
           /\ source post' = normalize_source (source post)
      else safety post' = safety post /\ source post' = source post).
Proof.
  unfold classifier_runs, classify_stage. run_monad.
  destruct ((negb (PyList.truthy found) && deepbooru_enabled (config s))
            || deepbooru_forced (config s)).
  - unfold call_tag_image. destruct db; run_monad; [| discriminate].
    destruct (tag_image w (trace s) tf (deepbooru_threshold (config s))) as [fnd rating].
    run_monad.
    set (s1 := mkState _ _ _).
    assert (exists evs,
               (if PyList.truthy (relations (set_safety post rating))
                then set_tags_from_relations w (set_safety post rating)
                else fun s0 => (Ok (set_safety post rating), s0)) s1
               = (Ok (set_tags (set_safety post rating)
                               (tags post ++ Trace.discovered w evs)),
                  add_events s1 evs)) as (evs & E).
    { destruct (PyList.truthy (relations (set_safety post rating))).
      - destruct (relations_loop_spec w (relations (set_safety post rating))
                                      (set_safety post rating) s1) as (evs & E & _).
        exists evs. exact E.
      - exists []. simpl. rewrite app_nil_r, add_events_nil. now destruct post. }
    rewrite E.
    destruct (PyList.truthy fnd); run_monad; intros H; injection H as <- <- <-;
      unfold same_post; cbn; repeat split.
  - destruct (PyList.truthy found); run_monad; intros H; injection H as <- <- <-;
      unfold same_post; repeat split.
Qed.

Lemma rating_after_app (seen : string) (a b : list Event) :
  rating_after seen (a ++ b) = rating_after (rating_after seen a) b.
Proof.
  revert seen; induction a as [| e a IH]; intros seen; [reflexivity |].
  destruct e; cbn [app rating_after]; apply IH.
Qed.

Lemma rating_after_quiet (seen : string) (l : list Event) :
  Trace.none Trace.is_search l ->
  Trace.none Trace.is_classify l ->
  rating_after seen l = seen.
Proof.
  intros Hs Hc. induction l as [| e l IH]; [reflexivity |].
  inversion Hs; inversion Hc; subst.
  destruct e; cbn [rating_after]; try (now apply IH); discriminate.
Qed.

Lemma source_after_app (seen : string) (a b : list Event) :
  source_after seen (a ++ b) = source_after (source_after seen a) b.
Proof.
  revert seen; induction a as [| e a IH]; intros seen; [reflexivity |].
  destruct e; cbn [app source_after]; apply IH.
Qed.

Lemma source_after_quiet (seen : string) (l : list Event) :
  Trace.none Trace.is_search l ->
  Trace.none Trace.is_classify l ->
  source_after seen l = seen.
Proof.
  intros Hs Hc. induction l as [| e l IH]; [reflexivity |].
  inversion Hs; inversion Hc; subst.
  destruct e; cbn [source_after]; try (now apply IH); discriminate.
Qed.

Lemma patched_post_same (rem : list string) (p : Post) :
  same_post (patched_post rem p) p
  /\ safety (patched_post rem p) = safety p
  /\ source (patched_post rem p) = source p.
Proof.
  unfold patched_post, same_post. destruct (PyList.truthy rem); cbn; repeat split.
Qed.

End SentPost.

(** The paths of one iteration, with what the classifier step does to
    the identity, the rating and the source of the post. *)
Ltac classify_run_path_post w add tf found p st Hr :=
  let post3 := fresh "post3" in
  let s3 := fresh "s3" in
  let evs_c := fresh "related" in
  let Ec := fresh "Eclassify" in
  let Hc := fresh "Hconfig3" in
  let Htr := fresh "Htrace3" in
  let Fg := fresh "Frelated" in
  let Htg := fresh "Htags3" in
  let Ht := fresh "Htagged3" in
  let Hd := fresh "Hdeepbooru3" in
  let Hu := fresh "Huntagged3" in
  let Hp := fresh "Hpost3" in
  destruct (classify_stage_run w add tf found p st Hr)
    as (post3 & s3 & evs_c & Ec & Hc & Htr & Fg & Htg & Ht & Hd & Hu);
  pose proof (classify_stage_post w true add tf found p st _ _ _ Ec) as Hp;
  rewrite Hr in Hp;
  rewrite (bind_ok _ _ _ _ _ Ec); clear Ec;
  set (classified := tag_image w _ _ _) in *.

Ltac classify_paths_post w :=
  match goal with
  | |- context [bind (classify_stage w ?db ?add ?tf ?found ?p) _ ?st] =>
      let Hr := fresh "Hruns" in
      destruct (classifier_runs (config st) found) eqn:Hr;
      [ destruct db;
        [ classify_run_path_post w add tf found p st Hr
        | rewrite (bind_raise _ _ _ _ _ (classify_stage_unbound w add tf found p st Hr)) ]
      | let s3 := fresh "s3" in
        let Ec := fresh "Eclassify" in
        let Hc := fresh "Hconfig3" in
        let Htr := fresh "Htrace3" in
        let Ht := fresh "Htagged3" in
        let Hd := fresh "Hdeepbooru3" in
        let Hu := fresh "Huntagged3" in
        destruct (classify_stage_skip w db add tf found p st Hr)
          as (s3 & Ec & Hc & Htr & Ht & Hd & Hu);
        rewrite (bind_ok _ _ _ _ _ Ec); clear Ec ]
  end; cbv beta iota.

Ltac process_post_paths_post w tmp post s :=
  unfold process_post;
  let tf := fresh "tmp_file" in
  let evs_f := fresh "fetched" in
  let Ef := fresh "Efetch" in
  let Ff := fresh "Ffetch" in
  let Hf := fresh "Hfetch" in
  destruct (fetch_media_spec w tmp post s) as (tf & evs_f & Ef & Ff & Hf);
  rewrite (bind_ok _ _ _ _ _ Ef); clear Ef;
  search_paths w; classify_paths_post w; try (cleanup_paths w; try patch_paths w).

Ltac after_tac :=
  repeat first
    [ rewrite rating_after_app
    | rewrite source_after_app
    | progress cbn [rating_after source_after]
    | match goal with
      | |- context [rating_after ?seen ?l] =>
          rewrite (rating_after_quiet seen l) by none_tac
      | |- context [source_after ?seen ?l] =>
          rewrite (source_after_quiet seen l) by none_tac
      end ].

(** X12.  An update of the query loop is for the post the iteration
    took: the post sent has the id, the content URL and the relations
    of that post.  Its rating is the one the last discovery step of the
    iteration gave, and its source is the source of the post after the
    discovery steps: a search puts the sources it found before the ones
    the post had, the classifier adds its marker. *)
Theorem update_is_for_the_post_taken
        (w : World) (db : bool) (tmp : option string) (add rem : list string)
        (post : Post) (s : State) (evs : list Event) (pushed : Post) :
  trace (snd (process_post w db tmp add rem post s)) = trace s ++ evs ->
  In (EUpdate pushed) evs ->
  same_post pushed post
  /\ safety pushed = rating_after (safety post) evs
  /\ source pushed = source_after (source post) evs.
Proof.
  process_post_paths_post w tmp post s.
  all: try destruct (update_fails w _ _).
  all: path_trace; intros E Hin; apply app_inv_head in E; subst evs.
  all: find_update Hin.
  all: try discriminate Hfound.
  all: after_tac.
  all: match goal with
       | |- context [patched_post ?r ?p] =>
           destruct (patched_post_same r p) as ((Hid & Hurl & Hrel) & Hsafety & Hsource)
       end.
  all: try destruct Hpost3 as ((Hid3 & Hurl3 & Hrel3) & Hsafety3 & Hsource3).
  all: unfold same_post, searched_post in *;
    cbn [post_id content_url relations safety source set_tags set_safety set_source] in *.
  all: repeat split; congruence.
Qed.

Lemma update_is_for_the_post_taken_witness :
  let w := Scenario.world [] (Scenario.answer ["cat"] 4 100) ["dog"] [] in
  let s := Scenario.start (Scenario.cfg false true true true) in
  let post := Scenario.post 7 ["old"] [] in
  let evs := trace (snd (process_post w true None [] [] post s)) in
  exists pushed,
    In (EUpdate pushed) evs
    /\ same_post pushed post
    /\ safety pushed = rating_after (safety post) evs
    /\ source pushed = source_after (source post) evs.
Proof.
  intros w s post evs.
  exists (mkPost 7 "http://booru/data/1.png" ["old"; "cat"; "dog"] "safe"
                 ("https://example.org/art/1" ++ PyStr.nl ++ "Deepbooru")%string []).
  assert (Hin : In (EUpdate (mkPost 7 "http://booru/data/1.png" ["old"; "cat"; "dog"] "safe"
                                    ("https://example.org/art/1" ++ PyStr.nl ++ "Deepbooru")%string
                                    [])) evs)
    by (vm_compute; repeat (try (left; reflexivity); right)).
  split; [exact Hin |].
  exact (update_is_for_the_post_taken w true None [] [] post s evs _ eq_refl Hin).
Defined.

(** A line separator (U+2028) in the source of the search splits it
    as a line feed does. *)
Example search_source_with_line_separator :
  let r := mkSauce ["cat"] ("https://a.example/1" ++ PyStr.LS ++ "https://b.example/2")
                   "safe" 4 100 in
  source_after "https://a.example/1" [ESearch false "u" "f" r]
  = ("https://a.example/1" ++ PyStr.nl ++ "https://b.example/2")%string.
Proof. reflexivity. Qed.

(** ** [--sankaku_url] with a post id *)

Lemma lacks_contains (c : ascii) (sub s : string) :
  PyStr.lacks c s = true -> PyStr.contains (String c sub) s = false.
Proof.
  induction s as [| a s IH]; intros H; [reflexivity |].
  cbn [PyStr.lacks] in H. apply andb_prop in H as [Ha Hs].
  cbn [PyStr.contains String.prefix].
  destruct (ascii_dec c a) as [-> | _]; [now rewrite Ascii.eqb_refl in Ha |].
  now apply IH.
Qed.

(** An ASCII character that is not numeric occurs in no numeric string:
    in UTF-8 a byte below 128 is always a character of its own. *)
Lemma numeric_lacks (c : ascii) (s : string) :
  (N_of_ascii c < 128)%N ->
  PyStr.numeric_code_point (N_of_ascii c) = false ->
  forall (pending : nat) (acc least : N) (l : list N),
    PyStr.code_points_from pending acc least s = Some l ->
    forallb PyStr.numeric_code_point l = true ->
    PyStr.lacks c s = true.
Proof.
  intros Hc Hnum. induction s as [| a s IH]; intros pending acc least l E Hl; [reflexivity |].
  cbn [PyStr.lacks]. cbn [PyStr.code_points_from] in E.
  assert (Hsame : Ascii.eqb a c = true -> N_of_ascii a = N_of_ascii c)
    by (intros H; apply Ascii.eqb_eq in H; now subst).
  destruct pending as [| k].
  - destruct (N.ltb_spec (N_of_ascii a) 128) as [Hlow | Hhigh].
    + destruct (PyStr.code_points_from 0 0 0 s) as [l' |] eqn:E'; [| discriminate E].
      cbn [option_map] in E. injection E as <-. cbn [forallb] in Hl.
      apply andb_prop in Hl as [Ha Hl'].
      destruct (Ascii.eqb a c) eqn:Hac.
      * rewrite (Hsame eq_refl) in Ha. congruence.
      * exact (IH _ _ _ _ E' Hl').
    + destruct (Ascii.eqb a c) eqn:Hac; [specialize (Hsame eq_refl); lia |].
      cbn [negb andb].
      repeat match type of E with
             | (if ?b then _ else _) = _ => destruct b
             end; try discriminate E; exact (IH _ _ _ _ E Hl).
  - destruct ((128 <=? N_of_ascii a)%N && (N_of_ascii a <? 192)%N) eqn:Hcont;
      [| discriminate E].
    apply andb_prop in Hcont as [Hge _]. apply N.leb_le in Hge.
    destruct (Ascii.eqb a c) eqn:Hac; [specialize (Hsame eq_refl); lia |].
    cbn [negb andb]. destruct k as [| k].
    + match type of E with (if ?b then _ else _) = _ => destruct b end; [| discriminate E].
      destruct (PyStr.code_points_from 0 0 0 s) as [l' |] eqn:E'; [| discriminate E].
      cbn [option_map] in E. injection E as <-. cbn [forallb] in Hl.
      apply andb_prop in Hl as [_ Hl']. exact (IH _ _ _ _ E' Hl').
    + exact (IH _ _ _ _ E Hl).
Qed.

Lemma isnumeric_plain (q : string) :
  PyStr.isnumeric q = true ->
  PyStr.contains "type:" q = false /\ PyStr.contains "'" q = false.
Proof.
  unfold PyStr.isnumeric, PyStr.code_points. intros H.
  destruct (PyStr.code_points_from 0 0 0 q) as [[| cp rest] |] eqn:E; try discriminate H.
  split; apply lacks_contains;
    refine (numeric_lacks _ q _ _ 0%nat 0%N 0%N (cp :: rest) E H);
    (reflexivity || (vm_compute; reflexivity)).
Qed.

(** X13.  Started from the command line with [--sankaku_url] and a
    numeric query, with a tagger enabled, the run always returns
    normally, also when the update fails or the server yields no post.
    It takes at most one post and sends at most one update; it
    downloads, searches, classifies and removes nothing and changes no
    setting.  The post sent is the post taken with its tags and rating
    replaced by the scraped ones and the URL as its source.  A post
    taken is counted once; when the server yields none, the
    [StopIteration] is caught and no summary is logged. *)
Theorem sankaku_url_with_numeric_query
        (w : World) (tmp : option string) (args : CliArgs) (s : State) :
  PyStr.truthy_opt (arg_sankaku_url args) = true ->
  PyStr.isnumeric (arg_query args) = true ->
  saucenao_enabled (config s) || deepbooru_enabled (config s) = true ->
  let run := main w None tmp args s in
  exists evs,
    trace (snd run) = trace s ++ evs
    /\ fst run = Ok tt
    /\ config (snd run) = config s
    /\ Trace.none is_loop_work evs
    /\ (Trace.count Trace.is_next_post evs <= 1)%nat
    /\ (Trace.count Trace.is_update evs <= 1)%nat
    /\ (forall pushed, In (EUpdate pushed) evs ->
        exists post h,
          In (ENextPost post) evs
          /\ same_post pushed post
          /\ source pushed = PyStr.str_opt (arg_sankaku_url args)
          /\ tags pushed = fst (scrape_sankaku w h (PyStr.str_opt (arg_sankaku_url args)))
          /\ safety pushed = snd (scrape_sankaku w h (PyStr.str_opt (arg_sankaku_url args))))
    /\ counted (stats (snd run))
       = counted (stats s) + Z.of_nat (Trace.count Trace.is_next_post evs)
    /\ (Trace.count Trace.is_next_post evs = 0%nat ->
        In (ECaught StopIteration) evs /\ Trace.none Trace.is_summary evs).
Proof.
  intros Hurl Hquery Hon. destruct (isnumeric_plain _ Hquery) as [Htype Hquote].
  unfold main, main_body. cbn [PyStr.truthy_opt]. run_monad.
  replace (negb (saucenao_enabled (config s)) && negb (deepbooru_enabled (config s)))
    with false by (now rewrite <- negb_orb, Hon).
  run_monad. unfold parse_args. run_monad. rewrite Htype. run_monad. rewrite Hquote.
  run_monad.
  match goal with
  | |- context [get_posts w ?h ?q ?f] => destruct (get_posts w h q f) as [total posts]
  end.
  run_monad. rewrite Hurl. unfold tag_from_sankaku. rewrite Hquery.
  destruct posts as [| post rest]; run_monad.
  - rewrite <- !app_assoc; cbn [app]. eexists; split; [reflexivity |].
    repeat match goal with |- _ /\ _ => split end;
      try reflexivity; try (solve [repeat constructor]); try (cbn; lia).
    intros pushed Hin. find_update Hin.
  - unfold call_scrape_sankaku. run_monad.
    match goal with
    | |- context [scrape_sankaku w ?h ?u] =>
        set (h0 := h); destruct (scrape_sankaku w h0 u) as [scraped rating] eqn:Escrape
    end.
    unfold try_except, call_update_post. run_monad.
    match goal with
    | |- context [update_fails w ?h ?p] => destruct (update_fails w h p)
    end; run_monad; subst h0; rewrite <- !app_assoc in *; cbn [app] in *.
    all: eexists; split; [reflexivity |].
    all: repeat match goal with |- _ /\ _ => split end;
      try reflexivity; try (solve [repeat constructor]); try (cbn; lia).
    all: try (intros Hc; cbn in Hc; discriminate Hc).
    all: try (unfold counted; cbn; lia).
    all: intros pushed Hin; find_update Hin.
    all: eexists post, _; split; [do 4 right; now left |].
    all: unfold same_post; cbn [post_id content_url relations source tags safety set_tags
                                set_safety set_source].
    all: rewrite Escrape; repeat split.
Qed.

Lemma sankaku_url_with_numeric_query_witness :
  let w := Scenario.world Scenario.ten_posts (Scenario.answer ["cat"] 4 100) [] [] in
  let args := mkArgs (Some "https://chan.sankakucomplex.com/post/show/1") "3" None None in
  let s := Scenario.start (Scenario.cfg false true false false) in
  let run := main w None None args s in
  exists evs,
    trace (snd run) = trace s ++ evs
    /\ fst run = Ok tt
    /\ config (snd run) = config s
    /\ Trace.none is_loop_work evs
    /\ (Trace.count Trace.is_next_post evs <= 1)%nat
    /\ (Trace.count Trace.is_update evs <= 1)%nat
    /\ (forall pushed, In (EUpdate pushed) evs ->
        exists post h,
          In (ENextPost post) evs
          /\ same_post pushed post
          /\ source pushed = PyStr.str_opt (arg_sankaku_url args)
          /\ tags pushed = fst (scrape_sankaku w h (PyStr.str_opt (arg_sankaku_url args)))
          /\ safety pushed = snd (scrape_sankaku w h (PyStr.str_opt (arg_sankaku_url args))))
    /\ counted (stats (snd run))
       = counted (stats s) + Z.of_nat (Trace.count Trace.is_next_post evs)
    /\ (Trace.count Trace.is_next_post evs = 0%nat ->
        In (ECaught StopIteration) evs /\ Trace.none Trace.is_summary evs).
Proof.
  apply (sankaku_url_with_numeric_query
           (Scenario.world Scenario.ten_posts (Scenario.answer ["cat"] 4 100) [] [])
           None
           (mkArgs (Some "https://chan.sankakucomplex.com/post/show/1") "3" None None)
           (Scenario.start (Scenario.cfg false true false false)));
    reflexivity.
Defined.

Example sankaku_update_fails :
  let w := mkWorld (fun _ _ _ => (1, [Scenario.post 3 ["old"] []]))
                   (fun _ _ _ _ => Scenario.answer [] 4 100)
                   (fun _ _ _ => ([], "safe"))
                   (fun _ _ => [])
                   (fun _ _ => (["scraped"], "sketchy"))
                   (fun _ _ => true)
                   (fun _ _ => 100)
                   (fun _ _ => true)
                   (fun l => l)
                   PyList.dedup in
  let args := mkArgs (Some "https://chan.sankakucomplex.com/post/show/1") "3" None None in
  let run := main w None None args (Scenario.start (Scenario.cfg false true false false)) in
  fst run = Ok tt
  /\ stats (snd run) = mkStats 0 0 1 0
  /\ In (EUpdate (mkPost 3 "http://booru/data/1.png" ["scraped"] "sketchy"
                         "https://chan.sankakucomplex.com/post/show/1" []))
        (trace (snd run))
  /\ In (ELog MsgSankakuFailed) (trace (snd run)).
Proof.
  repeat split; vm_compute; try reflexivity; repeat (try (left; reflexivity); right).
Qed.

(** X14.  With [--sankaku_url] the options [--add-tags] and
    [--remove-tags] and the media path of the caller have no effect:
    the result of the run, its counters, its settings and everything it
    does and logs above debug level are the same without them. *)
Theorem sankaku_url_ignores_tag_options
        (w : World) (tmp : option string) (args : CliArgs) (s : State) :
  PyStr.truthy_opt (arg_sankaku_url args) = true ->
  main w None tmp args s
  = main w None None (mkArgs (arg_sankaku_url args) (arg_query args) None None) s.
Proof.
  intros Hurl. unfold main, main_body. cbn [PyStr.truthy_opt]. run_monad.
  destruct (negb (saucenao_enabled (config s)) && negb (deepbooru_enabled (config s)));
    run_monad; [reflexivity |].
  unfold parse_args. cbn [arg_sankaku_url arg_query arg_add_tags arg_remove_tags]. run_monad.
  destruct (PyStr.contains "type:" (arg_query args)); run_monad; [reflexivity |].
  destruct (PyStr.contains "'" (arg_query args)); run_monad;
    match goal with
    | |- context [get_posts w ?h ?q ?f] => destruct (get_posts w h q f) as [total posts]
    end;
    run_monad; rewrite Hurl; reflexivity.
Qed.

Lemma sankaku_url_ignores_tag_options_witness :
  let w := Scenario.world Scenario.ten_posts (Scenario.answer ["cat"] 4 100) [] [] in
  let s := Scenario.start (Scenario.cfg false true false false) in
  main w None (Some "tmp/upload.png")
       (mkArgs (Some "https://chan.sankakucomplex.com/post/show/1") "3"
               (Some "added") (Some "removed")) s
  = main w None None
         (mkArgs (Some "https://chan.sankakucomplex.com/post/show/1") "3" None None) s.
Proof.
  intros w s.
  exact (sankaku_url_ignores_tag_options w (Some "tmp/upload.png")
           (mkArgs (Some "https://chan.sankakucomplex.com/post/show/1") "3"
                   (Some "added") (Some "removed")) s eq_refl).
Defined.

(** ** How a run ends *)

Section Endings.

Variable w : World.

Lemma process_post_no_exit
      (db : bool) (tmp : option string) (add rem : list string) (post : Post) (s : State) :
  fst (process_post w db tmp add rem post s) <> Raise SystemExit.
Proof.
  process_post_paths w tmp post s.
  all: try destruct (update_fails w _ _).
  all: unfold ret; cbn [fst]; discriminate.
Qed.

Lemma run_posts_no_exit
      (db : bool) (tmp : option string) (add rem : list string) (total : Z)
      (posts : list Post) :
  forall (index : nat) (s : State),
    fst (run_posts w db tmp add rem total index posts s) <> Raise SystemExit.
Proof.
  induction posts as [| post rest IH]; intros index s; [discriminate |].
  rewrite run_posts_step.
  pose proof (process_post_no_exit db tmp add rem post (add_events s [ENextPost post])) as H.
  destruct (process_post w db tmp add rem post (add_events s [ENextPost post]))
    as [[limit_reached | e] s1]; cbn [fst] in *.
  - destruct (limit_reached && negb (deepbooru_enabled (config s1))); [discriminate | apply IH].
  - intros E. apply H. injection E as ->. reflexivity.
Qed.

Lemma tag_from_sankaku_no_exit (sankaku_url query : string) (posts : list Post) (s : State) :
  fst (tag_from_sankaku w sankaku_url query posts s) <> Raise SystemExit.
Proof.
  unfold tag_from_sankaku. destruct (PyStr.isnumeric query); [| discriminate].
  destruct posts as [| post rest]; [discriminate |].
  unfold call_scrape_sankaku, try_except, call_update_post. run_monad.
  match goal with
  | |- context [scrape_sankaku w ?h ?u] => destruct (scrape_sankaku w h u) as [scraped rating]
  end.
  run_monad.
  match goal with
  | |- context [update_fails w ?h ?p] => destruct (update_fails w h p)
  end; discriminate.
Qed.

(** X15.  [main] ends in one of two ways.  It exits at start-up,
    exactly when both taggers are disabled or, started from the command
    line, the query holds "type:"; up to then it has only written to the
    log and counted nothing.  In every other case it returns normally:
    no exception of a later step leaves [main]. *)
Theorem main_exits_only_at_start_up
        (post_id tmp : option string) (args : CliArgs) (s : State) :
  let run := main w post_id tmp args s in
  if exits_at_startup (config s) post_id args
  then fst run = Raise SystemExit
       /\ stats (snd run) = stats s
       /\ exists evs, trace (snd run) = trace s ++ evs
                      /\ Forall (fun e => Trace.is_log e = true) evs
  else fst run = Ok tt.
Proof.
  assert (Hset : forall c, saucenao_enabled (set_hide_progress c true) = saucenao_enabled c
                           /\ deepbooru_enabled (set_hide_progress c true)
                              = deepbooru_enabled c) by (intros c; now split).
  unfold exits_at_startup, main, main_body.
  destruct (PyStr.truthy_opt post_id) eqn:Hid; cbn [negb andb orb]; run_monad;
    rewrite ?(proj1 (Hset _)), ?(proj2 (Hset _)), ?orb_false_r.
  all: destruct (negb (saucenao_enabled (config s)) && negb (deepbooru_enabled (config s)));
    run_monad; cbn [orb].
  all: try (repeat split; exists [ELog MsgNothingToDo]; split; [reflexivity | repeat constructor]).
  all: try (repeat split; exists [ELog MsgInitializing; ELog MsgNothingToDo];
            rewrite <- app_assoc; split; [reflexivity | repeat constructor]).
  all: try (unfold parse_args; run_monad;
            destruct (PyStr.contains "type:" (arg_query args)); run_monad;
            [ repeat split; exists [ELog MsgInitializing; ELog MsgTypeToken];
              rewrite <- app_assoc; split; [reflexivity | repeat constructor]
            | destruct (PyStr.contains "'" (arg_query args)); run_monad ]).
  all: match goal with
       | |- context [get_posts w ?h ?q ?f] => destruct (get_posts w h q f) as [total posts]
       end; run_monad; cbn [PyStr.truthy_opt].
  all: try destruct (PyStr.truthy_opt (arg_sankaku_url args)).
  all: try match goal with
       | |- context [run_posts w ?db ?t ?a ?r ?n 0%nat ?p ?st] =>
           pose proof (run_posts_no_exit db t a r n p 0%nat st) as Hne;
           destruct (run_posts w db t a r n 0%nat p st) as [[[] | e] s1]
       | |- context [tag_from_sankaku w ?u ?q ?p ?st] =>
           pose proof (tag_from_sankaku_no_exit u q p st) as Hne;
           destruct (tag_from_sankaku w u q p st) as [[[] | e] s1]
       end.
  all: cbn [fst] in *; try reflexivity.
  all: destruct e; try reflexivity; now contradiction Hne.
Qed.

End Endings.

(** ** The temporary file *)

(** The part of a trace before its removal event. *)
Ltac before_removal l :=
  lazymatch l with
  | ?a ++ ?b => let p := before_removal b in constr:(a ++ p)
  | ERemove _ :: _ => constr:(@nil Event)
  | ?x :: ?b => let p := before_removal b in constr:(x :: p)
  end.

Ltac after_removal l :=
  lazymatch l with
  | ?a ++ ?b => after_removal b
  | ERemove _ :: ?b => constr:(b)
  | ?x :: ?b => after_removal b
  end.

(** Looks for an event in a trace assembled by the stages, where the
    pieces that hold no event of the kind [f] cannot have it. *)
Ltac in_kind f H :=
  repeat match type of H with
         | In _ (_ ++ _) => apply in_app_or in H; destruct H as [H | H]
         | In _ (_ :: _) => destruct H as [H | H]
         | In _ [] => destruct H
         | In _ ?l =>
             let N := fresh "N" in
             assert (N : Trace.none f l) by none_tac;
             exfalso; exact (in_none_false f l _ N H eq_refl)
         end.

Section TemporaryFile.

Variable w : World.

Lemma fetch_media_file (tmp : option string) (post : Post) (s : State) :
  fst (fetch_media w tmp post s)
  = Ok (if negb (public (config s)) || deepbooru_enabled (config s)
        then Some (temporary_file (config s) tmp post)
        else None).
Proof.
  unfold fetch_media, download_media, temporary_file. run_monad.
  destruct (negb (public (config s)) || deepbooru_enabled (config s)); run_monad;
    [| reflexivity].
  destruct (PyStr.truthy_opt tmp); run_monad; split_if; reflexivity.
Qed.

(** X16.  When an iteration removes a file, it is the file the
    iteration worked on: the one the caller named, else the download in
    the temporary directory.  Every search and every classifier call of
    the iteration was given that file, all of them came before the
    removal, and after it the iteration only sends the update: it
    fetches, searches, classifies and removes nothing more. *)
Theorem temporary_file_is_removed_last
        (db : bool) (tmp : option string) (add rem : list string) (post : Post) (s : State)
        (before after : list Event) (f : string) :
  trace (snd (process_post w db tmp add rem post s))
  = trace s ++ before ++ ERemove f :: after ->
  f = temporary_file (config s) tmp post
  /\ Trace.none is_loop_work after
  /\ Trace.none is_remove before
  /\ (forall p from path r, In (ESearch p from path r) before -> path = f)
  /\ (forall path threshold found rating,
         In (EClassify path threshold found rating) before -> path = Some f).
Proof.
  unfold process_post.
  pose proof (fetch_media_file tmp post s) as Hfile.
  destruct (fetch_media_spec w tmp post s) as (tmp_file & fetched & Efetch & Ffetch & Hfetch).
  rewrite Efetch in Hfile; cbn [fst] in Hfile.
  rewrite (bind_ok _ _ _ _ _ Efetch); clear Efetch.
  search_paths w; classify_paths w; try (cleanup_paths w; try patch_paths w).
  all: try destruct (update_fails w _ _).
  all: path_trace; intros E; apply app_inv_head in E.
  all: try (exfalso; revert E; apply (none_not_split is_remove); [none_tac | reflexivity]).
  all: destruct (path_exists w _ tmp_file); cbn [app] in E.
  all: try (exfalso; revert E; apply (none_not_split is_remove); [none_tac | reflexivity]).
  all: match type of E with
       | ?l = _ =>
           let pre := before_removal l in
           let post := after_removal l in
           replace l with (pre ++ ERemove tmp_file :: post) in E
             by (repeat (rewrite <- app_assoc; cbn [app]); reflexivity)
       end.
  all: apply (split_at_only is_remove) in E; [| none_tac | none_tac | reflexivity].
  all: destruct E as (-> & Ef & ->); injection Ef as ->.
  all: destruct (negb (public (config s)) || deepbooru_enabled (config s));
    [injection Hfile as -> | discriminate Hfile].
  all: split; [reflexivity |].
  all: split; [none_tac |].
  all: split; [none_tac |].
  all: split; [intros p from path r Hin; in_kind Trace.is_search Hin
              | intros path threshold found rating Hin; in_kind Trace.is_classify Hin].
  all: try discriminate Hin.
  all: injection Hin; intros; subst; reflexivity.
Qed.

End TemporaryFile.

Lemma temporary_file_is_removed_last_witness :
  let w := Scenario.world [] (Scenario.answer ["cat"] 4 100) ["dog"] [] in
  let s := mkState (mkConfig false "http://booru" true true true "model" (7 # 10) "tmp/" false)
                   Scenario.no_stats [] in
  let post := Scenario.post 7 ["old"] [] in
  exists before after f,
    trace (snd (process_post w true None [] [] post s))
    = trace s ++ before ++ ERemove f :: after
    /\ f = "tmp/1.png"%string
    /\ f = temporary_file (config s) None post
    /\ Trace.none is_loop_work after
    /\ Trace.none is_remove before
    /\ (forall p from path r, In (ESearch p from path r) before -> path = f)
    /\ (forall path threshold found rating,
           In (EClassify path threshold found rating) before -> path = Some f).
Proof.
  intros w s post.
  exists [EUrlRetrieve "http://booru/data/1.png" "tmp/1.png";
          ESearch false "http://booru/data/1.png" "tmp/1.png" (Scenario.answer ["cat"] 4 100);
          EClassify (Some "tmp/1.png"%string) (7 # 10) ["dog"] "safe"],
         [EUpdate (mkPost 7 "http://booru/data/1.png" ["old"; "cat"; "dog"] "safe"
                          ("https://example.org/art/1" ++ PyStr.nl ++ "Deepbooru")%string [])],
         "tmp/1.png"%string.
  assert (E : trace (snd (process_post w true None [] [] post s))
              = trace s
                ++ [EUrlRetrieve "http://booru/data/1.png" "tmp/1.png";
                    ESearch false "http://booru/data/1.png" "tmp/1.png"
                            (Scenario.answer ["cat"] 4 100);
                    EClassify (Some "tmp/1.png"%string) (7 # 10) ["dog"] "safe"]
                ++ ERemove "tmp/1.png"
                :: [EUpdate (mkPost 7 "http://booru/data/1.png" ["old"; "cat"; "dog"] "safe"
                                    ("https://example.org/art/1" ++ PyStr.nl ++ "Deepbooru")%string
                                    [])])
    by (vm_compute; reflexivity).
  split; [exact E |]. split; [reflexivity |].
  exact (temporary_file_is_removed_last w true None [] [] post s _ _ _ E).
Defined.

(** The file of the caller is removed as well. *)
Example caller_file_is_removed :
  let w := Scenario.world [] (Scenario.answer ["cat"] 4 100) ["dog"] [] in
  let s := Scenario.start (Scenario.cfg false true true true) in
  In (ERemove "upload/7.png")
     (trace (snd (process_post w true (Some "upload/7.png"%string) [] []
                               (Scenario.post 7 ["old"] []) s))).
Proof. vm_compute. repeat (try (left; reflexivity); right). Qed.

(** ** The order of the posts *)

Lemma taken_app (a b : list Event) : taken (a ++ b) = taken a ++ taken b.
Proof.
  induction a as [| e a IH]; [reflexivity |].
  destruct e; cbn [app taken]; rewrite IH; reflexivity.
Qed.

Lemma taken_quiet (l : list Event) : Trace.none Trace.is_next_post l -> taken l = [].
Proof.
  induction 1 as [| e l He _ IH]; [reflexivity |].
  destruct e; cbn [taken]; try exact IH. discriminate He.
Qed.

Section Order.

Variable w : World.

Lemma process_post_takes_none
      (db : bool) (tmp : option string) (add rem : list string) (post : Post) (s : State) :
  exists evs,
    trace (snd (process_post w db tmp add rem post s)) = trace s ++ evs
    /\ Trace.none Trace.is_next_post evs.
Proof.
  process_post_paths w tmp post s.
  all: try destruct (update_fails w _ _).
  all: path_trace; eexists; (split; [reflexivity | none_tac]).
Qed.

(** X17.  The loop takes the posts in the order the server yields
    them, none twice and none skipped: the posts taken are the first
    [n] of them.  When the loop returns without an exception before the
    last post, the classifier is not enabled and a search of the loop
    has answered with a long quota of 0. *)
Theorem loop_takes_posts_in_order
        (db : bool) (tmp : option string) (add rem : list string) (total : Z)
        (posts : list Post) :
  forall (index : nat) (s : State),
    let run := run_posts w db tmp add rem total index posts s in
    exists evs n,
      trace (snd run) = trace s ++ evs
      /\ taken evs = firstn n posts
      /\ (n <= List.length posts)%nat
      /\ (fst run = Ok tt ->
          (n < List.length posts)%nat ->
          deepbooru_enabled (config s) = false
          /\ exists is_public from path r,
              In (ESearch is_public from path r) evs /\ limit_long r = 0).
Proof.
  induction posts as [| post rest IH]; intros index s; cbv zeta.
  - exists [], 0%nat. cbn. rewrite app_nil_r. repeat split; try lia.
  - rewrite run_posts_step. set (s0 := add_events s [ENextPost post]).
    destruct (process_post_takes_none db tmp add rem post s0) as (evs1 & E1 & N1).
    destruct (process_post_config w db tmp add rem post s0) as (_ & Hde & _).
    pose proof (limit_reached_iff_long_quota_used_up w db tmp add rem post s0) as Hlimit.
    destruct (process_post w db tmp add rem post s0) as [[limit_reached | e] s1];
      cbn [fst snd] in *; subst s0; cbn [add_events config trace] in *.
    + specialize (Hlimit s1 limit_reached evs1 eq_refl E1).
      destruct (limit_reached && negb (deepbooru_enabled (config s1))) eqn:Hend.
      * exists (ENextPost post :: evs1), 1%nat.
        unfold statistics. cbn [fst snd trace List.length firstn taken].
        rewrite E1, <- app_assoc, (taken_quiet _ N1).
        repeat split; try lia.
        -- apply andb_prop in Hend as [_ Hend]. rewrite Hde in Hend.
           now destruct (deepbooru_enabled (config s)).
        -- apply andb_prop in Hend as [Hend _].
           destruct (proj1 Hlimit Hend) as (p & f & pa & r & Hin & Hl).
           exists p, f, pa, r. split; [now right | exact Hl].
      * destruct (IH (S index) s1) as (evs2 & n & E2 & T2 & L2 & H2).
        exists (ENextPost post :: evs1 ++ evs2), (S n).
        cbn [List.length firstn taken].
        rewrite E2, E1, <- !app_assoc, taken_app, (taken_quiet _ N1), T2.
        repeat split; try lia.
        -- rewrite <- Hde. apply H2; [assumption | lia].
        -- destruct H2 as (_ & p & f & pa & r & Hin & Hl); [assumption | lia |].
           exists p, f, pa, r. split; [| exact Hl].
           right. apply in_or_app. now right.
    + exists (ENextPost post :: evs1), 1%nat.
      cbn [List.length firstn taken].
      rewrite E1, <- app_assoc, (taken_quiet _ N1).
      repeat split; try lia; discriminate.
Qed.

End Order.

(** ** The closing summary *)

Lemma search_tail_no_summary (r : SauceResult) (b : bool) :
  Trace.none Trace.is_summary (search_tail r b).
Proof.
  unfold Trace.none, search_tail.
  destruct (limit_long r =? 0), (limit_short r =? 0), b; cbn [negb andb app];
    repeat constructor.
Qed.

Ltac no_summary_tac :=
  solve [ repeat first
            [ apply none_app
            | apply Forall_nil
            | apply Forall_cons; [reflexivity |]
            | apply search_tail_no_summary
            | match goal with
              | F : Forall _ ?l |- Trace.none _ ?l =>
                  solve [eapply none_of_kind; [| exact F]; intros e; destruct e; cbn; congruence]
              | F : Forall _ ?l |- Forall _ ?l =>
                  solve [eapply none_of_kind; [| exact F]; intros e; destruct e; cbn; congruence]
              | |- Trace.none _ (if ?c then _ else _) => destruct c
              | |- Forall _ (if ?c then _ else _) => destruct c
              end ] ].

Section Summary.

Variable w : World.

Lemma process_post_no_summary
      (db : bool) (tmp : option string) (add rem : list string) (post : Post) (s : State) :
  exists evs,
    trace (snd (process_post w db tmp add rem post s)) = trace s ++ evs
    /\ Trace.none Trace.is_summary evs.
Proof.
  process_post_paths w tmp post s.
  all: try destruct (update_fails w _ _).
  all: path_trace; eexists; (split; [reflexivity | no_summary_tac]).
Qed.

Lemma run_posts_no_summary
      (db : bool) (tmp : option string) (add rem : list string) (total : Z)
      (posts : list Post) :
  forall (index : nat) (s : State),
  exists evs,
    trace (snd (run_posts w db tmp add rem total index posts s)) = trace s ++ evs
    /\ Trace.none Trace.is_summary evs.
Proof.
  induction posts as [| post rest IH]; intros index s.
  - exists []. cbn. rewrite app_nil_r. split; [reflexivity | constructor].
  - rewrite run_posts_step.
    destruct (process_post_no_summary db tmp add rem post (add_events s [ENextPost post]))
      as (evs & E & N).
    destruct (process_post w db tmp add rem post (add_events s [ENextPost post]))
      as [[limit_reached | e] s1]; cbn [fst snd add_events trace] in *.
    + destruct (limit_reached && negb (deepbooru_enabled (config s1))).
      * cbn. rewrite E, <- app_assoc. eexists; split; [reflexivity |].
        constructor; [reflexivity | exact N].
      * destruct (IH (S index) s1) as (evs' & E' & N'). rewrite E', E, <- !app_assoc.
        eexists; split; [reflexivity |].
        constructor; [reflexivity | apply none_app; assumption].
    + rewrite E, <- app_assoc. eexists; split; [reflexivity |].
      constructor; [reflexivity | exact N].
Qed.

Lemma tag_from_sankaku_no_summary (sankaku_url query : string) (posts : list Post) (s : State) :
  exists evs,
    trace (snd (tag_from_sankaku w sankaku_url query posts s)) = trace s ++ evs
    /\ Trace.none Trace.is_summary evs.
Proof.
  unfold tag_from_sankaku. destruct (PyStr.isnumeric query); run_monad;
    [| eexists; split; [reflexivity | repeat constructor]].
  destruct posts as [| post rest]; run_monad;
    [exists []; rewrite app_nil_r; split; [reflexivity | constructor] |].
  unfold call_scrape_sankaku, try_except, call_update_post. run_monad.
  match goal with
  | |- context [scrape_sankaku w ?h ?u] => destruct (scrape_sankaku w h u) as [scraped rating]
  end.
  run_monad.
  match goal with
  | |- context [update_fails w ?h ?p] => destruct (update_fails w h p)
  end; run_monad; rewrite <- !app_assoc; cbn [app];
    (eexists; split; [reflexivity | repeat constructor]).
Qed.

(** X18.  A run from the command line that does not exit at start-up
    ends in one of two ways.  Either it logs the closing summary as
    the last thing it does, with the total the server gave and the
    counters as they are at the end of the run; or a step has raised an
    exception, which is caught and logged as the last thing, and no
    summary is logged at all. *)
Theorem cli_run_ends_with_summary_or_caught
        (tmp : option string) (args : CliArgs) (s : State) :
  exits_at_startup (config s) None args = false ->
  let run := main w None tmp args s in
  exists front,
    (exists total,
        trace (snd run)
        = trace s ++ front ++ [ELog MsgFinished; ELog (MsgSummary total (stats (snd run)))]
        /\ In (EGetPosts (arg_query args) false total) front)
    \/ (exists e,
           trace (snd run) = trace s ++ front ++ [ECaught e]
           /\ Trace.none Trace.is_summary front).
Proof.
  unfold exits_at_startup, main, main_body. cbn [PyStr.truthy_opt negb andb]. intros Hstay.
  apply orb_false_elim in Hstay as [Hon Htype]. run_monad. rewrite Hon. run_monad.
  unfold parse_args. run_monad. rewrite Htype. run_monad.
  destruct (PyStr.contains "'" (arg_query args)); run_monad.
  all: match goal with
       | |- context [get_posts w ?h ?q ?f] => destruct (get_posts w h q f) as [total posts]
       end; run_monad.
  all: destruct (PyStr.truthy_opt (arg_sankaku_url args)).
  all: match goal with
       | |- context [run_posts w ?db ?t ?a ?r ?n 0%nat ?p ?st] =>
           pose proof (run_posts_no_exit w db t a r n p 0%nat st) as Hne;
           destruct (run_posts_no_summary db t a r n p 0%nat st) as (evs & E & N);
           destruct (run_posts w db t a r n 0%nat p st) as [[[] | e] s1]
       | |- context [tag_from_sankaku w ?u ?q ?p ?st] =>
           pose proof (tag_from_sankaku_no_exit w u q p st) as Hne;
           destruct (tag_from_sankaku_no_summary u q p st) as (evs & E & N);
           destruct (tag_from_sankaku w u q p st) as [[[] | e] s1]
       end.
  all: cbn [fst snd trace] in *.
  all: try (destruct e; [now contradiction Hne | | | |]).
  all: cbn [fst snd trace stats]; rewrite E; rewrite <- ?app_assoc; cbn [app].
  all: first
         [ exists ([ELog MsgInitializing; ELog MsgSingleQuotes;
                    ELog (MsgRetrieving (url (config s)) (arg_query args));
                    EGetPosts (arg_query args) false total; ELog (MsgFound total)] ++ evs);
           solve [ left; exists total; split;
                   [rewrite <- ?app_assoc; reflexivity | do 3 right; now left]
                 | right; eexists; split;
                   [rewrite <- ?app_assoc; reflexivity
                    | repeat (apply Forall_cons; [reflexivity |]); exact N] ]
         | exists ([ELog MsgInitializing;
                    ELog (MsgRetrieving (url (config s)) (arg_query args));
                    EGetPosts (arg_query args) false total; ELog (MsgFound total)] ++ evs);
           solve [ left; exists total; split;
                   [rewrite <- ?app_assoc; reflexivity | do 2 right; now left]
                 | right; eexists; split;
                   [rewrite <- ?app_assoc; reflexivity
                    | repeat (apply Forall_cons; [reflexivity |]); exact N] ] ].
Qed.

End Summary.

Lemma cli_run_ends_with_summary_or_caught_witness :
  let w := Scenario.world Scenario.ten_posts (Scenario.answer ["cat"] 4 100) [] [] in
  let s := Scenario.start (Scenario.cfg false true false false) in
  let run := main w None None (Scenario.query "tag-count:0") s in
  stats (snd run) = mkStats 10 0 0 0
  /\ exists front,
      (exists total,
          trace (snd run)
          = trace s ++ front ++ [ELog MsgFinished; ELog (MsgSummary total (stats (snd run)))]
          /\ In (EGetPosts "tag-count:0" false total) front)
      \/ (exists e,
             trace (snd run) = trace s ++ front ++ [ECaught e]
             /\ Trace.none Trace.is_summary front).
Proof.
  intros w s run. split; [vm_compute; reflexivity |].
  exact (cli_run_ends_with_summary_or_caught w None (Scenario.query "tag-count:0") s eq_refl).
Defined.

Example public_server_run_has_no_summary :
  let w := Scenario.world Scenario.ten_posts (Scenario.answer ["cat"] 4 100) [] [] in
  let s := Scenario.start (Scenario.cfg true true false false) in
  let run := main w None None (Scenario.query "tag-count:0") s in
  fst run = Ok tt
  /\ last (trace (snd run)) (ELog MsgInitializing) = ECaught TypeError
  /\ Trace.count Trace.is_summary (trace (snd run)) = 0%nat
  /\ Trace.count Trace.is_next_post (trace (snd run)) = 1%nat.
Proof. repeat split; vm_compute; reflexivity. Qed.
